(** * folder-analyzer: the media analysis orchestration engine

    A shallow embedding of

    - [src/image_analyzer/core.py]  (class [ImageAnalyzer]: prompt builder and
      single-item analyzer; [analyze_single_image]),
    - [src/image_analyzer/cli.py]  (the command line of the analyzer),
    - [src/process_folder/folder_processor.py]  (class [FolderProcessor]: the
      batch driver, its summary and its [main]), and
    - [src/process_folder/folder_processor_dev.py]  (its discovery),

    together with the properties of the design document that concern them,
    and further properties of the code.

    Conventions of the embedding.

    - Python [str] is [string]; [str.lower] acts on the ASCII letters.
    - Python values that travel through JSON ([dict], [list], [str], numbers,
      [None], booleans) are the type [json]; a [dict] is an association list
      in insertion order.  Numbers, including the [float] seconds of
      [time.time()], are integers.
    - Code that can raise lives in the monad [M S A := S -> result A * S]:
      the state survives a raised exception, as the side effects of a Python
      [try] body survive into its [except] clause.
    - [exn] stands for the classes below [Exception], which is what
      [except Exception] catches.  [KeyboardInterrupt] and [SystemExit] are
      not values of [exn].
    - Everything outside the repository (the operating system, [glob]'s
      directory scan, [subprocess.run], [tempfile], the [json] codec, the
      clock, the vision-model clients) is the interface [Runtime]; every
      theorem holds for all its implementations.  [os.path] is [posixpath]
      and [fnmatch] is the one of posix, which keeps the letter case; what
      is stated of discovery whatever the platform says so.
    - The console is the interface [Strict]: [print] can raise, and so can
      [glob] on a path with a NUL character.  [logging] calls raise nothing
      and are left out.  The batch driver is embedded twice:
      [FolderProcessor] on a quiet host, where every [print] is taken and
      [glob] accepts the path, and [Console] in full, with every [print] at
      its place; [quiet_console] relates the two.
    - An exit status is the value of [main]: a [sys.exit(n)] ends with [n],
      an exception nobody catches with 1. *)

From Stdlib Require Import String Ascii List ZArith Bool Lia Arith.
From Stdlib Require DecimalString.
Import ListNotations.
Local Open Scope string_scope.
Local Open Scope list_scope.

Set Implicit Arguments.
Set Warnings "-register-all".

(* ================================================================== *)
(** * Python values *)
(* ================================================================== *)

Inductive json : Type :=
| JNull
| JBool (b : bool)
| JNum (z : Z)
| JStr (s : string)
| JList (l : list json)
| JDict (d : list (string * json)).

(** The exception classes the two modules raise or meet. *)
Inductive exn_class : Type :=
| FileNotFoundError | FileExistsError | PermissionError | OSError
| ValueError | TypeError | KeyError | AttributeError
| JSONDecodeError | TimeoutExpired | RuntimeError | UnicodeEncodeError.

(** An exception object; [exn_msg] is what [str(e)] returns. *)
Record exn : Type := Exn { exn_cls : exn_class; exn_msg : string }.

Inductive result (A : Type) : Type :=
| Ok (a : A)
| Raise (e : exn).
Arguments Ok {A} a.
Arguments Raise {A} e.

(* ------------------------------------------------------------------ *)
(** ** The state-and-exception monad *)

Definition M (S A : Type) : Type := S -> result A * S.

Definition ret {S A} (a : A) : M S A := fun s => (Ok a, s).

Definition bind {S A B} (m : M S A) (k : A -> M S B) : M S B :=
  fun s => match m s with
           | (Ok a, s') => k a s'
           | (Raise e, s') => (Raise e, s')
           end.

Definition raise {S A} (c : exn_class) (msg : string) : M S A :=
  fun s => (Raise (Exn c msg), s).

(** [try: body  except Exception as e: handler e] *)
Definition try_except {S A} (body : M S A) (handler : exn -> M S A) : M S A :=
  fun s => match body s with
           | (Ok a, s') => (Ok a, s')
           | (Raise e, s') => handler e s'
           end.

Definition gets {S A} (f : S -> A) : M S A := fun s => (Ok (f s), s).
Definition modify {S} (f : S -> S) : M S unit := fun s => (Ok tt, f s).

(** A pure computation that may raise. *)
Definition lift {S A} (r : result A) : M S A := fun s => (r, s).

(** A computation that only reads the state. *)
Definition reading {S A} (f : S -> result A) : M S A := fun s => (f s, s).

(** Run a computation on one component of a larger state. *)
Definition zoom {S T A} (proj : T -> S) (upd : S -> T -> T) (m : M S A) : M T A :=
  fun t => let (r, s') := m (proj t) in (r, upd s' t).

Declare Scope py_scope.
Delimit Scope py_scope with py.
Notation "x <- c ;; k" := (bind c (fun x => k))
  (at level 61, c at next level, right associativity) : py_scope.
Notation "c ;;; k" := (bind c (fun _ => k))
  (at level 61, right associativity) : py_scope.
Local Open Scope py_scope.

(** [for x in xs: body x] *)
Fixpoint for_each {S A} (xs : list A) (body : A -> M S unit) : M S unit :=
  match xs with
  | [] => ret tt
  | x :: rest => body x ;;; for_each rest body
  end.

(* ------------------------------------------------------------------ *)
(** ** Strings *)

Definition ascii_lower (c : ascii) : ascii :=
  let n := nat_of_ascii c in
  if (65 <=? n)%nat && (n <=? 90)%nat then ascii_of_nat (n + 32) else c.

(** [s.lower()] *)
Fixpoint lower (s : string) : string :=
  match s with
  | EmptyString => EmptyString
  | String c r => String (ascii_lower c) (lower r)
  end.

(** [s.startswith(p)] *)
Fixpoint startswith (p s : string) : bool :=
  match p, s with
  | EmptyString, _ => true
  | String _ _, EmptyString => false
  | String a p', String b s' => Ascii.eqb a b && startswith p' s'
  end.

(** [s.endswith(suf)] *)
Fixpoint endswith (suf s : string) : bool :=
  String.eqb s suf ||
  match s with
  | EmptyString => false
  | String _ r => endswith suf r
  end.

(** [sub in s] *)
Fixpoint contains (sub s : string) : bool :=
  startswith sub s ||
  match s with
  | EmptyString => false
  | String _ r => contains sub r
  end.

(** [s.replace(old, new)] for a non-empty [old]: scan from the left, replace
    each occurrence and resume after it.  [skip] counts the characters of
    the occurrence just replaced that are still to be passed over. *)
Fixpoint replace_from (old new : string) (skip : nat) (s : string) : string :=
  match s with
  | EmptyString => EmptyString
  | String c r =>
      match skip with
      | S k => replace_from old new k r
      | O => if startswith old s
             then new ++ replace_from old new (String.length old - 1) r
             else String c (replace_from old new 0 r)
      end
  end.

Definition str_replace (old new s : string) : string := replace_from old new 0 s.

(** [s.count(old)] for a non-empty [old]: the occurrences [replace] finds. *)
Fixpoint count_from (old : string) (skip : nat) (s : string) : nat :=
  match s with
  | EmptyString => 0
  | String c r =>
      match skip with
      | S k => count_from old k r
      | O => if startswith old s
             then S (count_from old (String.length old - 1) r)
             else count_from old 0 r
      end
  end.

Definition str_count (old s : string) : nat := count_from old 0 s.

(** [str(n)] for an integer. *)
Definition str_of_Z (z : Z) : string :=
  DecimalString.NilZero.string_of_int (Z.to_int z).

(** The line feed. *)
Definition LF : string := String (ascii_of_nat 10) EmptyString.

Definition is_slash (c : ascii) : bool := Ascii.eqb c "/".
Definition is_dot (c : ascii) : bool := Ascii.eqb c ".".

(** [s.rstrip('/')] *)
Fixpoint rstrip_slash (s : string) : string :=
  match s with
  | EmptyString => EmptyString
  | String c r =>
      match rstrip_slash r with
      | EmptyString => if is_slash c then EmptyString else String c EmptyString
      | r' => String c r'
      end
  end.

(* ------------------------------------------------------------------ *)
(** ** [os.path] (posixpath) *)

(** The text after the last [/], when there is a [/]. *)
Fixpoint after_last_slash (p : string) : option string :=
  match p with
  | EmptyString => None
  | String c r =>
      match after_last_slash r with
      | Some b => Some b
      | None => if is_slash c then Some r else None
      end
  end.

(** [os.path.basename] *)
Definition basename (p : string) : string :=
  match after_last_slash p with
  | Some b => b
  | None => p
  end.

(** [os.path.join(a, b)] *)
Definition path_join (a b : string) : string :=
  if startswith "/" b then b
  else if String.eqb a "" || endswith "/" a then a ++ b
  else a ++ "/" ++ b.

(** The text before the last [.], when there is a [.]. *)
Fixpoint before_last_dot (n : string) : option string :=
  match n with
  | EmptyString => None
  | String c r =>
      match before_last_dot r with
      | Some pre => Some (String c pre)
      | None => if is_dot c then Some EmptyString else None
      end
  end.

Fixpoint all_dots (s : string) : bool :=
  match s with
  | EmptyString => true
  | String c r => is_dot c && all_dots r
  end.

(** [os.path.splitext(n)[0]] for a name [n] without directory part: the
    last dot splits, unless only dots precede it. *)
Definition splitext_root (n : string) : string :=
  match before_last_dot n with
  | Some pre => if all_dots pre then n else pre
  | None => n
  end.

(** The text from the last [.] on, when there is a [.]. *)
Fixpoint from_last_dot (n : string) : option string :=
  match n with
  | EmptyString => None
  | String c r =>
      match from_last_dot r with
      | Some suf => Some suf
      | None => if is_dot c then Some n else None
      end
  end.

(** The components of a path, between its slashes. *)
Fixpoint components (p : string) : list string :=
  match p with
  | EmptyString => [EmptyString]
  | String c r =>
      if is_slash c then EmptyString :: components r
      else match components r with
           | first :: rest => String c first :: rest
           | [] => [String c EmptyString]
           end
  end.

(** A component that [pathlib] keeps: not empty and not [.]. *)
Definition kept_component (c : string) : bool :=
  negb (String.eqb c "") && negb (String.eqb c ".").

(** [Path(p).name]: the last component of the path, empty components and
    [.] components left out; empty when nothing is left. *)
Definition path_name (p : string) : string :=
  last (filter kept_component (components p)) "".

(** [Path(p).suffix]: the extension of the final component, empty when the
    only dot is the first or the last character of the component.  (From
    Python 3.14 on a final dot is a suffix of its own; neither the empty
    suffix nor [.] is an extension this program knows.) *)
Definition path_suffix (p : string) : string :=
  let name := path_name p in
  match from_last_dot name with
  | Some suf =>
      if (String.length suf =? String.length name)%nat
         || (String.length suf =? 1)%nat
      then "" else suf
  | None => ""
  end.

(* ------------------------------------------------------------------ *)
(** ** Operations on Python values *)

(** [bool(v)] *)
Definition truthy (v : json) : bool :=
  match v with
  | JNull => false
  | JBool b => b
  | JNum z => negb (z =? 0)%Z
  | JStr s => negb (String.eqb s "")
  | JList l => match l with [] => false | _ => true end
  | JDict d => match d with [] => false | _ => true end
  end.

(** An optional string argument under [if s:]: [None] and the empty string
    are falsy. *)
Definition given (s : option string) : option string :=
  match s with
  | Some t => if String.eqb t "" then None else Some t
  | None => None
  end.

(** [a or b] *)
Definition py_or (a b : json) : json := if truthy a then a else b.

Fixpoint assoc {V} (k : string) (d : list (string * V)) : option V :=
  match d with
  | [] => None
  | (k', v) :: rest => if String.eqb k k' then Some v else assoc k rest
  end.

(** [d[k] = v] on a dict: an existing key keeps its place. *)
Fixpoint dict_set {V} (k : string) (v : V) (d : list (string * V))
  : list (string * V) :=
  match d with
  | [] => [(k, v)]
  | (k', v') :: rest =>
      if String.eqb k k' then (k', v) :: rest else (k', v') :: dict_set k v rest
  end.

Definition keys {V} (d : list (string * V)) : list string := map fst d.

(** [k in d] for a value [d] known to be a dict. *)
Definition has_key (k : string) (v : json) : bool :=
  match v with
  | JDict d => match assoc k d with Some _ => true | None => false end
  | _ => false
  end.

Definition type_name (v : json) : string :=
  match v with
  | JNull => "NoneType" | JBool _ => "bool" | JNum _ => "int"
  | JStr _ => "str" | JList _ => "list" | JDict _ => "dict"
  end.

(** [v.get(k, default)] *)
Definition py_get (v : json) (k : string) (default : json) : result json :=
  match v with
  | JDict d => Ok (match assoc k d with Some x => x | None => default end)
  | _ => Raise (Exn AttributeError
                  ("'" ++ type_name v ++ "' object has no attribute 'get'"))
  end.

(** [v[k]] for a string key [k] *)
Definition py_getitem (v : json) (k : string) : result json :=
  match v with
  | JDict d => match assoc k d with
               | Some x => Ok x
               | None => Raise (Exn KeyError ("'" ++ k ++ "'"))
               end
  | JStr _ => Raise (Exn TypeError "string indices must be integers")
  | JList _ =>
      Raise (Exn TypeError "list indices must be integers or slices, not str")
  | _ => Raise (Exn TypeError
                  ("'" ++ type_name v ++ "' object is not subscriptable"))
  end.

(** [len(v)] *)
Definition py_len (v : json) : result nat :=
  match v with
  | JStr s => Ok (String.length s)
  | JList l => Ok (List.length l)
  | JDict d => Ok (List.length d)
  | _ => Raise (Exn TypeError
                  ("object of type '" ++ type_name v ++ "' has no len()"))
  end.

(** [v[:100] + "..." if len(v) > 100 else v], the console preview.  Its
    value is only printed; what matters is whether evaluating it raises. *)
Definition preview (v : json) : result json :=
  match py_len v with
  | Raise e => Raise e
  | Ok n =>
      if (100 <? n)%nat then
        match v with
        | JStr s => Ok (JStr (String.substring 0 100 s ++ "..."))
        | JList _ =>
            Raise (Exn TypeError "can only concatenate list (not 'str') to list")
        | _ => Raise (Exn TypeError "unhashable type: 'slice'")
        end
      else Ok v
  end.

(** [a or b or ... or default]: the operands are evaluated from the left
    and the first truthy one is the value. *)
Fixpoint first_truthy (operands : list (result json)) (default : json)
  : result json :=
  match operands with
  | [] => Ok default
  | Raise e :: _ => Raise e
  | Ok v :: rest => if truthy v then Ok v else first_truthy rest default
  end.

(* ================================================================== *)
(** * The world outside the repository *)
(* ================================================================== *)

(** What [subprocess.run] returns when the program ran to its end. *)
Record CompletedProcess : Type :=
  { returncode : Z; stderr : string }.

(** The operating system and the Python library, over a state [W] of the
    world (file system, clock, environment, the external programs).
    Nothing is assumed of an implementation. *)
Class Runtime (W : Type) : Type := {
  (** [os.path.exists(p)] *)
  os_path_exists : string -> W -> bool;
  (** [os.path.abspath(p)], against the current working directory *)
  os_path_abspath : string -> W -> string;
  (** [os.path.getsize(p)] *)
  os_path_getsize : string -> W -> result Z;
  (** the names [os.scandir(d)] enumerates, in its order; [None] when it
      raises [OSError] (no such directory).  [""] is the current directory. *)
  os_scandir : string -> W -> option (list string);
  (** the directories a directory pattern with wildcards expands to *)
  glob_dirs : string -> W -> list string;
  (** [os.makedirs(d, exist_ok=True)] *)
  os_makedirs : string -> M W unit;
  (** [open(p, 'r', encoding='utf-8').read()] *)
  read_text : string -> W -> result string;
  (** [open(p, 'w', encoding='utf-8').write(text)] *)
  write_text : string -> string -> M W unit;
  (** [os.environ.get(name)] *)
  os_environ : string -> W -> option string;
  (** [time.time()] *)
  time_time : W -> Z;
  (** [tempfile.mkdtemp()] *)
  tempfile_mkdtemp : M W string;
  (** [subprocess.run(cmd, capture_output=True, text=True, timeout=300)];
      raises [TimeoutExpired] after 300 seconds *)
  subprocess_run : list string -> M W CompletedProcess;
  (** [json.loads]; raises [JSONDecodeError] *)
  json_loads : string -> result json;
  (** [json.dumps(v, indent=2, ensure_ascii=False)] *)
  json_dumps : json -> string
}.

(* ================================================================== *)
(** * [image_analyzer/core.py] *)
(* ================================================================== *)

Module ImageAnalyzer.

(** A vision-model client of [video_analyzer.clients]: its [model]
    attribute ([None] when it was never set) and its [generate] method,
    which sees the attribute, the prompt and the image path. *)
Record Client (W : Type) : Type := {
  model : option string;
  generate : option string -> string -> string -> M W json
}.

(** [self] of [ImageAnalyzer]: the config manager's [get_config()] and the
    [clients] dict filled by [_setup_clients]. *)
Record Self (W : Type) : Type := {
  get_config : W -> result json;
  clients : list (string * Client W)
}.

(** The state [analyze_image] runs in: the analyzer object (whose client
    handles it mutates) and the world. *)
Record AState (W : Type) : Type := {
  self : Self W;
  world : W
}.

(** The substitution marker of a prompt template. *)
Definition MARKER : string := "{prompt}".

(** The built-in template of [_load_frame_prompt]. *)
Definition FALLBACK_PROMPT : string :=
  "Analyze this image and provide a detailed description of what you see. " ++ LF ++
  "Include information about:" ++ LF ++
  "- Objects and people in the image" ++ LF ++
  "- Actions or activities taking place" ++ LF ++
  "- Setting and environment" ++ LF ++
  "- Colors, lighting, and composition" ++ LF ++
  "- Any text or signs visible" ++ LF ++
  LF ++
  "{prompt}" ++ LF ++
  LF ++
  "Provide a clear, detailed description in paragraph form.".

(** The candidate locations of the template file, in search order. *)
Definition prompt_paths : list string :=
  [ path_join "prompts" "image.txt";
    path_join (path_join ".." "prompts") "image.txt";
    path_join (path_join (path_join ".." "..") "prompts") "image.txt" ].

(** The text that takes the place of the marker. *)
Definition prompt_injection (custom_prompt : option string) : string :=
  match given custom_prompt with
  | Some q => "I want to know: " ++ q
  | None => ""
  end.

Section Analyzer.
Context {W : Type} {R : Runtime W}.

Definition in_world {A} (m : M W A) : M (AState W) A :=
  zoom (@world W) (fun w s => {| self := self s; world := w |}) m.

(** [_get_image_mime_type] *)
Definition _get_image_mime_type (image_path : string) : string :=
  let ext := lower (path_suffix image_path) in
  match assoc ext [ (".jpg", "image/jpeg"); (".jpeg", "image/jpeg");
                    (".png", "image/png"); (".gif", "image/gif");
                    (".webp", "image/webp"); (".bmp", "image/bmp") ] with
  | Some m => m
  | None => "image/jpeg"
  end.

(** The [for prompt_path in prompt_paths] loop: the text of the first
    candidate that exists, [None] when the loop ends without [break]. *)
Fixpoint read_first_existing (paths : list string) : M W (option string) :=
  match paths with
  | [] => ret None
  | p :: rest =>
      ex <- gets (os_path_exists p) ;;
      if ex then (t <- reading (read_text p) ;; ret (Some t))
      else read_first_existing rest
  end.

(** [_load_frame_prompt] *)
Definition _load_frame_prompt (custom_prompt : option string) : M W string :=
  found <- read_first_existing prompt_paths ;;
  let frame_prompt :=
    match given found with
    | Some t => t
    | None => FALLBACK_PROMPT
    end in
  ret (str_replace MARKER (prompt_injection custom_prompt) frame_prompt).

(** [str(v)] of a hashable value, for the message of [ValueError] *)
Definition str_of_key (v : json) : string :=
  match v with
  | JStr s => s
  | JNum z => str_of_Z z
  | JBool true => "True"
  | JBool false => "False"
  | _ => "None"
  end.

(** [if client_name not in self.clients: raise ValueError(...)] followed by
    [self.clients[client_name]]: the key under which the client is held. *)
Definition resolve_client (client_name : json) : M (AState W) string :=
  match client_name with
  | JList _ => raise TypeError "unhashable type: 'list'"
  | JDict _ => raise TypeError "unhashable type: 'dict'"
  | JStr name =>
      cs <- gets (fun s => clients (self s)) ;;
      match assoc name cs with
      | Some _ => ret name
      | None => raise ValueError ("Client '" ++ name ++ "' not configured")
      end
  | other => raise ValueError ("Client '" ++ str_of_key other ++ "' not configured")
  end.

(** [client.model = model] on the shared handle *)
Definition set_model (name m : string) : M (AState W) unit :=
  modify (fun s =>
    let cs := clients (self s) in
    match assoc name cs with
    | Some c =>
        {| self := {| get_config := get_config (self s);
                      clients := dict_set name
                                   {| model := Some m; generate := generate c |} cs |};
           world := world s |}
    | None => s
    end).

(** [client.model], [AttributeError] when the attribute was never set *)
Definition get_model (name : string) : M (AState W) string :=
  cs <- gets (fun s => clients (self s)) ;;
  match assoc name cs with
  | Some c => match model c with
              | Some m => ret m
              | None => raise AttributeError "client object has no attribute 'model'"
              end
  | None => raise KeyError ("'" ++ name ++ "'")
  end.

(** [client.generate(prompt, image_path=image_path)] *)
Definition call_generate (name prompt image_path : string) : M (AState W) json :=
  cs <- gets (fun s => clients (self s)) ;;
  match assoc name cs with
  | Some c => in_world (generate c (model c) prompt image_path)
  | None => raise KeyError ("'" ++ name ++ "'")
  end.

(** The [try] block of [analyze_image]. *)
Definition analyze_image_try (image_path : string)
    (client_name model custom_prompt : option string) : M (AState W) json :=
  ex <- gets (fun s => os_path_exists image_path (world s)) ;;
  (if negb ex
   then raise FileNotFoundError ("Image file not found: " ++ image_path)
   else ret tt) ;;;
  client_name <-
    match given client_name with
    | Some n => ret (JStr n)
    | None =>
        config <- reading (fun s => get_config (self s) (world s)) ;;
        cl <- lift (py_get config "clients" (JDict [])) ;;
        lift (py_get cl "default" (JStr "ollama"))
    end ;;
  name <- resolve_client client_name ;;
  match given model with
  | Some m => set_model name m
  | None => ret tt
  end ;;;
  _ <- get_model name ;;
  let mime_type := _get_image_mime_type image_path in
  prompt <- in_world (_load_frame_prompt custom_prompt) ;;
  analysis_result <- call_generate name prompt image_path ;;
  _ <- lift (py_len analysis_result) ;;
  abs <- gets (fun s => os_path_abspath image_path (world s)) ;;
  used_model <- get_model name ;;
  size <- reading (fun s => os_path_getsize image_path (world s)) ;;
  ret (JDict
    [ ("image_path", JStr abs);
      ("image_filename", JStr (basename image_path));
      ("analysis", JDict [ ("client", JStr name);
                           ("model", JStr used_model);
                           ("prompt_used", JStr prompt);
                           ("description", analysis_result) ]);
      ("metadata", JDict [ ("file_size", JNum size);
                           ("mime_type", JStr mime_type);
                           ("analysis_successful", JBool true) ]) ]).

(** The [except Exception as e] clause of [analyze_image]. *)
Definition analyze_image_except (image_path : string) (e : exn)
  : M (AState W) json :=
  ex <- gets (fun s => os_path_exists image_path (world s)) ;;
  abs <- gets (fun s => os_path_abspath image_path (world s)) ;;
  ret (JDict
    [ ("image_path", JStr (if ex then abs else image_path));
      ("image_filename", JStr (basename image_path));
      ("error", JStr (exn_msg e));
      ("metadata", JDict [ ("analysis_successful", JBool false) ]) ]).

(** [ImageAnalyzer.analyze_image] *)
Definition analyze_image (image_path : string)
    (client_name model custom_prompt : option string) : M (AState W) json :=
  try_except
    (analyze_image_try image_path client_name model custom_prompt)
    (analyze_image_except image_path).

(** [ImageAnalyzer.save_analysis]: its [except] clause logs and re-raises. *)
Definition save_analysis (analysis_result : json) (output_dir : string)
  : M W string :=
  os_makedirs output_dir ;;;
  let output_file := path_join output_dir "image_analysis.json" in
  write_text output_file (json_dumps analysis_result) ;;;
  ret output_file.

End Analyzer.

(** [r["metadata"]["analysis_successful"]] of a record *)
Definition analysis_successful (r : json) : option json :=
  match r with
  | JDict d => match assoc "metadata" d with
               | Some (JDict m) => assoc "analysis_successful" m
               | _ => None
               end
  | _ => None
  end.

(** The AnalysisRecord invariant: exactly one of the keys [analysis] and
    [error] is present, and [metadata.analysis_successful] tells which. *)
Definition branch_invariant (r : json) : Prop :=
  xorb (has_key "analysis" r) (has_key "error" r) = true /\
  analysis_successful r = Some (JBool (has_key "analysis" r)).

End ImageAnalyzer.

(* ================================================================== *)
(** * [glob.glob] *)
(* ================================================================== *)

(** [os.path.split] *)
Definition path_split (p : string) : string * string :=
  match after_last_slash p with
  | None => ("", p)
  | Some tail =>
      let head := String.substring 0 (String.length p - String.length tail) p in
      match rstrip_slash head with
      | EmptyString => (head, tail)
      | stripped => (stripped, tail)
      end
  end.

(** [glob.has_magic] *)
Definition has_magic (s : string) : bool :=
  contains "*" s || contains "?" s || contains "[" s.

(** [glob._ishidden] *)
Definition is_hidden (name : string) : bool := startswith "." name.

(** [fnmatch] on posix, for the patterns this program uses: a [*] followed
    by literal text matches the names that end with the text; a pattern
    without wildcard matches itself. *)
Definition fnmatch (name pat : string) : bool :=
  match pat with
  | String "*" literal => endswith literal name
  | _ => String.eqb name pat
  end.

Section Glob.
Context {W : Type} {R : Runtime W}.

(** [glob._glob1]: the names of one directory that match, hidden names
    left out; no names when the directory cannot be scanned. *)
Definition glob1 (dirname pattern : string) (w : W) : list string :=
  match os_scandir dirname w with
  | None => []
  | Some names =>
      filter (fun n => fnmatch n pattern)
             (filter (fun n => negb (is_hidden n)) names)
  end.

(** [glob.glob(pathname)] for a pathname whose last component has a
    wildcard, when it returns; [Console.glob] has the [ValueError] it raises
    for a path with a NUL character. *)
Definition glob (pathname : string) (w : W) : list string :=
  let (dirname, pattern) := path_split pathname in
  if String.eqb dirname "" then glob1 "" pattern w
  else
    let dirs := if has_magic dirname then glob_dirs dirname w else [dirname] in
    flat_map (fun d => map (path_join d) (glob1 d pattern w)) dirs.

End Glob.

(* ================================================================== *)
(** * [process_folder/folder_processor.py] *)
(* ================================================================== *)

Module FolderProcessor.

(** [self] of [FolderProcessor], as [__init__] leaves it.  [__init__] also
    stores the two extension lists, which nothing changes afterwards. *)
Record Self : Type := {
  model : string;
  prompt : option string;
  whisper_model : string
}.

(** [FolderProcessor.__init__]: [self.model = model or "gemma3:latest"] *)
Definition init (model prompt : option string) (whisper_model : string) : Self :=
  {| model := match given model with
              | Some m => m
              | None => "gemma3:latest"
              end;
     prompt := prompt;
     whisper_model := whisper_model |}.

Definition video_extensions : list string :=
  ["*.mp4"; "*.avi"; "*.mov"; "*.mkv"; "*.wmv"; "*.flv"; "*.webm"; "*.m4v"].

Definition image_extensions : list string :=
  ["*.jpg"; "*.jpeg"; "*.png"; "*.gif"; "*.webp"; "*.bmp"].

(** What [process_video] and [process_image] return: [{"error": ...}] or
    [{"success": True, "output_dir": ...}]. *)
Inductive Outcome : Type :=
| Failed (error : string)
| Succeeded (output_dir : string).

Inductive media : Type := video | image.

Definition media_name (m : media) : string :=
  match m with video => "video" | image => "image" end.

(** The entry of a file that failed. *)
Definition error_entry (msg : string) (m : media) : json :=
  JDict [ ("error", JStr msg); ("type", JStr (media_name m)) ].

(** The state of a batch: the [results] dict being filled and the world. *)
Record State (W : Type) : Type := {
  results : list (string * json);
  world : W
}.

Section Batch.
Context {W : Type} {R : Runtime W}.

Definition in_world {A} (m : M W A) : M (State W) A :=
  zoom (@world W) (fun w s => {| results := results s; world := w |}) m.

(** [results[key] = entry] *)
Definition set_result (key : string) (entry : json) : M (State W) unit :=
  modify (fun s => {| results := dict_set key entry (results s);
                      world := world s |}).

(** The flags both commands share: prompt, client selection, model. *)
Definition prompt_args (self : Self) : list string :=
  match prompt self with
  | Some p => ["--prompt"; p]
  | None => []
  end.

Definition openai_args (w : W) : list string :=
  ["--client"; "openai_api"; "--api-url"; "https://api.openai.com/v1"] ++
  match os_environ "OPENAI_API_KEY" w with
  | Some key => ["--api-key"; key]
  | None => []
  end.

Definition image_cmd (self : Self) (image_path output_dir : string) (w : W)
  : list string :=
  ["image-analyzer"; image_path] ++ prompt_args self ++
  (if contains "gpt" (model self) then openai_args w else []) ++
  ["--model"; model self] ++
  ["--output-dir"; output_dir].

Definition video_cmd (self : Self) (video_path output_dir : string) (w : W)
  : list string :=
  ["video-analyzer"; video_path] ++ prompt_args self ++
  (if contains "gpt" (lower (model self)) then openai_args w else []) ++
  ["--model"; model self] ++
  ["--whisper-model"; whisper_model self] ++
  ["--output"; output_dir].

(** The directory the external program writes to: a fresh temporary
    directory, or the given one, created when absent.  This runs before the
    [try] of [process_image] and [process_video]. *)
Definition prepare_output_dir (output_dir : option string) : M W string :=
  match output_dir with
  | None => tempfile_mkdtemp
  | Some d => os_makedirs d ;;; ret d
  end.

(** The [try] ... [except] of [process_image] and [process_video]. *)
Definition run_analyzer (cmd : W -> list string) (output_dir : string)
    (timeout_msg : string) : M W Outcome :=
  try_except
    (cmd <- gets cmd ;;
     result <- subprocess_run cmd ;;
     if (returncode result =? 0)%Z
     then ret (Succeeded output_dir)
     else ret (Failed ("Return code " ++ str_of_Z (returncode result)
                         ++ ": " ++ stderr result)))
    (fun e => match exn_cls e with
              | TimeoutExpired => ret (Failed timeout_msg)
              | _ => ret (Failed (exn_msg e))
              end).

(** [FolderProcessor.process_image] *)
Definition process_image (self : Self) (image_path : string)
    (output_dir : option string) : M W Outcome :=
  output_dir <- prepare_output_dir output_dir ;;
  run_analyzer (image_cmd self image_path output_dir) output_dir
               "Timeout processing image".

(** [FolderProcessor.process_video] *)
Definition process_video (self : Self) (video_path : string)
    (output_dir : option string) : M W Outcome :=
  output_dir <- prepare_output_dir output_dir ;;
  run_analyzer (video_cmd self video_path output_dir) output_dir
               "Timeout processing video".

(** [FolderProcessor.find_videos] *)
Definition find_videos (folder_path : string) (w : W) : list string :=
  let folder_path := rstrip_slash folder_path in
  flat_map (fun extension => glob (path_join folder_path extension) w)
           video_extensions.

(** [FolderProcessor.find_images] *)
Definition find_images (folder_path : string) (w : W) : list string :=
  let folder_path := rstrip_slash folder_path in
  flat_map (fun extension => glob (path_join folder_path extension) w)
           image_extensions.

(** [FolderProcessor.find_all_media] *)
Definition find_all_media (folder_path : string) (w : W)
  : list string * list string :=
  (find_videos folder_path w, find_images folder_path w).

(** [FolderProcessor.save_results], with the default [filename].
    [os.makedirs(None)] raises [TypeError]. *)
Definition save_results (results : list (string * json))
    (output_dir : option string) : M W string :=
  match output_dir with
  | None => raise TypeError
              "expected str, bytes or os.PathLike object, not NoneType"
  | Some d =>
      os_makedirs d ;;;
      let results_file := path_join d "media_descriptions.json" in
      write_text results_file (json_dumps (JDict results)) ;;;
      ret results_file
  end.

(** [os.path.join(output_dir, f"{kind}_{stem}")] when [output_dir] is
    truthy, else [None]. *)
Definition media_output_dir (m : media) (output_dir : option string)
    (clean_filename : string) : option string :=
  match given output_dir with
  | Some d => Some (path_join d (media_name m ++ "_" ++ splitext_root clean_filename))
  | None => None
  end.

(** The description expression of the video branch. *)
Definition video_description (analysis_data : json) : result json :=
  first_truthy [ py_get analysis_data "final_description" JNull;
                 py_get analysis_data "video_description" JNull;
                 py_get analysis_data "description" JNull ]
               (JStr "No description available").

(** [analysis_data.get("transcript")["text"] or "No transcript available"] *)
Definition video_transcript (analysis_data : json) : result json :=
  match py_get analysis_data "transcript" JNull with
  | Raise e => Raise e
  | Ok t => first_truthy [ py_getitem t "text" ] (JStr "No transcript available")
  end.

(** The description expression of the image branch. *)
Definition image_description (analysis_data : json) : result json :=
  first_truthy [ match py_get analysis_data "analysis" (JDict []) with
                 | Raise e => Raise e
                 | Ok a => py_get a "description" JNull
                 end;
                 py_get analysis_data "description" JNull ]
               (JStr "No description available").

(** [with open(json_file) as f: analysis_data = json.load(f)] *)
Definition load_json (json_file : string) : M (State W) json :=
  text <- reading (fun s => read_text json_file (world s)) ;;
  lift (json_loads text).

(** The body of the [try] of the video loop. *)
Definition video_try (self : Self) (output_dir : option string)
    (video_file clean_filename : string) : M (State W) unit :=
  abs_path <- gets (fun s => os_path_abspath video_file (world s)) ;;
  start_time <- gets (fun s => time_time (world s)) ;;
  result <- in_world (process_video self abs_path
                        (media_output_dir video output_dir clean_filename)) ;;
  end_time <- gets (fun s => time_time (world s)) ;;
  let run_time := (end_time - start_time)%Z in
  match result with
  | Failed err => set_result clean_filename (error_entry err video)
  | Succeeded dir =>
      let json_file := path_join dir "analysis.json" in
      found <- gets (fun s => os_path_exists json_file (world s)) ;;
      json_files <- gets (fun s => glob "output/*.json" (world s)) ;;
      match (if found then Some json_file else hd_error json_files) with
      | None => set_result clean_filename
                  (error_entry "No JSON output found" video)
      | Some json_file =>
          analysis_data <- load_json json_file ;;
          description <- lift (video_description analysis_data) ;;
          transcript <- lift (video_transcript analysis_data) ;;
          response <- lift (py_getitem description "response") ;;
          set_result clean_filename
            (JDict [ ("description", response);
                     ("type", JStr "video");
                     ("processing_time", JNum run_time);
                     ("transcript", transcript);
                     ("file_path", JStr abs_path) ]) ;;;
          rs <- gets (@results W) ;;
          _ <- in_world (save_results rs output_dir) ;;
          _ <- lift (preview description) ;;
          ret tt
      end
  end.

(** The body of the [try] of the image loop. *)
Definition image_try (self : Self) (output_dir : option string)
    (image_file clean_filename : string) : M (State W) unit :=
  abs_path <- gets (fun s => os_path_abspath image_file (world s)) ;;
  start_time <- gets (fun s => time_time (world s)) ;;
  result <- in_world (process_image self abs_path
                        (media_output_dir image output_dir clean_filename)) ;;
  end_time <- gets (fun s => time_time (world s)) ;;
  let run_time := (end_time - start_time)%Z in
  match result with
  | Failed err => set_result clean_filename (error_entry err image)
  | Succeeded dir =>
      let json_file := path_join dir "image_analysis.json" in
      found <- gets (fun s => os_path_exists json_file (world s)) ;;
      found_default <-
        gets (fun s => os_path_exists "output/image_analysis.json" (world s)) ;;
      match (if found then Some json_file
             else if found_default then Some "output/image_analysis.json"
             else None) with
      | None => set_result clean_filename
                  (error_entry "No JSON output found" image)
      | Some json_file =>
          analysis_data <- load_json json_file ;;
          analysis_response <- lift (image_description analysis_data) ;;
          description <- lift (py_getitem analysis_response "response") ;;
          set_result clean_filename
            (JDict [ ("description", description);
                     ("type", JStr "image");
                     ("processing_time", JNum run_time);
                     ("file_path", JStr abs_path) ]) ;;;
          rs <- gets (@results W) ;;
          _ <- in_world (save_results rs output_dir) ;;
          _ <- lift (preview description) ;;
          ret tt
      end
  end.

(** One turn of either loop, on a console that takes every text: the [try]
    and its [except Exception as e].  [Console.process_item] is the turn
    with its [print] calls. *)
Definition process_item (self : Self) (output_dir : option string)
    (m : media) (file : string) : M (State W) unit :=
  let clean_filename := basename file in
  try_except
    (match m with
     | video => video_try self output_dir file clean_filename
     | image => image_try self output_dir file clean_filename
     end)
    (fun e => set_result clean_filename (error_entry (exn_msg e) m)).

(** The two loops of [process_folder], videos first. *)
Definition process_queues (self : Self) (output_dir : option string)
    (video_files image_files : list string) : M (State W) unit :=
  for_each video_files (process_item self output_dir video) ;;;
  for_each image_files (process_item self output_dir image).

(** [FolderProcessor.process_folder], on a console that takes every text
    and for a folder path that [glob] accepts; [Console.process_folder] is
    the method in full. *)
Definition process_folder (self : Self) (folder_path : string)
    (output_dir : option string) : M W (list (string * json)) :=
  fun w =>
    let (video_files, image_files) := find_all_media folder_path w in
    let total_files := (List.length video_files + List.length image_files)%nat in
    if (total_files =? 0)%nat then (Ok [], w)
    else
      let (r, s) := process_queues self output_dir video_files image_files
                      {| results := []; world := w |} in
      match r with
      | Ok _ => (Ok (results s), world s)
      | Raise e => (Raise e, world s)
      end.

End Batch.

End FolderProcessor.

(* ================================================================== *)
(** * The vocabulary of the properties *)
(* ================================================================== *)

(** [wp m Q s]: running [m] from [s] ends in a result and a state that
    satisfy [Q]. *)
Definition wp {S A} (m : M S A) (Q : result A -> S -> Prop) (s : S) : Prop :=
  Q (fst (m s)) (snd (m s)).

Section PromptVocabulary.
Context {W : Type} {R : Runtime W}.
Import ImageAnalyzer.

(** The template a prompt is built from: the text of the first candidate
    path that exists, unless that text is empty; the built-in template
    otherwise. *)
Definition selected_template (w : W) (template : string) : Prop :=
  match find (fun p => os_path_exists p w) prompt_paths with
  | Some p =>
      exists text, read_text p w = Ok text /\
                   template = if String.eqb text "" then FALLBACK_PROMPT else text
  | None => template = FALLBACK_PROMPT
  end.

End PromptVocabulary.

(** The built-in template before and after its marker. *)
Definition FALLBACK_BEFORE : string :=
  "Analyze this image and provide a detailed description of what you see. " ++ LF ++
  "Include information about:" ++ LF ++
  "- Objects and people in the image" ++ LF ++
  "- Actions or activities taking place" ++ LF ++
  "- Setting and environment" ++ LF ++
  "- Colors, lighting, and composition" ++ LF ++
  "- Any text or signs visible" ++ LF ++
  LF.

Definition FALLBACK_AFTER : string :=
  LF ++ LF ++ "Provide a clear, detailed description in paragraph form.".

Section BatchVocabulary.
Context {W : Type} {R : Runtime W}.
Import FolderProcessor.

(** The entry of a file that was analysed: a video entry carries a
    transcript, an image entry does not. *)
Definition success_entry (m : media) (description transcript : json)
    (run_time : Z) (abs_path : string) : json :=
  match m with
  | video => JDict [ ("description", description);
                     ("type", JStr "video");
                     ("processing_time", JNum run_time);
                     ("transcript", transcript);
                     ("file_path", JStr abs_path) ]
  | image => JDict [ ("description", description);
                     ("type", JStr "image");
                     ("processing_time", JNum run_time);
                     ("file_path", JStr abs_path) ]
  end.

(** The value found under the prioritized keys of the JSON artifact. *)
Definition description_of (m : media) (analysis_data : json) : result json :=
  match m with
  | video => video_description analysis_data
  | image => image_description analysis_data
  end.

(** The batch artifact. *)
Definition results_file (output_dir : string) : string :=
  path_join output_dir "media_descriptions.json".

(** [e] is an error entry. *)
Definition is_error (e : json) : bool := has_key "error" e.

(** The [type] field of an entry. *)
Definition entry_type (e : json) : option json :=
  match e with
  | JDict d => assoc "type" d
  | _ => None
  end.

(** An entry of kind [m] in a result map. *)
Definition of_type (m : media) (kv : string * json) : Prop :=
  entry_type (snd kv) = Some (JStr (media_name m)).

(** What one turn of a loop records for its file, between the state
    [before] and the state [after] it: an error entry, or the success entry
    built from the parsed artifact, in which case the result map was written
    to [output_dir] as the turn's last change to the world. *)
Inductive recorded (output_dir : option string) (m : media) (file : string)
    (before after : State W) (e : json) : Prop :=
| recorded_error msg :
    e = error_entry msg m ->
    recorded output_dir m file before after e
| recorded_success d json_file text readable data value response transcript
                   run_time saving :
    output_dir = Some d ->
    read_text json_file readable = Ok text ->
    json_loads text = Ok data ->
    description_of m data = Ok value ->
    py_getitem value "response" = Ok response ->
    (m = video -> video_transcript data = Ok transcript) ->
    e = success_entry m response transcript run_time
          (os_path_abspath file (world before)) ->
    write_text (results_file d) (json_dumps (JDict (results after))) saving
      = (Ok tt, world after) ->
    recorded output_dir m file before after e.

(** The files of a batch in processing order, each with its kind. *)
Definition queue (video_files image_files : list string)
  : list (media * string) :=
  map (pair video) video_files ++ map (pair image) image_files.

(** The turns of the two loops, over the queue. *)
Definition process_all (self : Self) (output_dir : option string)
    (items : list (media * string)) : M (State W) unit :=
  for_each items (fun item => process_item self output_dir (fst item) (snd item)).

(** The state of the batch after the given items. *)
Definition state_after (self : Self) (output_dir : option string)
    (items : list (media * string)) (s : State W) : State W :=
  snd (process_all self output_dir items s).

(** The state a batch starts in. *)
Definition start (w : W) : State W := {| results := []; world := w |}.

End BatchVocabulary.

(** The keys of a dict after assigning to [k]. *)
Definition add_key (ks : list string) (k : string) : list string :=
  if existsb (String.eqb k) ks then ks else ks ++ [k].

(** The distinct elements of a list, in order of first occurrence: the keys
    of a dict filled by assigning to the elements in turn. *)
Definition distinct (ks : list string) : list string := fold_left add_key ks [].

(** The extensions as the suffixes they stand for. *)
Definition video_suffixes : list string :=
  [".mp4"; ".avi"; ".mov"; ".mkv"; ".wmv"; ".flv"; ".webm"; ".m4v"].

Definition image_suffixes : list string :=
  [".jpg"; ".jpeg"; ".png"; ".gif"; ".webp"; ".bmp"].

(** [name] ends with one of [suffixes]. *)
Definition has_suffix (suffixes : list string) (name : string) : bool :=
  existsb (fun suffix => endswith suffix name) suffixes.

Section DiscoveryVocabulary.
Context {W : Type} {R : Runtime W}.

(** [name] is an entry of the directory [dirname]. *)
Definition listed (dirname name : string) (w : W) : Prop :=
  exists names, os_scandir dirname w = Some names /\ In name names.

(** The entries of [dirname] that discovery keeps for one suffix, as paths. *)
Definition matching (dirname suffix : string) (w : W) : list string :=
  match os_scandir dirname w with
  | None => []
  | Some names =>
      map (path_join dirname)
          (filter (fun n => negb (is_hidden n) && endswith suffix n) names)
  end.

End DiscoveryVocabulary.

(** No element of the list ends with another one. *)
Fixpoint pairwise_incomparable (suffixes : list string) : bool :=
  match suffixes with
  | [] => true
  | s :: rest =>
      forallb (fun s' => negb (endswith s s') && negb (endswith s' s)) rest
      && pairwise_incomparable rest
  end.

(** A directory listing as file systems give it: no name twice, no slash
    inside a name. *)
Definition sane_names (names : list string) : Prop :=
  NoDup names /\ Forall (fun n => contains "/" n = false) names.


(* ================================================================== *)
(** * A small runtime to run the model on *)
(* ================================================================== *)

(** An in-memory file system with a clock.  The external programs and the
    texts [json.loads] accepts are parameters, so that each example states
    the environment it runs in. *)
Module Toy.

Record World : Type := {
  files : list (string * string);
  dirs : list (string * list string);
  clock : Z
}.

Definition quote : string := String (ascii_of_nat 34) EmptyString.

(** A compact serializer (no indentation, no escapes). *)
Fixpoint dumps (v : json) : string :=
  match v with
  | JNull => "null"
  | JBool true => "true"
  | JBool false => "false"
  | JNum z => str_of_Z z
  | JStr s => (quote ++ s ++ quote)%string
  | JList l =>
      ("[" ++ (fix items (l : list json) : string :=
                 match l with
                 | [] => ""
                 | x :: rest => dumps x ++ "," ++ items rest
                 end) l ++ "]")%string
  | JDict d =>
      ("{" ++ (fix members (d : list (string * json)) : string :=
                 match d with
                 | [] => ""
                 | (k, x) :: rest =>
                     quote ++ k ++ quote ++ ":" ++ dumps x ++ "," ++ members rest
                 end) d ++ "}")%string
  end.

(** [json.loads] reads back the documents of [docs]. *)
Definition loads (docs : list json) (text : string) : result json :=
  match assoc text (map (fun v => (dumps v, v)) docs) with
  | Some v => Ok v
  | None => Raise (Exn JSONDecodeError "Expecting value")
  end.

Definition is_some {A} (o : option A) : bool :=
  match o with Some _ => true | None => false end.

Definition exists_ (p : string) (w : World) : bool :=
  is_some (assoc p (files w)) || is_some (assoc p (dirs w)).

Definition makedirs (d : string) : M World unit :=
  fun w =>
    if String.eqb d "" then
      (Raise (Exn FileNotFoundError "No such file or directory: ''"), w)
    else if is_some (assoc d (files w)) then
      (Raise (Exn FileExistsError ("File exists: '" ++ d ++ "'")), w)
    else if is_some (assoc d (dirs w)) then (Ok tt, w)
    else (Ok tt, {| files := files w;
                    dirs := dict_set d [] (dirs w);
                    clock := clock w |}).

Definition read (p : string) (w : World) : result string :=
  match assoc p (files w) with
  | Some t => Ok t
  | None => Raise (Exn FileNotFoundError ("No such file or directory: '" ++ p ++ "'"))
  end.

Definition write (p text : string) : M World unit :=
  fun w => (Ok tt, {| files := dict_set p text (files w);
                      dirs := dirs w;
                      clock := clock w |}).

Definition getsize (p : string) (w : World) : result Z :=
  match assoc p (files w) with
  | Some t => Ok (Z.of_nat (String.length t))
  | None => Raise (Exn FileNotFoundError ("No such file or directory: '" ++ p ++ "'"))
  end.

Definition abspath (p : string) (w : World) : string :=
  if startswith "/" p then p else "/work/" ++ p.

Definition tick (seconds : Z) (w : World) : World :=
  {| files := files w; dirs := dirs w; clock := (clock w + seconds)%Z |}.

(** An external analyzer: it takes two seconds; on a media path that
    mentions [corrupt] it exits with status 1, otherwise it writes
    [document] to [artifact] inside the directory named by the last
    argument and exits with status 0. *)
Definition analyzer (artifact : string) (document : json) (cmd : list string)
  : M World CompletedProcess :=
  fun w =>
    let media_path := nth 1 cmd "" in
    let out := last cmd "" in
    if contains "corrupt" media_path then
      (Ok {| returncode := 1; stderr := "cannot decode" |}, tick 2 w)
    else
      (Ok {| returncode := 0; stderr := "" |},
       snd (write (path_join out artifact) (dumps document) (tick 2 w))).

(** [video-analyzer] writes [analysis.json], [image-analyzer] writes
    [image_analysis.json]. *)
Definition programs (video_document image_document : json) (cmd : list string)
  : M World CompletedProcess :=
  match cmd with
  | "video-analyzer" :: _ => analyzer "analysis.json" video_document cmd
  | "image-analyzer" :: _ => analyzer "image_analysis.json" image_document cmd
  | _ => raise FileNotFoundError "No such file or directory"
  end.

Definition runtime (video_document image_document : json) : Runtime World :=
  {| os_path_exists := exists_;
     os_path_abspath := abspath;
     os_path_getsize := getsize;
     os_scandir := fun d w => assoc d (dirs w);
     glob_dirs := fun _ _ => [];
     os_makedirs := makedirs;
     read_text := read;
     write_text := write;
     os_environ := fun _ _ => None;
     time_time := clock;
     tempfile_mkdtemp := fun w => (Ok "/tmp/tmp0", w);
     subprocess_run := programs video_document image_document;
     json_loads := loads [video_document; image_document];
     json_dumps := dumps |}.

(** A client that answers every prompt with the same text. *)
Definition answering (text : string) : ImageAnalyzer.Client World :=
  {| ImageAnalyzer.model := Some "llava";
     ImageAnalyzer.generate := fun _ _ _ => ret (JDict [("response", JStr text)]) |}.

(** A client whose [generate] raises. *)
Definition failing : ImageAnalyzer.Client World :=
  {| ImageAnalyzer.model := Some "llava";
     ImageAnalyzer.generate := fun _ _ _ => raise RuntimeError "connection refused" |}.

End Toy.

(** The inputs the examples below run on. *)
Module Examples.
Import Toy.

(** What [video-analyzer] and [image-analyzer] leave behind. *)
Definition video_document : json :=
  JDict [ ("final_description", JDict [("response", JStr "a dog runs")]);
          ("transcript", JDict [("text", JStr "woof")]) ].

Definition image_document : json :=
  JDict [ ("analysis", JDict [("description", JDict [("response", JStr "a cat")])]) ].

Definition rt : Runtime World := runtime video_document image_document.

(** A folder of two videos and two images, one of them unreadable, next to
    an upper-case name, a hidden file and a text file. *)
Definition media_folder : World :=
  {| files := [];
     dirs := [ ("media", [ "b.mp4"; "a.mp4"; "corrupt.png"; "y.png";
                           "PHOTO.JPG"; ".x.png"; "notes.txt" ]) ];
     clock := 100 |}.

(** A folder whose only image is unreadable. *)
Definition broken_folder : World :=
  {| files := [];
     dirs := [ ("media", [ "corrupt.png" ]) ];
     clock := 100 |}.

(** A folder with one image. *)
Definition one_image : World :=
  {| files := [];
     dirs := [ ("media", [ "y.png" ]) ];
     clock := 100 |}.

Definition processor : FolderProcessor.Self :=
  FolderProcessor.init None None "medium".

(** A working directory with one image and no prompt template. *)
Definition desk : World :=
  {| files := [ ("cat.png", "PNGDATA") ]; dirs := []; clock := 0 |}.

(** The same with a template of its own in [prompts/image.txt]. *)
Definition desk_with_template : World :=
  {| files := [ ("cat.png", "PNGDATA");
                ("prompts/image.txt", "Describe the picture. {prompt} Be brief.") ];
     dirs := [ ("prompts", ["image.txt"]) ];
     clock := 0 |}.

Definition config : json :=
  JDict [ ("clients", JDict [ ("default", JStr "ollama") ]) ].

Definition analyzer : ImageAnalyzer.Self World :=
  {| ImageAnalyzer.get_config := fun _ => Ok config;
     ImageAnalyzer.clients := [ ("ollama", answering "a cat");
                                ("openai_api", failing) ] |}.

Definition at_desk : ImageAnalyzer.AState World :=
  {| ImageAnalyzer.self := analyzer; ImageAnalyzer.world := desk |}.

End Examples.

(* ================================================================== *)
(** * More of Python *)
(* ================================================================== *)

Definition ascii_upper (c : ascii) : ascii :=
  let n := nat_of_ascii c in
  if (97 <=? n)%nat && (n <=? 122)%nat then ascii_of_nat (n - 32) else c.

(** [s.upper()], on the ASCII letters *)
Fixpoint upper (s : string) : string :=
  match s with
  | EmptyString => EmptyString
  | String c r => String (ascii_upper c) (upper r)
  end.

(** [k in v] for a string [k]: a key of a dict, an element of a list, a
    substring of a string. *)
Definition py_in (k : string) (v : json) : result bool :=
  match v with
  | JDict d => Ok (match assoc k d with Some _ => true | None => false end)
  | JList l => Ok (existsb (fun x => match x with
                                     | JStr s => String.eqb s k
                                     | _ => false
                                     end) l)
  | JStr s => Ok (contains k s)
  | _ => Raise (Exn TypeError
                  ("argument of type '" ++ type_name v ++ "' is not iterable"))
  end.

(** [v[k] = x] on a dict *)
Definition py_setitem (v : json) (k : string) (x : json) : result json :=
  match v with
  | JDict d => Ok (JDict (dict_set k x d))
  | _ => Raise (Exn TypeError
                  ("'" ++ type_name v ++ "' object does not support item assignment"))
  end.

(** [s.replace("", new)]: [new] before every character and at the end. *)
Fixpoint replace_empty (new s : string) : string :=
  match s with
  | EmptyString => new
  | String c r => (new ++ String c (replace_empty new r))%string
  end.

(** [s.replace(old, new)], the empty [old] included. *)
Definition py_replace (old new s : string) : string :=
  if String.eqb old "" then replace_empty new s else str_replace old new s.

(** [v[:n] + "..." if len(v) > n else v] *)
Definition preview_at (n : nat) (v : json) : result json :=
  match py_len v with
  | Raise e => Raise e
  | Ok len =>
      if (n <? len)%nat then
        match v with
        | JStr s => Ok (JStr (String.substring 0 n s ++ "..."))
        | JList _ =>
            Raise (Exn TypeError "can only concatenate list (not 'str') to list")
        | _ => Raise (Exn TypeError "unhashable type: 'slice'")
        end
      else Ok v
  end.

(** [str(n)] for a count. *)
Definition str_of_nat (n : nat) : string := str_of_Z (Z.of_nat n).

(** A text from the bytes of its UTF-8 encoding. *)
Definition of_bytes (codes : list nat) : string :=
  fold_right (fun code rest => String (ascii_of_nat code) rest) EmptyString codes.

(* ================================================================== *)
(** * The console, and the exceptions of [glob] *)
(* ================================================================== *)

(** Where the host can refuse.  [print(text)] raises when the stream cannot
    take the text: [UnicodeEncodeError] for a text the encoding of the stream
    does not have, [OSError] for a closed pipe.  It changes nothing the
    program can read back.  [glob] raises [ValueError] when a directory it
    is to scan has a NUL character in its name; [glob_dirs_checked] is the
    expansion of a directory part with wildcards, which scans directories of
    its own. *)
Class Strict (W : Type) : Type := {
  print_ : string -> W -> result unit;
  py_str : json -> string;
  glob_dirs_checked : string -> W -> result (list string)
}.

(** [f"{v}"]: a string as it is, another value as [str] writes it. *)
Definition show {W} {T : Strict W} (v : json) : string :=
  match v with
  | JStr s => s
  | _ => py_str v
  end.

(** [print(text)] *)
Definition say {W} {T : Strict W} (text : string) : M W unit :=
  reading (print_ text).

(** A console that takes every text. *)
Definition accepting {W} (T : Strict W) : Prop :=
  forall text (w : W), print_ text w = Ok tt.

(** The NUL character. *)
Definition NUL : string := String Ascii.zero EmptyString.

(** An exception that a [print] raised. *)
Definition raised_by_print {W} {T : Strict W} (e : exn) : Prop :=
  exists text (w : W), print_ text w = Raise e.

(* ================================================================== *)
(** * [image_analyzer/core.py], continued *)
(* ================================================================== *)

Module Setup.

(** The marks in front of the three texts [analyze_single_image] prints. *)
Definition CHECK_MARK : string := of_bytes [226; 156; 147].
Definition MEMO : string := of_bytes [240; 159; 147; 157].
Definition CROSS_MARK : string := of_bytes [226; 157; 140].

Section Setup.
Context {W : Type} {R : Runtime W} {T : Strict W}.

(** The constructors of [video_analyzer]: [OllamaClient(base_url=...)],
    [GenericOpenAIAPIClient(api_key=..., api_url=...)] and [Config()], whose
    value is its [get_config] method. *)
Variable OllamaClient : json -> result (ImageAnalyzer.Client W).
Variable OpenAIClient : json -> json -> result (ImageAnalyzer.Client W).
Variable ConfigManager : W -> result (W -> result json).

(** [ImageAnalyzer._setup_clients]: the [clients] dict it fills. *)
Definition _setup_clients (get_config : W -> result json)
  : M W (list (string * ImageAnalyzer.Client W)) :=
  config <- reading get_config ;;
  listed <- lift (py_get config "clients" (JDict [])) ;;
  has_ollama <- lift (py_in "ollama" listed) ;;
  clients <-
    (if has_ollama then
       of_clients <- lift (py_getitem config "clients") ;;
       ollama_config <- lift (py_getitem of_clients "ollama") ;;
       url <- lift (py_get ollama_config "url" (JStr "http://localhost:11434")) ;;
       client <- lift (OllamaClient url) ;;
       ret (dict_set "ollama" client [])
     else ret []) ;;
  listed <- lift (py_get config "clients" (JDict [])) ;;
  has_openai <- lift (py_in "openai_api" listed) ;;
  if has_openai then
    of_clients <- lift (py_getitem config "clients") ;;
    openai_config <- lift (py_getitem of_clients "openai_api") ;;
    api_url <- lift (py_get openai_config "api_url" JNull) ;;
    api_key <- lift (py_get openai_config "api_key" JNull) ;;
    client <- lift (OpenAIClient api_key api_url) ;;
    ret (dict_set "openai_api" client clients)
  else ret clients.

(** [ImageAnalyzer.__init__] *)
Definition init (config_manager : W -> result json)
  : M W (ImageAnalyzer.Self W) :=
  clients <- _setup_clients config_manager ;;
  ret {| ImageAnalyzer.get_config := config_manager;
         ImageAnalyzer.clients := clients |}.

(** A method call on an analyzer object that the caller holds in a local
    variable: the object's changes end with the caller. *)
Definition on_analyzer {A} (analyzer : ImageAnalyzer.Self W)
    (m : M (ImageAnalyzer.AState W) A) : M W A :=
  fun w =>
    let (r, s) := m {| ImageAnalyzer.self := analyzer; ImageAnalyzer.world := w |} in
    (r, ImageAnalyzer.world s).

(** [analyze_single_image]; its [except] clause logs and re-raises. *)
Definition analyze_single_image (image_path : string)
    (client model prompt : option string) (output_dir : string) : M W json :=
  config_manager <- reading ConfigManager ;;
  analyzer <- init config_manager ;;
  result <- on_analyzer analyzer
              (ImageAnalyzer.analyze_image image_path client model prompt) ;;
  error <- lift (py_get result "error" JNull) ;;
  if negb (truthy error) then
    output_file <- ImageAnalyzer.save_analysis result output_dir ;;
    result <- lift (py_setitem result "output_file" (JStr output_file)) ;;
    say (CHECK_MARK ++ " Analysis saved to: " ++ output_file) ;;;
    analysis <- lift (py_get result "analysis" (JDict [])) ;;
    description <- lift (py_get analysis "description" (JStr "No description")) ;;
    shown <- lift (preview description) ;;
    say (MEMO ++ " Description: " ++ show shown) ;;;
    ret result
  else
    error <- lift (py_getitem result "error") ;;
    say (CROSS_MARK ++ " Error: " ++ show error) ;;;
    ret result.

End Setup.

End Setup.

(* ================================================================== *)
(** * [image_analyzer/cli.py] *)
(* ================================================================== *)

Module Cli.

(** The namespace [parse_args] returns. *)
Record Args : Type := {
  image_path : string;
  client : option string;
  model : option string;
  api_key : option string;
  api_url : option string;
  prompt : option string;
  output_dir : string;
  config : option string;
  log_level : string;
  verbose : bool
}.

(** [get_log_level], with the values of the [logging] constants. *)
Definition get_log_level (level_str : string) : Z :=
  match assoc (upper level_str)
              [ ("DEBUG", 10); ("INFO", 20); ("WARNING", 30); ("ERROR", 40);
                ("CRITICAL", 50) ]%Z with
  | Some level => level
  | None => 20%Z
  end.

Definition supported_extensions : list string :=
  [".jpg"; ".jpeg"; ".png"; ".gif"; ".webp"; ".bmp"].

(** What [parser.parse_args()] does with the command line: it returns the
    namespace, or it ends the process, with status 2 after a usage error (an
    unknown option, a missing path, a [--client] or [--log-level] outside
    its choices) and with status 0 after [--help]. *)
Inductive Parsed : Type :=
| Namespace (args : Args)
| UsageError
| Help.

(** The marks, as the file has them, in front of the texts [main] prints. *)
Definition DONE_MARK : string := of_bytes [195; 162; 197; 147; 226; 128; 156].
Definition DESCRIPTION_MARK : string :=
  of_bytes [195; 176; 197; 184; 226; 128; 156].
Definition FAILED_MARK : string := of_bytes [195; 162; 197; 146].

Section Cli.
Context {W : Type} {R : Runtime W} {T : Strict W}.

Variable OllamaClient : json -> result (ImageAnalyzer.Client W).
Variable OpenAIClient : json -> json -> result (ImageAnalyzer.Client W).
Variable ConfigManager : W -> result (W -> result json).
(** [config_manager.update_from_args(args)]: the manager's [get_config]
    afterwards. *)
Variable update_from_args :
  (W -> result json) -> Args -> result (W -> result json).
(** [create_parser().parse_args()] on the command line. *)
Variable parse_args : list string -> Parsed.

(** [validate_image_file] *)
Definition validate_image_file (image_path : string) (w : W) : bool :=
  if negb (os_path_exists image_path w) then false
  else existsb (String.eqb (lower (path_suffix image_path))) supported_extensions.

(** [setup_config] *)
Definition setup_config (args : Args) : M W (W -> result json) :=
  config_manager <- reading ConfigManager ;;
  lift (update_from_args config_manager args).

(** The [try] block of [main].  Its value is the exit status of the
    process: [sys.exit(1)] ends it with 1 (no [except] clause of [main]
    catches [SystemExit]), falling off its end with 0. *)
Definition main_try (args : Args) : M W Z :=
  config_manager <- setup_config args ;;
  config <- reading config_manager ;;
  configured <- lift (py_get config "clients" (JDict [])) ;;
  _ <- lift (py_len configured) ;;
  analyzer <- Setup.init OllamaClient OpenAIClient config_manager ;;
  result <- Setup.on_analyzer analyzer
              (ImageAnalyzer.analyze_image (image_path args) (client args)
                 (model args) (prompt args)) ;;
  error <- lift (py_get result "error" JNull) ;;
  if truthy error then
    error <- lift (py_getitem result "error") ;;
    say ("Analysis failed: " ++ show error) ;;;
    ret 1%Z
  else
    output_file <- ImageAnalyzer.save_analysis result (output_dir args) ;;
    say (DONE_MARK ++ " Analysis complete!") ;;;
    shown_file <- gets (os_path_abspath output_file) ;;
    say ("Results saved to: " ++ shown_file) ;;;
    analysis <- lift (py_get result "analysis" (JDict [])) ;;
    description <- lift (py_get analysis "description"
                           (JStr "No description available")) ;;
    shown <- lift (preview_at 200 description) ;;
    say (LF ++ DESCRIPTION_MARK ++ " Description:") ;;;
    say ("   " ++ show shown) ;;;
    analysis <- lift (py_get result "analysis" (JDict [])) ;;
    _ <- lift (py_get analysis "client" (JStr "Unknown")) ;;
    _ <- lift (py_get analysis "model" (JStr "Unknown")) ;;
    metadata <- lift (py_get result "metadata" (JDict [])) ;;
    _ <- lift (py_get metadata "file_size" (JNum 0)) ;;
    metadata <- lift (py_get result "metadata" (JDict [])) ;;
    _ <- lift (py_get metadata "mime_type" (JStr "Unknown")) ;;
    ret 0%Z.

(** The [except Exception as e] clause of [main]: it prints the exception
    and ends the process with status 1; when its own [print] raises, the
    exception is uncaught, which ends the process with status 1 as well. *)
Definition main_except (e : exn) : M W Z :=
  try_except
    (say (FAILED_MARK ++ " Unexpected error: " ++ exn_msg e) ;;; ret 1%Z)
    (fun _ => ret 1%Z).

(** [main]: the exit status of the process, for the command line [argv]. *)
Definition main (argv : list string) : M W Z :=
  match parse_args argv with
  | UsageError => ret 2%Z
  | Help => ret 0%Z
  | Namespace args =>
      valid <- gets (validate_image_file (image_path args)) ;;
      if negb valid then ret 1%Z
      else try_except (main_try args) main_except
  end.

End Cli.

End Cli.

(* ================================================================== *)
(** * [process_folder/folder_processor.py], with its console *)
(* ================================================================== *)

(** [FolderProcessor] above is the batch driver on a quiet host: a console
    that takes every text, and paths that [glob] accepts.  [Console] is
    [folder_processor.py] in full: the same methods with what they print,
    at the place where they print it, and with the exception of [glob]. *)
Module Console.
Import FolderProcessor.

(** The three counters [print_summary] prints. *)
Record Summary : Type := {
  successful_videos : nat;
  successful_images : nat;
  failed : nat
}.

(** [file_type.upper()], in the heading of an entry *)
Definition heading (file_type : json) : result string :=
  match file_type with
  | JStr s => Ok (upper s)
  | _ => Raise (Exn AttributeError
                  ("'" ++ type_name file_type ++ "' object has no attribute 'upper'"))
  end.

(** [file_type == kind] *)
Definition is_kind (kind : string) (file_type : json) : bool :=
  match file_type with
  | JStr s => String.eqb s kind
  | _ => false
  end.

(** ['=' * 50] *)
Definition RULE : string := String.concat "" (List.repeat "=" 50).

(** The settings of [main]. *)
Definition processor : Self := init (Some "gpt-4.1-nano") None "medium".

Definition test_path : string :=
  "C:/Users/jarvi/Documents/GIT/file_manger_ai/test_data/VideoRecording20251026".

Definition output_dir : string := "video-analyzer/VideoRecording_20251026/gpt/".

(** The line before the [try] of a turn. *)
Definition announce (m : media) (file_count total_files : nat)
    (clean_filename : string) : string :=
  LF ++ "Processing " ++ upper (media_name m) ++ " " ++ str_of_nat file_count
     ++ "/" ++ str_of_nat total_files ++ ": " ++ clean_filename.

Section Console.
Context {W : Type} {R : Runtime W} {T : Strict W}.

(** The command line [process_image] and [process_video] print before they
    run it. *)
Definition display_cmd (cmd : list string) (w : W) : string :=
  let display_cmd := String.concat " " cmd in
  match os_environ "OPENAI_API_KEY" w with
  | Some key => py_replace key "*****" display_cmd
  | None => display_cmd
  end.

(** [print] in the state of a batch. *)
Definition tell (text : string) : M (State W) unit :=
  reading (fun s => print_ text (world s)).

(** [glob.glob(pathname)] for a pathname whose last component has a
    wildcard: [os.scandir] raises [ValueError] for a directory name with a
    NUL character, and [glob] lets it pass. *)
Definition glob (pathname : string) (w : W) : result (list string) :=
  let (dirname, pattern) := path_split pathname in
  if String.eqb dirname "" then Ok (glob1 "" pattern w)
  else if has_magic dirname then
    match glob_dirs_checked dirname w with
    | Raise e => Raise e
    | Ok dirs => Ok (flat_map (fun d => map (path_join d) (glob1 d pattern w)) dirs)
    end
  else if contains NUL dirname then
    Raise (Exn ValueError "scandir: embedded null character in path")
  else Ok (map (path_join dirname) (glob1 dirname pattern w)).

(** The loop of [find_videos] and of [find_images]. *)
Fixpoint glob_each (folder_path : string) (extensions : list string) (w : W)
  : result (list string) :=
  match extensions with
  | [] => Ok []
  | extension :: rest =>
      match glob (path_join folder_path extension) w with
      | Raise e => Raise e
      | Ok found =>
          match glob_each folder_path rest w with
          | Raise e => Raise e
          | Ok more => Ok (found ++ more)
          end
      end
  end.

(** [FolderProcessor.find_videos] *)
Definition find_videos (folder_path : string) (w : W) : result (list string) :=
  glob_each (rstrip_slash folder_path) video_extensions w.

(** [FolderProcessor.find_images] *)
Definition find_images (folder_path : string) (w : W) : result (list string) :=
  glob_each (rstrip_slash folder_path) image_extensions w.

(** [FolderProcessor.find_all_media] *)
Definition find_all_media (folder_path : string) (w : W)
  : result (list string * list string) :=
  match find_videos folder_path w with
  | Raise e => Raise e
  | Ok videos =>
      match find_images folder_path w with
      | Raise e => Raise e
      | Ok images => Ok (videos, images)
      end
  end.

(** The [try] ... [except] of [process_image] and [process_video]. *)
Definition run_analyzer (cmd : W -> list string) (output_dir : string)
    (timeout_msg : string) : M W Outcome :=
  try_except
    (cmd <- gets cmd ;;
     shown <- gets (display_cmd cmd) ;;
     say ("Running command: " ++ shown) ;;;
     result <- subprocess_run cmd ;;
     if (returncode result =? 0)%Z
     then ret (Succeeded output_dir)
     else ret (Failed ("Return code " ++ str_of_Z (returncode result)
                         ++ ": " ++ stderr result)))
    (fun e => match exn_cls e with
              | TimeoutExpired => ret (Failed timeout_msg)
              | _ => ret (Failed (exn_msg e))
              end).

(** [FolderProcessor.process_image] *)
Definition process_image (self : Self) (image_path : string)
    (output_dir : option string) : M W Outcome :=
  output_dir <- prepare_output_dir output_dir ;;
  run_analyzer (image_cmd self image_path output_dir) output_dir
               "Timeout processing image".

(** [FolderProcessor.process_video] *)
Definition process_video (self : Self) (video_path : string)
    (output_dir : option string) : M W Outcome :=
  output_dir <- prepare_output_dir output_dir ;;
  run_analyzer (video_cmd self video_path output_dir) output_dir
               "Timeout processing video".

(** The body of the [try] of the video loop. *)
Definition video_try (self : Self) (output_dir : option string)
    (video_file clean_filename : string) : M (State W) unit :=
  abs_path <- gets (fun s => os_path_abspath video_file (world s)) ;;
  start_time <- gets (fun s => time_time (world s)) ;;
  result <- in_world (process_video self abs_path
                        (media_output_dir video output_dir clean_filename)) ;;
  end_time <- gets (fun s => time_time (world s)) ;;
  let run_time := (end_time - start_time)%Z in
  match result with
  | Failed err =>
      tell ("Error: " ++ err) ;;;
      set_result clean_filename (error_entry err video)
  | Succeeded dir =>
      let json_file := path_join dir "analysis.json" in
      found <- gets (fun s => os_path_exists json_file (world s)) ;;
      json_files <- reading (fun s => glob "output/*.json" (world s)) ;;
      match (if found then Some json_file else hd_error json_files) with
      | None =>
          tell "No JSON output found in output directory" ;;;
          set_result clean_filename (error_entry "No JSON output found" video)
      | Some json_file =>
          analysis_data <- load_json json_file ;;
          description <- lift (video_description analysis_data) ;;
          transcript <- lift (video_transcript analysis_data) ;;
          response <- lift (py_getitem description "response") ;;
          set_result clean_filename
            (JDict [ ("description", response);
                     ("type", JStr "video");
                     ("processing_time", JNum run_time);
                     ("transcript", transcript);
                     ("file_path", JStr abs_path) ]) ;;;
          rs <- gets (@results W) ;;
          _ <- in_world (save_results rs output_dir) ;;
          shown <- lift (preview description) ;;
          tell (show shown)
      end
  end.

(** The body of the [try] of the image loop. *)
Definition image_try (self : Self) (output_dir : option string)
    (image_file clean_filename : string) : M (State W) unit :=
  abs_path <- gets (fun s => os_path_abspath image_file (world s)) ;;
  start_time <- gets (fun s => time_time (world s)) ;;
  result <- in_world (process_image self abs_path
                        (media_output_dir image output_dir clean_filename)) ;;
  end_time <- gets (fun s => time_time (world s)) ;;
  let run_time := (end_time - start_time)%Z in
  match result with
  | Failed err =>
      tell ("Error: " ++ err) ;;;
      set_result clean_filename (error_entry err image)
  | Succeeded dir =>
      let json_file := path_join dir "image_analysis.json" in
      found <- gets (fun s => os_path_exists json_file (world s)) ;;
      found_default <-
        gets (fun s => os_path_exists "output/image_analysis.json" (world s)) ;;
      match (if found then Some json_file
             else if found_default then Some "output/image_analysis.json"
             else None) with
      | None =>
          tell "No JSON output found for image" ;;;
          set_result clean_filename (error_entry "No JSON output found" image)
      | Some json_file =>
          analysis_data <- load_json json_file ;;
          analysis_response <- lift (image_description analysis_data) ;;
          description <- lift (py_getitem analysis_response "response") ;;
          set_result clean_filename
            (JDict [ ("description", description);
                     ("type", JStr "image");
                     ("processing_time", JNum run_time);
                     ("file_path", JStr abs_path) ]) ;;;
          rs <- gets (@results W) ;;
          _ <- in_world (save_results rs output_dir) ;;
          shown <- lift (preview description) ;;
          tell (" " ++ show shown)
      end
  end.

(** One turn of either loop: the line that announces the file, then the
    [try] and its [except Exception as e], which prints before it records. *)
Definition process_item (self : Self) (output_dir : option string)
    (total_files : nat) (m : media) (file_count : nat) (file : string)
  : M (State W) unit :=
  let clean_filename := basename file in
  tell (announce m file_count total_files clean_filename) ;;;
  try_except
    (match m with
     | video => video_try self output_dir file clean_filename
     | image => image_try self output_dir file clean_filename
     end)
    (fun e =>
       tell ("Error processing " ++ clean_filename ++ ": " ++ exn_msg e) ;;;
       set_result clean_filename (error_entry (exn_msg e) m)).

(** A loop that counts its turns on from [file_count]. *)
Fixpoint for_each_from {St A} (file_count : nat) (xs : list A)
    (body : nat -> A -> M St unit) : M St unit :=
  match xs with
  | [] => ret tt
  | x :: rest =>
      body (S file_count) x ;;; for_each_from (S file_count) rest body
  end.

(** The two loops of [process_folder], videos first. *)
Definition process_queues (self : Self) (output_dir : option string)
    (video_files image_files : list string) : M (State W) unit :=
  let total_files := (List.length video_files + List.length image_files)%nat in
  for_each_from 0 video_files (process_item self output_dir total_files video) ;;;
  for_each_from (List.length video_files) image_files
    (process_item self output_dir total_files image).

(** [FolderProcessor.process_folder] *)
Definition process_folder (self : Self) (folder_path : string)
    (output_dir : option string) : M W (list (string * json)) :=
  found <- reading (find_all_media folder_path) ;;
  let (video_files, image_files) := found in
  let total_files := (List.length video_files + List.length image_files)%nat in
  if (total_files =? 0)%nat then
    say "No video or image files found in directory" ;;;
    ret []
  else
    say ("[Found files: " ++ str_of_nat (List.length video_files) ++ " videos, "
           ++ str_of_nat (List.length image_files) ++ " images, "
           ++ str_of_nat total_files ++ " total]") ;;;
    fun w =>
      let (r, s) := process_queues self output_dir video_files image_files
                      {| results := []; world := w |} in
      match r with
      | Ok _ => (Ok (results s), world s)
      | Raise e => (Raise e, world s)
      end.

(** One turn of the loop of [print_summary]. *)
Definition count_entry (file_name : string) (data : json) (c : Summary)
  : M W Summary :=
  file_type <- lift (py_get data "type" (JStr "unknown")) ;;
  kind <- lift (heading file_type) ;;
  say (LF ++ " " ++ file_name ++ " (" ++ kind ++ "):") ;;;
  if has_key "error" data then
    error <- lift (py_getitem data "error") ;;
    say ("   Error: " ++ show error) ;;;
    ret {| successful_videos := successful_videos c;
           successful_images := successful_images c;
           failed := S (failed c) |}
  else
    description <- lift (py_get data "description" (JStr "No description")) ;;
    say ("  " ++ show description) ;;;
    if is_kind "video" file_type then
      ret {| successful_videos := S (successful_videos c);
             successful_images := successful_images c;
             failed := failed c |}
    else if is_kind "image" file_type then
      ret {| successful_videos := successful_videos c;
             successful_images := S (successful_images c);
             failed := failed c |}
    else ret c.

Fixpoint count_entries (entries : list (string * json)) (c : Summary)
  : M W Summary :=
  match entries with
  | [] => ret c
  | (file_name, data) :: rest =>
      c' <- count_entry file_name data c ;;
      count_entries rest c'
  end.

(** [FolderProcessor.print_summary]: the counters it ends with. *)
Definition print_summary (results : list (string * json))
    (results_file : option string) : M W Summary :=
  say (LF ++ RULE) ;;;
  say "RESULTS:" ;;;
  say RULE ;;;
  c <- count_entries results
         {| successful_videos := 0; successful_images := 0; failed := 0 |} ;;
  say ("Successfully processed "
         ++ str_of_nat (successful_videos c + successful_images c)
         ++ " out of " ++ str_of_nat (List.length results) ++ " files") ;;;
  say ("Videos: " ++ str_of_nat (successful_videos c)) ;;;
  say ("Images: " ++ str_of_nat (successful_images c)) ;;;
  say ("Failed: " ++ str_of_nat (failed c)) ;;;
  match given results_file with
  | Some file =>
      shown <- gets (os_path_abspath file) ;;
      say ("Results saved to: " ++ shown)
  | None => ret tt
  end ;;;
  ret c.

(** [main] of [folder_processor.py]: the counters it prints, when it prints
    a summary. *)
Definition main : M W (option Summary) :=
  results <- process_folder processor test_path (Some output_dir) ;;
  if (0 <? List.length results)%nat then
    results_file <- save_results results (Some output_dir) ;;
    summary <- print_summary results (Some results_file) ;;
    ret (Some summary)
  else ret None.

End Console.

End Console.

(* ================================================================== *)
(** * [process_folder/folder_processor_dev.py] *)
(* ================================================================== *)

Module Dev.

Definition video_extensions : list string :=
  ["*.mp4"; "*.avi"; "*.mov"; "*.mkv"; "*.wmv"; "*.flv"; "*.webm"; "*.m4v"].

Definition image_extensions : list string :=
  ["*.jpg"; "*.jpeg"; "*.png"; "*.gif"; "*.webp"; "*.bmp"].

Section Dev.
Context {W : Type} {R : Runtime W}.

(** One turn of a loop of [find_media_files]: the pattern as it is, then
    its upper-case form. *)
Definition both_cases (folder_path : string) (w : W) (extension : string)
  : list string :=
  glob (path_join folder_path extension) w
  ++ glob (path_join folder_path (upper extension)) w.

(** [find_media_files] *)
Definition find_media_files (folder_path : string) (w : W)
  : list string * list string :=
  let folder_path := rstrip_slash folder_path in
  (flat_map (both_cases folder_path w) video_extensions,
   flat_map (both_cases folder_path w) image_extensions).

End Dev.

End Dev.

(* ================================================================== *)
(** * The vocabulary of the further properties *)
(* ================================================================== *)

Section AnalyzerVocabulary.
Context {W : Type} {R : Runtime W}.

(** The success record of [analyze_image], from the call that made it: the
    client's name, the model it ran, the prompt it was sent, its answer, and
    the size of the file. *)
Definition success_record (image_path name used prompt : string) (answer : json)
    (size : Z) (w : W) : json :=
  JDict
    [ ("image_path", JStr (os_path_abspath image_path w));
      ("image_filename", JStr (basename image_path));
      ("analysis", JDict [ ("client", JStr name);
                           ("model", JStr used);
                           ("prompt_used", JStr prompt);
                           ("description", answer) ]);
      ("metadata", JDict [ ("file_size", JNum size);
                           ("mime_type",
                            JStr (ImageAnalyzer._get_image_mime_type image_path));
                           ("analysis_successful", JBool true) ]) ].

(** The error record of [analyze_image]. *)
Definition error_record (image_path shown_path message : string) : json :=
  JDict
    [ ("image_path", JStr shown_path);
      ("image_filename", JStr (basename image_path));
      ("error", JStr message);
      ("metadata", JDict [ ("analysis_successful", JBool false) ]) ].

End AnalyzerVocabulary.

(** The lookup table of [_get_image_mime_type]. *)
Definition mime_types : list (string * string) :=
  [ (".jpg", "image/jpeg"); (".jpeg", "image/jpeg"); (".png", "image/png");
    (".gif", "image/gif"); (".webp", "image/webp"); (".bmp", "image/bmp") ].

(** The names [_setup_clients] registers, given what [config["clients"]]
    holds. *)
Definition registered (has_ollama has_openai : bool) : list string :=
  (if has_ollama then ["ollama"] else []) ++
  (if has_openai then ["openai_api"] else []).

Section BatchVocabulary.
Context {W : Type} {R : Runtime W}.
Import FolderProcessor.

(** The method that processes a file of kind [m], the command line it
    builds, and the artifact the external program is expected to leave. *)
Definition process (m : media)
  : Self -> string -> option string -> M W Outcome :=
  match m with video => process_video | image => process_image end.

Definition command (m : media) : Self -> string -> string -> W -> list string :=
  match m with video => video_cmd | image => image_cmd end.

Definition artifact (m : media) : string :=
  match m with video => "analysis.json" | image => "image_analysis.json" end.


(** The artifact a turn reads: the one in the directory of the file, else
    the one it falls back to under [output]. *)
Definition found_artifact (m : media) (dir : string) (w : W) : option string :=
  if os_path_exists (path_join dir (artifact m)) w
  then Some (path_join dir (artifact m))
  else match m with
       | video => hd_error (glob "output/*.json" w)
       | image => if os_path_exists "output/image_analysis.json" w
                  then Some "output/image_analysis.json" else None
       end.

(** The analysis of [file] goes through in the state [s] of the batch, and
    [e] is the entry it earns: the directory of the file is prepared, the
    external program ends with status 0, its artifact is found, read and
    parsed, the description in it has a [response], the map with the entry
    is saved, and the preview is built. *)
Definition analysed (self : Self) (output_dir : option string) (m : media)
    (file : string) (s : State W) (e : json) : Prop :=
  exists d dir w1 cp w2 json_file text data value response transcript w3 w4
         shown,
    output_dir = Some d /\
    prepare_output_dir (media_output_dir m output_dir (basename file)) (world s)
    = (Ok dir, w1) /\
    subprocess_run (command m self (os_path_abspath file (world s)) dir w1) w1
    = (Ok cp, w2) /\
    returncode cp = 0%Z /\
    found_artifact m dir w2 = Some json_file /\
    read_text json_file w2 = Ok text /\
    json_loads text = Ok data /\
    description_of m data = Ok value /\
    (m = video -> video_transcript data = Ok transcript) /\
    py_getitem value "response" = Ok response /\
    e = success_entry m response transcript
          (time_time w2 - time_time (world s))
          (os_path_abspath file (world s)) /\
    os_makedirs d w2 = (Ok tt, w3) /\
    write_text (results_file d)
      (json_dumps (JDict (dict_set (basename file) e (results s)))) w3
    = (Ok tt, w4) /\
    preview (match m with video => value | image => response end) = Ok shown.

(** An entry as the batch driver writes it. *)
Definition batch_entry (e : json) : Prop :=
  exists m,
    (exists msg, e = error_entry msg m) \/
    (exists response transcript run_time abs_path,
        e = success_entry m response transcript run_time abs_path).

End BatchVocabulary.

(* ================================================================== *)
(** * More inputs for the examples *)
(* ================================================================== *)

Module Scenes.
Import Toy.

(** The constructors of the clients: the Ollama client answers, the OpenAI
    client cannot connect. *)
Definition ollama_client (base_url : json) : result (ImageAnalyzer.Client World) :=
  Ok (answering "a cat").

Definition openai_client (api_key api_url : json)
  : result (ImageAnalyzer.Client World) :=
  Ok failing.

(** A configuration with an Ollama section, no OpenAI section and a section
    that no client of the analyzer reads. *)
Definition config : json :=
  JDict [ ("clients",
           JDict [ ("default", JStr "ollama");
                   ("ollama", JDict [ ("url", JStr "http://localhost:11434") ]);
                   ("gemini", JDict [ ("api_key", JStr "secret") ]) ]) ].

Definition get_config (w : World) : result json := Ok config.

Definition config_manager (w : World) : result (World -> result json) :=
  Ok get_config.

(** A configuration with both sections. *)
Definition both : json :=
  JDict [ ("clients",
           JDict [ ("default", JStr "openai_api");
                   ("ollama", JDict []);
                   ("openai_api", JDict [ ("api_key", JStr "secret") ]) ]) ].

(** [update_from_args] that keeps the configuration. *)
Definition keep_config (get : World -> result json) (args : Cli.Args)
  : result (World -> result json) := Ok get.

(** Command lines of [image-analyzer]. *)
Definition args_for (image_path : string) : Cli.Args :=
  {| Cli.image_path := image_path;
     Cli.client := None;
     Cli.model := None;
     Cli.api_key := None;
     Cli.api_url := None;
     Cli.prompt := None;
     Cli.output_dir := "output";
     Cli.config := None;
     Cli.log_level := "INFO";
     Cli.verbose := false |}.




(** The runtime of the examples with an API key in the environment. *)
Definition runtime_with_key (key : string) : Runtime World :=
  {| os_path_exists := exists_;
     os_path_abspath := abspath;
     os_path_getsize := getsize;
     os_scandir := fun d w => assoc d (dirs w);
     glob_dirs := fun _ _ => [];
     os_makedirs := makedirs;
     read_text := read;
     write_text := write;
     os_environ := fun name _ =>
                     if String.eqb name "OPENAI_API_KEY" then Some key else None;
     time_time := clock;
     tempfile_mkdtemp := fun w => (Ok "/tmp/tmp0", w);
     subprocess_run := programs Examples.video_document Examples.image_document;
     json_loads := loads [Examples.video_document; Examples.image_document];
     json_dumps := dumps |}.

(** A console that takes every text. *)
Definition console : Strict World :=
  {| print_ := fun _ _ => Ok tt;
     py_str := dumps;
     glob_dirs_checked := fun _ _ => Ok [] |}.

(** A console whose encoding has the ASCII characters only. *)
Definition is_ascii (text : string) : bool :=
  forallb (fun c => (nat_of_ascii c <? 128)%nat) (list_ascii_of_string text).

Definition ascii_console : Strict World :=
  {| print_ := fun text _ =>
                 if is_ascii text then Ok tt
                 else Raise (Exn UnicodeEncodeError
                               "'ascii' codec can't encode character");
     py_str := dumps;
     glob_dirs_checked := fun _ _ => Ok [] |}.

(** A toy parser of the command line: one path, or [--help]. *)
Definition parse_args (argv : list string) : Cli.Parsed :=
  match argv with
  | [ "--help" ] => Cli.Help
  | [ image_path ] => Cli.Namespace (args_for image_path)
  | _ => Cli.UsageError
  end.

(** Two folders that hold a video of the same name, and the runtime whose
    [glob] expands [m*] to them. *)
Definition two_folders : World :=
  {| files := [];
     dirs := [ ("m1", [ "a.mp4" ]); ("m2", [ "a.mp4" ]) ];
     clock := 100 |}.

Definition expanding : Runtime World :=
  {| os_path_exists := exists_;
     os_path_abspath := abspath;
     os_path_getsize := getsize;
     os_scandir := fun d w => assoc d (dirs w);
     glob_dirs := fun d w => if String.eqb d "m*" then map fst (dirs w) else [];
     os_makedirs := makedirs;
     read_text := read;
     write_text := write;
     os_environ := fun _ _ => None;
     time_time := clock;
     tempfile_mkdtemp := fun w => (Ok "/tmp/tmp0", w);
     subprocess_run := programs Examples.video_document Examples.image_document;
     json_loads := loads [Examples.video_document; Examples.image_document];
     json_dumps := dumps |}.

Definition expanding_console : Strict World :=
  {| print_ := fun _ _ => Ok tt;
     py_str := dumps;
     glob_dirs_checked :=
       fun d w => Ok (if String.eqb d "m*" then map fst (dirs w) else []) |}.

(** A folder with an image whose name the ASCII console cannot print. *)
Definition accented : World :=
  {| files := [];
     dirs := [ ("media", [ "y.png"; (of_bytes [195; 169] ++ ".png")%string ]) ];
     clock := 100 |}.


(** The folder [main] reads, with one image and one unreadable image. *)
Definition recording : World :=
  {| files := [];
     dirs := [ (Console.test_path, [ "y.png"; "corrupt.png" ]) ];
     clock := 100 |}.

End Scenes.

(* ================================================================== *)
(** * Reasoning about computations *)
(* ================================================================== *)

Section WpRules.
Context {S : Type}.

Lemma wp_run {A} (m : M S A) (Q : result A -> S -> Prop) (s : S) :
  (forall r s', m s = (r, s') -> Q r s') -> wp m Q s.
Proof. intros H. unfold wp. apply H. now destruct (m s). Qed.

Lemma wp_ret {A} (a : A) (Q : result A -> S -> Prop) s :
  Q (Ok a) s -> wp (ret a) Q s.
Proof. exact (fun H => H). Qed.

Lemma wp_raise {A} c msg (Q : result A -> S -> Prop) s :
  Q (Raise (Exn c msg)) s -> wp (raise c msg) Q s.
Proof. exact (fun H => H). Qed.

Lemma wp_gets {A} (f : S -> A) (Q : result A -> S -> Prop) (s : S) : Q (Ok (f s)) s -> wp (gets f) Q s.
Proof. exact (fun H => H). Qed.

Lemma wp_modify (f : S -> S) (Q : result unit -> S -> Prop) (s : S) : Q (Ok tt) (f s) -> wp (modify f) Q s.
Proof. exact (fun H => H). Qed.

Lemma wp_lift {A} (r : result A) (Q : result A -> S -> Prop) (s : S) :
  (forall r', r = r' -> Q r' s) -> wp (lift r) Q s.
Proof. intros H. now apply H. Qed.

Lemma wp_reading {A} (f : S -> result A) (Q : result A -> S -> Prop) (s : S) :
  (forall r, f s = r -> Q r s) -> wp (reading f) Q s.
Proof. intros H. now apply H. Qed.

Lemma wp_bind {A B} (m : M S A) (k : A -> M S B) (Q : result B -> S -> Prop) (s : S) :
  wp m (fun r s' => match r with
                    | Ok a => wp (k a) Q s'
                    | Raise e => Q (Raise e) s'
                    end) s ->
  wp (bind m k) Q s.
Proof. unfold wp, bind. now destruct (m s) as [[a | e] s']. Qed.

Lemma wp_try {A} (body : M S A) handler (Q : result A -> S -> Prop) (s : S) :
  wp body (fun r s' => match r with
                       | Ok a => Q (Ok a) s'
                       | Raise e => wp (handler e) Q s'
                       end) s ->
  wp (try_except body handler) Q s.
Proof. unfold wp, try_except. now destruct (body s) as [[a | e] s']. Qed.

Lemma wp_zoom {T A} (proj : S -> T) upd (m : M T A) (Q : result A -> S -> Prop) (s : S) :
  (forall r t', m (proj s) = (r, t') -> Q r (upd t' s)) ->
  wp (zoom proj upd m) Q s.
Proof.
  intros H. unfold wp, zoom. destruct (m (proj s)) as [r t'] eqn:E.
  now apply H.
Qed.

End WpRules.

(** One step of symbolic execution. *)
Ltac wp_step :=
  lazymatch goal with
  | |- wp (bind _ _) _ _ => apply wp_bind
  | |- wp (try_except _ _) _ _ => apply wp_try
  | |- wp (ret _) _ _ => apply wp_ret
  | |- wp (raise _ _) _ _ => apply wp_raise
  | |- wp (gets _) _ _ => apply wp_gets
  | |- wp (modify _) _ _ => apply wp_modify
  | |- wp (lift _) _ _ => apply wp_lift; intros [? | ?] ?
  | |- wp (reading _) _ _ => apply wp_reading; intros [? | ?] ?
  | |- wp (zoom _ _ _) _ _ => apply wp_zoom; intros [? | ?] ? ?
  | |- wp (match ?x with _ => _ end) _ _ => destruct x eqn:?
  end; cbv beta iota.

Ltac wp_steps := repeat wp_step.

(* ================================================================== *)
(** * The single-item analyzer *)
(* ================================================================== *)

Section AnalyzerProofs.
Context {W : Type} {R : Runtime W}.
Import ImageAnalyzer.

(** The [except] clause cannot raise: it reads the file system and builds
    the error record. *)
Lemma analyze_image_except_returns image_path e (s : AState W) :
  exists r, analyze_image_except image_path e s = (Ok r, s) /\
            has_key "error" r = true /\ has_key "analysis" r = false /\
            analysis_successful r = Some (JBool false).
Proof.
  eexists. split; [reflexivity|]. repeat split.
Qed.

(** What the [try] block returns, when it returns, is a success record. *)
Lemma analyze_image_try_shape image_path client_name model custom_prompt
    (s : AState W) :
  wp (analyze_image_try image_path client_name model custom_prompt)
     (fun r _ => match r with
                 | Ok v => has_key "analysis" v = true /\
                           has_key "error" v = false /\
                           analysis_successful v = Some (JBool true)
                 | Raise _ => True
                 end) s.
Proof.
  unfold analyze_image_try, resolve_client, set_model, get_model,
    call_generate, in_world.
  wp_steps; auto.
Qed.


(** C2.  A record returned by [analyze_image] has exactly one of the keys
    [analysis] and [error], and [metadata.analysis_successful] is [True]
    exactly when the key is [analysis]. *)
Theorem analyze_image_branch_invariant image_path client_name model
    custom_prompt (s s' : AState W) r :
  analyze_image image_path client_name model custom_prompt s = (Ok r, s') ->
  branch_invariant r.
Proof.
  unfold analyze_image, try_except. intros H.
  pose proof (analyze_image_try_shape image_path client_name model
                custom_prompt s) as T.
  unfold wp in T.
  destruct (analyze_image_try image_path client_name model custom_prompt s)
    as [[v | e] s1]; simpl in T.
  - injection H as -> _. destruct T as (A & E & F).
    unfold branch_invariant. now rewrite A, E, F.
  - destruct (analyze_image_except_returns image_path e s1) as (r' & E & A & B & F).
    rewrite E in H. injection H as -> _.
    unfold branch_invariant. now rewrite A, B, F.
Qed.

End AnalyzerProofs.

(** The success branch and the error branch of the invariant, on a file
    that exists and on one that does not. *)
Lemma analyze_image_branch_invariant_witness :
  ImageAnalyzer.branch_invariant
    (JDict [ ("image_path", JStr "dog.png");
             ("image_filename", JStr "dog.png");
             ("error", JStr "Image file not found: dog.png");
             ("metadata", JDict [("analysis_successful", JBool false)]) ]).
Proof.
  apply (@analyze_image_branch_invariant _ Examples.rt "dog.png" None None None
           Examples.at_desk Examples.at_desk).
  vm_compute. reflexivity.
Defined.

Example analyze_image_on_a_client_that_raises :
  fst (@ImageAnalyzer.analyze_image _ Examples.rt "cat.png" (Some "openai_api")
         None None Examples.at_desk)
  = Ok (JDict [ ("image_path", JStr "/work/cat.png");
                ("image_filename", JStr "cat.png");
                ("error", JStr "connection refused");
                ("metadata", JDict [("analysis_successful", JBool false)]) ]).
Proof. vm_compute. reflexivity. Qed.

Example analyze_image_on_an_image :
  exists prompt,
    fst (@ImageAnalyzer.analyze_image _ Examples.rt "cat.png" None (Some "llava:13b")
           (Some "what colour?") Examples.at_desk)
    = Ok (JDict [ ("image_path", JStr "/work/cat.png");
                  ("image_filename", JStr "cat.png");
                  ("analysis",
                   JDict [ ("client", JStr "ollama");
                           ("model", JStr "llava:13b");
                           ("prompt_used", JStr prompt);
                           ("description", JDict [("response", JStr "a cat")]) ]);
                  ("metadata",
                   JDict [ ("file_size", JNum 7);
                           ("mime_type", JStr "image/png");
                           ("analysis_successful", JBool true) ]) ]).
Proof. eexists. vm_compute. reflexivity. Qed.

(* ================================================================== *)
(** * Strings *)
(* ================================================================== *)

Lemma append_assoc (a b c : string) : ((a ++ b) ++ c = a ++ (b ++ c))%string.
Proof. induction a; simpl; congruence. Qed.

Lemma length_append (a b : string) :
  String.length (a ++ b) = String.length a + String.length b.
Proof. induction a; simpl; congruence. Qed.

Lemma startswith_spec p s :
  startswith p s = true <-> exists rest, s = (p ++ rest)%string.
Proof.
  revert s. induction p as [| a p IH]; intros s; simpl.
  - split; [intros _; now exists s | reflexivity].
  - destruct s as [| b s].
    + split; [discriminate | intros (rest & E); discriminate].
    + rewrite andb_true_iff, Ascii.eqb_eq, IH. split.
      * intros (-> & rest & ->). now exists rest.
      * intros (rest & E). injection E as -> ->. split; [reflexivity | now exists rest].
Qed.

Lemma endswith_spec suf s :
  endswith suf s = true <-> exists pre, s = (pre ++ suf)%string.
Proof.
  induction s as [| c s IH]; cbn [endswith].
  - rewrite orb_false_r, String.eqb_eq. split.
    + intros <-. now exists "".
    + intros (pre & E). destruct pre; simpl in E; [auto | discriminate].
  - rewrite orb_true_iff, String.eqb_eq, IH. split.
    + intros [<- | (pre & ->)]; [now exists "" | now exists (String c pre)].
    + intros (pre & E). destruct pre as [| c' pre]; simpl in E.
      * now left.
      * injection E as -> ->. right. now exists pre.
Qed.

Lemma endswith_app pre suf : endswith suf (pre ++ suf) = true.
Proof. apply endswith_spec. now exists pre. Qed.

Lemma contains_spec sub s :
  contains sub s = true <-> exists pre post, s = (pre ++ sub ++ post)%string.
Proof.
  induction s as [| c s IH]; simpl.
  - rewrite orb_false_r, startswith_spec. split.
    + intros (rest & E). now exists "", rest.
    + intros (pre & post & E). destruct pre; simpl in E; [now exists post | discriminate].
  - rewrite orb_true_iff, startswith_spec, IH. split.
    + intros [(rest & E) | (pre & post & ->)].
      * now exists "", rest.
      * now exists (String c pre), post.
    + intros (pre & post & E). destruct pre as [| c' pre]; simpl in E.
      * left. now exists post.
      * injection E as -> ->. right. now exists pre, post.
Qed.

(** A text whose first character does not occur in [a] can only be found
    in [a ++ b] inside [b]. *)
Lemma contains_skip c m a b :
  contains (String c "") a = false ->
  contains (String c m) (a ++ b) = contains (String c m) b.
Proof.
  induction a as [| x a IH]; [reflexivity|].
  intros H. simpl in H. apply orb_false_iff in H as [Hx Ha].
  change (contains (String c m) (String x (a ++ b)) = contains (String c m) b).
  cbn [contains startswith].
  destruct (Ascii.eqb c x); [discriminate|]. simpl. now apply IH.
Qed.

(** A text none of whose characters is [x] cannot start in [a] and run
    into a [b] that begins with [x]. *)
Lemma startswith_stops m x a b :
  contains (String x "") m = false ->
  startswith m a = false ->
  startswith m (a ++ String x b) = false.
Proof.
  revert a. induction m as [| c m IH]; intros a Hx Ha; [discriminate|].
  simpl in Hx. apply orb_false_iff in Hx as [Hc Hm].
  destruct a as [| y a]; simpl.
  - destruct (Ascii.eqb x c) eqn:E; [discriminate|].
    rewrite Ascii.eqb_sym, E. reflexivity.
  - simpl in Ha. destruct (Ascii.eqb c y); [|reflexivity]. simpl in *.
    now apply IH.
Qed.

Lemma contains_stops m x a b :
  contains (String x "") m = false ->
  contains m a = false ->
  contains m (String x b) = false ->
  contains m (a ++ String x b) = false.
Proof.
  intros Hx. induction a as [| y a IH]; intros Ha Hb; [exact Hb|].
  simpl in Ha. apply orb_false_iff in Ha as [Hs Ha].
  change (contains m (String y (a ++ String x b)) = false).
  cbn [contains]. apply orb_false_iff. split.
  - apply (startswith_stops m x (String y a) b Hx Hs).
  - now apply IH.
Qed.

(** ** [replace] and [count] *)

Lemma replace_from_skip old new a rest :
  replace_from old new (String.length a) (a ++ rest) = replace_from old new 0 rest.
Proof. induction a; simpl; auto. Qed.

Lemma count_from_skip old a rest :
  count_from old (String.length a) (a ++ rest) = count_from old 0 rest.
Proof. induction a; simpl; auto. Qed.

Lemma replace_without_occurrence old new s :
  str_count old s = 0 -> str_replace old new s = s.
Proof.
  unfold str_count, str_replace. induction s as [| c s IH]; [reflexivity|].
  cbn [count_from replace_from].
  destruct (startswith old (String c s)); [discriminate|].
  intros H. now rewrite IH.
Qed.

(** A string with exactly one occurrence of a non-empty [old] splits around
    it, and [replace] exchanges that occurrence and nothing else. *)
Lemma replace_single_occurrence c old' new s :
  let old := String c old' in
  str_count old s = 1 ->
  exists pre post,
    s = (pre ++ old ++ post)%string /\
    str_replace old new s = (pre ++ new ++ post)%string.
Proof.
  intros old. unfold str_count, str_replace.
  induction s as [| x s IH]; [discriminate|].
  cbn [count_from replace_from].
  destruct (startswith old (String x s)) eqn:E.
  - apply startswith_spec in E as (rest & E). subst old. simpl in E.
    injection E as -> ->.
    replace (String.length (String c old') - 1) with (String.length old')
      by (simpl; lia).
    rewrite count_from_skip, replace_from_skip. intros H.
    injection H as H. exists "", rest. split; [reflexivity|]. simpl.
    f_equal. now apply replace_without_occurrence.
  - intros H. destruct (IH H) as (pre & post & -> & R).
    exists (String x pre), post. split; [reflexivity|]. rewrite R. reflexivity.
Qed.

(* ================================================================== *)
(** * The prompt builder *)
(* ================================================================== *)

Lemma fallback_split :
  ImageAnalyzer.FALLBACK_PROMPT
  = (FALLBACK_BEFORE ++ ImageAnalyzer.MARKER ++ FALLBACK_AFTER)%string.
Proof. reflexivity. Qed.

Lemma fallback_replaced injection :
  str_replace ImageAnalyzer.MARKER injection ImageAnalyzer.FALLBACK_PROMPT
  = (FALLBACK_BEFORE ++ injection ++ FALLBACK_AFTER)%string.
Proof. reflexivity. Qed.

(** In the built-in template the marker can only come back through the
    text that is injected. *)
Lemma fallback_marker_free injection :
  contains ImageAnalyzer.MARKER injection = false ->
  contains ImageAnalyzer.MARKER
    (FALLBACK_BEFORE ++ injection ++ FALLBACK_AFTER) = false.
Proof.
  intros H. unfold ImageAnalyzer.MARKER in *.
  rewrite contains_skip by (vm_compute; reflexivity).
  apply contains_stops; [vm_compute; reflexivity | exact H | vm_compute; reflexivity].
Qed.

Lemma injection_marker_free custom_prompt :
  (forall q, custom_prompt = Some q -> contains ImageAnalyzer.MARKER q = false) ->
  contains ImageAnalyzer.MARKER (ImageAnalyzer.prompt_injection custom_prompt) = false.
Proof.
  intros H. unfold ImageAnalyzer.prompt_injection, given.
  destruct custom_prompt as [q |]; [|reflexivity].
  destruct (String.eqb q ""); [reflexivity|].
  unfold ImageAnalyzer.MARKER.
  rewrite contains_skip by (vm_compute; reflexivity).
  now apply H.
Qed.

Section PromptProofs.
Context {W : Type} {R : Runtime W}.
Import ImageAnalyzer.

(** The loop over the candidate paths reads the first one that exists and
    leaves the world as it was. *)
Lemma read_first_existing_spec paths (w w' : W) r :
  read_first_existing paths w = (r, w') ->
  w' = w /\
  match find (fun p => os_path_exists p w) paths with
  | Some p => match read_text p w with
              | Ok text => r = Ok (Some text)
              | Raise e => r = Raise e
              end
  | None => r = Ok None
  end.
Proof.
  induction paths as [| p paths IH]; cbn [read_first_existing find].
  - intros E. injection E as <- <-. auto.
  - unfold bind at 1, gets at 1.
    destruct (os_path_exists p w) eqn:X.
    + unfold bind, reading, ret. destruct (read_text p w);
        intros E; injection E as <- <-; auto.
    + exact IH.
Qed.

(** C8, as the code has it.  A call that returns leaves the world
    untouched, so a second call returns the same string.  The string is the
    selected template with the marker replaced by the injection; a template
    that holds the marker once has that one occurrence replaced and the
    rest unchanged; and with the built-in template no marker remains,
    provided the question does not contain one. *)
Theorem load_frame_prompt_builds custom_prompt (w w' : W) out :
  _load_frame_prompt custom_prompt w = (Ok out, w') ->
  w' = w /\
  _load_frame_prompt custom_prompt w' = (Ok out, w') /\
  exists template,
    selected_template w template /\
    out = str_replace MARKER (prompt_injection custom_prompt) template /\
    (str_count MARKER template = 1 ->
     exists pre post,
       template = (pre ++ MARKER ++ post)%string /\
       out = (pre ++ prompt_injection custom_prompt ++ post)%string) /\
    (template = FALLBACK_PROMPT ->
     (forall q, custom_prompt = Some q -> contains MARKER q = false) ->
     out = (FALLBACK_BEFORE ++ prompt_injection custom_prompt ++ FALLBACK_AFTER)%string /\
     contains MARKER out = false).
Proof.
  intros H.
  assert (w' = w /\
          exists template, selected_template w template /\
            out = str_replace MARKER (prompt_injection custom_prompt) template)
    as (-> & template & Sel & Out).
  { unfold _load_frame_prompt, bind in H.
    destruct (read_first_existing prompt_paths w) as [[found | e] w1] eqn:E;
      [|discriminate].
    apply read_first_existing_spec in E as (-> & F).
    unfold ret in H. injection H as <- <-. split; [reflexivity|].
    eexists. split; [|reflexivity].
    unfold selected_template.
    destruct (find (fun p => os_path_exists p w) prompt_paths) as [p |].
    - destruct (read_text p w) as [text | e]; [|discriminate].
      injection F as ->. exists text. split; [reflexivity|].
      unfold given. now destruct (String.eqb text "").
    - injection F as ->. reflexivity. }
  split; [reflexivity|]. split; [exact H|].
  exists template. repeat split; auto.
  - intros C. subst out.
    apply (replace_single_occurrence "{" "prompt}" (prompt_injection custom_prompt)
             template C).
  - subst. apply fallback_replaced.
  - subst. rewrite fallback_replaced.
    apply fallback_marker_free. now apply injection_marker_free.
Qed.

End PromptProofs.

(** The theorem at work on a template file and a question. *)
Lemma load_frame_prompt_builds_witness :
  exists template,
    @selected_template _ Examples.rt Examples.desk_with_template template /\
    str_count ImageAnalyzer.MARKER template = 1 /\
    exists pre post,
      template = (pre ++ ImageAnalyzer.MARKER ++ post)%string /\
      "Describe the picture. I want to know: what colour? Be brief."
      = (pre ++ "I want to know: what colour?" ++ post)%string.
Proof.
  destruct (@load_frame_prompt_builds _ Examples.rt (Some "what colour?")
              Examples.desk_with_template Examples.desk_with_template
              "Describe the picture. I want to know: what colour? Be brief.")
    as (_ & _ & template & Sel & Out & One & _).
  - vm_compute. reflexivity.
  - exists template. split; [exact Sel|].
    assert (template = "Describe the picture. {prompt} Be brief.") as ->.
    { destruct Sel as (text & Rd & ->). vm_compute in Rd. injection Rd as <-.
      reflexivity. }
    split; [reflexivity|]. apply One. reflexivity.
Defined.

(** C8 as stated fails: a question that itself holds the marker leaves a
    marker in the prompt built from the built-in template. *)
Lemma load_frame_prompt_marker_remains :
  fst (@ImageAnalyzer._load_frame_prompt _ Examples.rt (Some "{prompt}") Examples.desk)
  = Ok (FALLBACK_BEFORE ++ "I want to know: {prompt}" ++ FALLBACK_AFTER)%string
  /\ str_count ImageAnalyzer.MARKER
       (FALLBACK_BEFORE ++ "I want to know: {prompt}" ++ FALLBACK_AFTER) = 1.
Proof. split; vm_compute; reflexivity. Qed.

(** [replace] exchanges every occurrence: a template file with two markers
    gets the question twice. *)
Example two_markers_both_replaced :
  str_replace ImageAnalyzer.MARKER "I want to know: why?" "{prompt} and {prompt}"
  = "I want to know: why? and I want to know: why?".
Proof. reflexivity. Qed.

(** Removing a marker can assemble a new one. *)
Example marker_assembled_by_removal :
  str_count ImageAnalyzer.MARKER "{pro{prompt}mpt}" = 1 /\
  str_replace ImageAnalyzer.MARKER "" "{pro{prompt}mpt}" = "{prompt}".
Proof. split; reflexivity. Qed.

(* ================================================================== *)
(** * Dicts *)
(* ================================================================== *)

Section Dicts.
Context {V : Type}.
Implicit Types (d : list (string * V)) (k : string) (v : V).

Lemma dict_set_twice k v1 v2 d :
  dict_set k v2 (dict_set k v1 d) = dict_set k v2 d.
Proof.
  induction d as [| [k' v'] d IH]; simpl.
  - now rewrite String.eqb_refl.
  - destruct (String.eqb k k') eqn:E; simpl; rewrite E; [reflexivity | now rewrite IH].
Qed.

Lemma assoc_dict_set_same k v d : assoc k (dict_set k v d) = Some v.
Proof.
  induction d as [| [k' v'] d IH]; simpl.
  - now rewrite String.eqb_refl.
  - destruct (String.eqb k k') eqn:E; simpl; now rewrite E.
Qed.

Lemma assoc_dict_set_other k k' v d :
  k <> k' -> assoc k' (dict_set k v d) = assoc k' d.
Proof.
  intros N. induction d as [| [k0 v0] d IH]; simpl.
  - apply String.eqb_neq in N. rewrite String.eqb_sym in N. now rewrite N.
  - destruct (String.eqb k k0) eqn:E; simpl; [|now rewrite IH].
    apply String.eqb_eq in E as <-.
    apply String.eqb_neq in N. rewrite String.eqb_sym in N. now rewrite N.
Qed.

Lemma keys_dict_set k v d : keys (dict_set k v d) = add_key (keys d) k.
Proof.
  unfold add_key, keys. induction d as [| [k' v'] d IH]; simpl; [reflexivity|].
  destruct (String.eqb k k') eqn:E; simpl; [reflexivity|].
  rewrite IH. now destruct (existsb (String.eqb k) (map fst d)).
Qed.

Lemma existsb_eqb_In k (ks : list string) :
  existsb (String.eqb k) ks = true <-> In k ks.
Proof.
  rewrite existsb_exists. split.
  - intros (x & I & E). apply String.eqb_eq in E. now subst.
  - intros I. exists k. split; [exact I | apply String.eqb_refl].
Qed.

Lemma add_key_fresh (ks : list string) k : ~ In k ks -> add_key ks k = ks ++ [k].
Proof.
  intros N. unfold add_key. destruct (existsb (String.eqb k) ks) eqn:E; [|reflexivity].
  apply existsb_eqb_In in E. contradiction.
Qed.

(** Assigning to a key that the front part of a dict does not hold is an
    assignment in the rest. *)
Lemma dict_set_app k v d1 d2 :
  ~ In k (keys d1) -> dict_set k v (d1 ++ d2) = d1 ++ dict_set k v d2.
Proof.
  induction d1 as [| [k' v'] d1 IH]; simpl; [reflexivity|].
  intros N. destruct (String.eqb k k') eqn:E.
  - apply String.eqb_eq in E. subst. tauto.
  - rewrite IH; tauto.
Qed.

End Dicts.

(* ================================================================== *)
(** * One turn of the batch loops *)
(* ================================================================== *)

Section ItemProofs.
Context {W : Type} {R : Runtime W}.
Import FolderProcessor.

Lemma save_results_saved rs output_dir (w w' : W) f :
  save_results rs output_dir w = (Ok f, w') ->
  exists d saving,
    output_dir = Some d /\
    write_text (results_file d) (json_dumps (JDict rs)) saving = (Ok tt, w').
Proof.
  unfold save_results. destruct output_dir as [d |]; [|discriminate].
  unfold bind, ret, results_file.
  destruct (os_makedirs d w) as [[[] | e] w1]; [|discriminate].
  destruct (write_text _ _ w1) as [[[] | e] w2] eqn:E; [|discriminate].
  intros H. injection H as _ <-. now exists d, w1.
Qed.

(** A turn never raises: it ends having assigned one entry to the file's
    name, the error entry or the success entry of the file. *)
Lemma process_item_spec self output_dir m file (s : State W) :
  wp (process_item self output_dir m file)
     (fun r s' =>
        r = Ok tt /\
        exists e, results s' = dict_set (basename file) e (results s) /\
                  recorded output_dir m file s s' e) s.
Proof.
  unfold process_item, video_try, image_try, load_json, in_world, set_result.
  destruct m; wp_steps.
  all: (split; [reflexivity|]).
  all: cbn [results world].
  all: rewrite ?dict_set_twice.
  all: eexists; (split; [reflexivity|]).
  all: try (eapply recorded_error; reflexivity).
  all: match goal with H : save_results _ _ _ = (Ok _, _) |- _ =>
         apply save_results_saved in H as (d & saving & -> & Wr) end.
  all: eapply recorded_success; try eassumption; try reflexivity; try discriminate; eauto.
  Unshelve. all: exact JNull.
Qed.

End ItemProofs.

(* ================================================================== *)
(** * The two loops *)
(* ================================================================== *)

Section LoopProofs.
Context {W : Type} {R : Runtime W}.
Import FolderProcessor.
Variables (self : Self) (output_dir : option string).

(** The state after one turn, and what the turn recorded. *)
Lemma turn_records m file (s : State W) :
  exists e,
    process_item self output_dir m file s
      = (Ok tt, state_after self output_dir [(m, file)] s) /\
    results (state_after self output_dir [(m, file)] s)
      = dict_set (basename file) e (results s) /\
    recorded output_dir m file s (state_after self output_dir [(m, file)] s) e.
Proof.
  pose proof (process_item_spec self output_dir m file s) as H.
  unfold wp in H.
  unfold state_after, process_all. cbn [for_each fst snd]. unfold bind, ret.
  destruct (process_item self output_dir m file s) as [r s1].
  cbn [fst snd] in H. destruct H as (-> & e & He & Hrec).
  cbn [snd]. now exists e.
Qed.

Lemma process_all_cons item items (s : State W) :
  process_all self output_dir (item :: items) s
  = process_all self output_dir items (state_after self output_dir [item] s).
Proof.
  destruct item as [m file].
  destruct (turn_records m file s) as (e & E & _).
  unfold process_all at 1. cbn [for_each fst snd]. unfold bind. now rewrite E.
Qed.

(** The loops never raise. *)
Lemma process_all_returns items (s : State W) :
  process_all self output_dir items s
  = (Ok tt, state_after self output_dir items s).
Proof.
  revert s. induction items as [| item items IH]; intros s; [reflexivity|].
  unfold state_after. rewrite process_all_cons. rewrite IH. reflexivity.
Qed.

Lemma state_after_cons item items (s : State W) :
  state_after self output_dir (item :: items) s
  = state_after self output_dir items (state_after self output_dir [item] s).
Proof. unfold state_after at 1. now rewrite process_all_cons. Qed.

Lemma state_after_app done rest (s : State W) :
  state_after self output_dir (done ++ rest) s
  = state_after self output_dir rest (state_after self output_dir done s).
Proof.
  revert s. induction done as [| item done IH]; intros s; [reflexivity|].
  cbn [app]. rewrite state_after_cons, IH, <- state_after_cons. reflexivity.
Qed.

Lemma for_each_tagged (m : media) files (s : State W) :
  for_each files (process_item self output_dir m) s
  = process_all self output_dir (map (pair m) files) s.
Proof.
  revert s. induction files as [| f files IH]; intros s; [reflexivity|].
  unfold process_all in *. cbn [for_each map fst snd]. unfold bind.
  destruct (process_item self output_dir m f s) as [[[] | e] s1]; auto.
Qed.

Lemma process_queues_run video_files image_files (s : State W) :
  process_queues self output_dir video_files image_files s
  = (Ok tt, state_after self output_dir (queue video_files image_files) s).
Proof.
  unfold process_queues, queue, bind.
  rewrite for_each_tagged, process_all_returns.
  rewrite for_each_tagged, process_all_returns.
  now rewrite state_after_app.
Qed.

(** [process_folder] never raises; its value is the result map of the state
    after the whole queue. *)
Lemma process_folder_run folder_path (w : W) :
  let final := state_after self output_dir
                 (queue (find_videos folder_path w) (find_images folder_path w))
                 (start w) in
  process_folder self folder_path output_dir w = (Ok (results final), world final).
Proof.
  unfold process_folder, find_all_media.
  destruct (length (find_videos folder_path w) + length (find_images folder_path w)
            =? 0)%nat eqn:E.
  - apply Nat.eqb_eq in E.
    destruct (find_videos folder_path w); [|discriminate].
    destruct (find_images folder_path w); [|discriminate]. reflexivity.
  - unfold start. rewrite process_queues_run. reflexivity.
Qed.

(** The keys of the result map after a run of turns. *)
Lemma keys_after items (s : State W) :
  keys (results (state_after self output_dir items s))
  = fold_left add_key (map (fun item => basename (snd item)) items) (keys (results s)).
Proof.
  revert s. induction items as [| [m file] items IH]; intros s; [reflexivity|].
  rewrite state_after_cons, IH.
  destruct (turn_records m file s) as (e & _ & -> & _).
  now rewrite keys_dict_set.
Qed.

(** Turns on other files leave an entry alone. *)
Lemma entry_kept k items (s : State W) :
  ~ In k (map (fun item => basename (snd item)) items) ->
  assoc k (results (state_after self output_dir items s)) = assoc k (results s).
Proof.
  revert s. induction items as [| [m file] items IH]; intros s N; [reflexivity|].
  cbn [map In snd] in N.
  rewrite state_after_cons, IH by tauto.
  destruct (turn_records m file s) as (e & _ & -> & _).
  apply assoc_dict_set_other. tauto.
Qed.

End LoopProofs.

Lemma fold_add_key_fresh ks acc :
  NoDup (acc ++ ks) -> fold_left add_key ks acc = acc ++ ks.
Proof.
  revert acc. induction ks as [| k ks IH]; intros acc N; cbn [fold_left].
  - now rewrite app_nil_r.
  - assert (~ In k acc) as F.
    { apply NoDup_remove_2 in N. intros I. apply N. apply in_or_app. now left. }
    rewrite add_key_fresh by exact F.
    replace (acc ++ k :: ks) with ((acc ++ [k]) ++ ks) in *
      by now rewrite <- app_assoc.
    now apply IH.
Qed.

Lemma queue_keys video_files image_files :
  map (fun item : FolderProcessor.media * string => basename (snd item))
      (queue video_files image_files)
  = map basename (video_files ++ image_files).
Proof.
  unfold queue. rewrite !map_app, !map_map. reflexivity.
Qed.

(* ================================================================== *)
(** * The batch driver *)
(* ================================================================== *)

Lemma Forall_dict_set {V} (P : V -> Prop) k v (d : list (string * V)) :
  Forall (fun kv => P (snd kv)) d -> P v ->
  Forall (fun kv => P (snd kv)) (dict_set k v d).
Proof.
  intros F Pv. induction F as [| [k' v'] d Pk F IH]; simpl.
  - constructor; [exact Pv | constructor].
  - destruct (String.eqb k k'); constructor; auto.
Qed.

Section BatchProofs.
Context {W : Type} {R : Runtime W}.
Import FolderProcessor.

(** When the discovered files have distinct names, [process_folder]
    returns (it never raises) a map with one entry per discovered file, in
    number the videos plus the images, and the entry of each file is the one
    its own turn recorded, an error entry or its success entry: no turn
    ends the loop, and no later turn touches an earlier entry. *)
Lemma process_folder_entries (self : Self) folder_path output_dir (w : W) :
  let video_files := find_videos folder_path w in
  let image_files := find_images folder_path w in
  NoDup (map basename (video_files ++ image_files)) ->
  exists res w',
    process_folder self folder_path output_dir w = (Ok res, w') /\
    keys res = map basename (video_files ++ image_files) /\
    List.length res = List.length video_files + List.length image_files /\
    forall done m file rest,
      queue video_files image_files = done ++ (m, file) :: rest ->
      exists e,
        assoc (basename file) res = Some e /\
        recorded output_dir m file
          (state_after self output_dir done (start w))
          (state_after self output_dir (done ++ [(m, file)]) (start w)) e.
Proof.
  intros video_files image_files N.
  eexists _, _. split; [apply process_folder_run|].
  fold video_files image_files.
  assert (keys (results (state_after self output_dir
                           (queue video_files image_files) (start w)))
          = map basename (video_files ++ image_files)) as K.
  { rewrite keys_after, queue_keys. now apply (fold_add_key_fresh _ []). }
  split; [exact K|]. split.
  { rewrite <- length_app, <- (length_map basename), <- K. unfold keys.
    now rewrite length_map. }
  intros done m file rest Q.
  destruct (turn_records self output_dir m file
              (state_after self output_dir done (start w))) as (e & _ & E & Rec).
  rewrite <- state_after_app in E, Rec.
  exists e. split; [|exact Rec].
  rewrite Q.
  replace (done ++ (m, file) :: rest) with ((done ++ [(m, file)]) ++ rest)
    by now rewrite <- app_assoc.
  rewrite state_after_app, entry_kept.
  - rewrite E. apply assoc_dict_set_same.
  - rewrite <- queue_keys, Q, map_app in N. cbn [map snd] in N.
    now apply NoDup_remove_2 in N as N2; intros I; apply N2; apply in_or_app; right.
Qed.

(** Without an output directory every turn ends in an error entry. *)
Lemma errors_without_output_dir (self : Self) items (s : State W) :
  Forall (fun kv => is_error (snd kv) = true) (results s) ->
  Forall (fun kv => is_error (snd kv) = true)
         (results (state_after self None items s)).
Proof.
  revert s. induction items as [| [m file] items IH]; intros s F; [exact F|].
  rewrite state_after_cons. apply IH.
  destruct (turn_records self None m file s) as (e & _ & -> & Rec).
  apply (Forall_dict_set (fun e => is_error e = true)); [exact F|].
  destruct Rec as [msg -> | d ? ? ? ? ? ? ? ? ? D]; [reflexivity | discriminate].
Qed.

(** C10.  [process_folder(folder_path, output_dir=None)] returns a map
    without success entries: every entry holds the key [error].  The
    checkpoint [save_results(results, None)] raises inside the [try], and
    the handler replaces the entry just made. *)
Theorem no_success_without_output_dir (self : Self) folder_path (w : W) :
  exists res w',
    process_folder self folder_path None w = (Ok res, w') /\
    Forall (fun kv => is_error (snd kv) = true) res.
Proof.
  eexists _, _. split; [apply process_folder_run|].
  apply errors_without_output_dir. constructor.
Qed.

(** C5, as the code has it.  An entry that a turn leaves without the key
    [error] is the success entry of its file: the JSON artifact was read and
    parsed, the first truthy value under the prioritized keys was taken, and
    the [description] field is the member [response] of that value; a video
    entry also carries the transcript text. *)
Theorem success_entry_holds_response (self : Self) output_dir m file (s : State W) e :
  assoc (basename file) (results (state_after self output_dir [(m, file)] s))
    = Some e ->
  is_error e = false ->
  exists json_file text readable data value response transcript run_time,
    read_text json_file readable = Ok text /\
    json_loads text = Ok data /\
    description_of m data = Ok value /\
    py_getitem value "response" = Ok response /\
    (m = video -> video_transcript data = Ok transcript) /\
    e = success_entry m response transcript run_time
          (os_path_abspath file (world s)).
Proof.
  destruct (turn_records self output_dir m file s) as (e' & _ & -> & Rec).
  rewrite assoc_dict_set_same. intros E Err. injection E as ->.
  destruct Rec as [msg -> | d json_file text readable data value response
                             transcript run_time saving _ Rd Ld Ds Rs Tr -> _].
  - discriminate.
  - now exists json_file, text, readable, data, value, response, transcript, run_time.
Qed.

(** C4, as the code has it.  The result map is written to disk in the turns
    that end in a success entry.  Right after such a turn the artifact
    [media_descriptions.json] holds the whole map, the entries of all the
    files processed so far, provided the file system gives back what was
    written. *)
Theorem checkpoint_after_success (self : Self) d done m file (w : W) e :
  (forall p text (w0 w1 : W),
      write_text p text w0 = (Ok tt, w1) -> read_text p w1 = Ok text) ->
  let now := state_after self (Some d) (done ++ [(m, file)]) (start w) in
  assoc (basename file) (results now) = Some e ->
  is_error e = false ->
  read_text (results_file d) (world now) = Ok (json_dumps (JDict (results now))) /\
  (NoDup (map (fun item => basename (snd item)) (done ++ [(m, file)])) ->
   List.length (results now) = List.length done + 1).
Proof.
  intros Law now E Err. subst now. split.
  - rewrite state_after_app in *.
    destruct (turn_records self (Some d) m file
                (state_after self (Some d) done (start w))) as (e' & _ & Eq & Rec).
    rewrite Eq, assoc_dict_set_same in E. injection E as ->.
    destruct Rec as [msg -> | d' ? ? ? ? ? ? ? ? saving D _ _ _ _ _ _ Wr];
      [discriminate|].
    injection D as <-. now apply Law in Wr.
  - intros N.
    rewrite <- (length_map fst). fold (keys (results (state_after self (Some d)
      (done ++ [(m, file)]) (start w)))).
    rewrite keys_after. cbn [results start keys map].
    rewrite (fold_add_key_fresh _ []) by exact N.
    cbn [app]. rewrite length_map, length_app. reflexivity.
Qed.

End BatchProofs.

(** ** The batch driver at work *)

(** A folder with two videos and two images, one of which the analyzer
    rejects: four entries, the rejected file among them. *)
Example process_folder_on_a_mixed_folder :
  fst (@FolderProcessor.process_folder _ Examples.rt Examples.processor "media/"
         (Some "out") Examples.media_folder)
  = Ok [ ("b.mp4", JDict [ ("description", JStr "a dog runs");
                           ("type", JStr "video");
                           ("processing_time", JNum 2);
                           ("transcript", JStr "woof");
                           ("file_path", JStr "/work/media/b.mp4") ]);
         ("a.mp4", JDict [ ("description", JStr "a dog runs");
                           ("type", JStr "video");
                           ("processing_time", JNum 2);
                           ("transcript", JStr "woof");
                           ("file_path", JStr "/work/media/a.mp4") ]);
         ("corrupt.png", JDict [ ("error", JStr "Return code 1: cannot decode");
                                 ("type", JStr "image") ]);
         ("y.png", JDict [ ("description", JStr "a cat");
                           ("type", JStr "image");
                           ("processing_time", JNum 2);
                           ("file_path", JStr "/work/media/y.png") ]) ].
Proof. vm_compute. reflexivity. Qed.

(** The same folder without output directory: errors only. *)
Example process_folder_without_output_dir :
  fst (@FolderProcessor.process_folder _ Examples.rt Examples.processor "media/"
         None Examples.media_folder)
  = Ok [ ("b.mp4", FolderProcessor.error_entry
                     "expected str, bytes or os.PathLike object, not NoneType"
                     FolderProcessor.video);
         ("a.mp4", FolderProcessor.error_entry
                     "expected str, bytes or os.PathLike object, not NoneType"
                     FolderProcessor.video);
         ("corrupt.png", FolderProcessor.error_entry
                           "Return code 1: cannot decode" FolderProcessor.image);
         ("y.png", FolderProcessor.error_entry
                     "expected str, bytes or os.PathLike object, not NoneType"
                     FolderProcessor.image) ].
Proof. vm_compute. reflexivity. Qed.

Lemma success_entry_holds_response_witness :
  exists json_file text readable data value response transcript run_time,
    @read_text _ Examples.rt json_file readable = Ok text /\
    @json_loads _ Examples.rt text = Ok data /\
    description_of FolderProcessor.image data = Ok value /\
    py_getitem value "response" = Ok response /\
    (FolderProcessor.image = FolderProcessor.video ->
     FolderProcessor.video_transcript data = Ok transcript) /\
    JDict [ ("description", JStr "a cat"); ("type", JStr "image");
            ("processing_time", JNum 2); ("file_path", JStr "/work/media/y.png") ]
    = success_entry FolderProcessor.image response transcript run_time
        "/work/media/y.png".
Proof.
  apply (@success_entry_holds_response _ Examples.rt Examples.processor
           (Some "out") FolderProcessor.image "media/y.png"
           (start Examples.one_image)).
  - vm_compute. reflexivity.
  - reflexivity.
Defined.

(** C5 as stated fails: the [description] field of the success entry is not
    the value extracted under the prioritized keys but its member
    [response]. *)
Lemma description_field_differs_from_extracted_value :
  exists extracted field entry,
    FolderProcessor.image_description Examples.image_document = Ok extracted /\
    fst (@FolderProcessor.process_folder _ Examples.rt Examples.processor "media"
           (Some "out") Examples.one_image) = Ok [("y.png", JDict entry)] /\
    assoc "description" entry = Some field /\
    extracted = JDict [("response", JStr "a cat")] /\
    field = JStr "a cat" /\
    field <> extracted.
Proof.
  eexists _, _, _. split; [vm_compute; reflexivity|].
  split; [vm_compute; reflexivity|].
  split; [reflexivity|]. split; [reflexivity|]. split; [reflexivity|].
  discriminate.
Qed.

(** The in-memory file system gives back what was written. *)
Lemma toy_written_is_read vd imd p text (w0 w1 : Toy.World) :
  @write_text _ (Toy.runtime vd imd) p text w0 = (Ok tt, w1) ->
  @read_text _ (Toy.runtime vd imd) p w1 = Ok text.
Proof.
  cbn [write_text read_text Toy.runtime]. unfold Toy.write, Toy.read.
  intros E. injection E as <-. cbn [Toy.files].
  now rewrite assoc_dict_set_same.
Qed.

Lemma checkpoint_after_success_witness :
  let now := @state_after _ Examples.rt Examples.processor (Some "out")
               ([(FolderProcessor.video, "media/b.mp4")]
                  ++ [(FolderProcessor.video, "media/a.mp4")])
               (start Examples.media_folder) in
  @read_text _ Examples.rt (results_file "out") (FolderProcessor.world now)
    = Ok (@json_dumps _ Examples.rt (JDict (FolderProcessor.results now))) /\
  List.length (FolderProcessor.results now) = 1 + 1.
Proof.
  intros now.
  destruct (@checkpoint_after_success _ Examples.rt Examples.processor "out"
              [(FolderProcessor.video, "media/b.mp4")]
              FolderProcessor.video "media/a.mp4" Examples.media_folder
              (JDict [ ("description", JStr "a dog runs");
                       ("type", JStr "video");
                       ("processing_time", JNum 2);
                       ("transcript", JStr "woof");
                       ("file_path", JStr "/work/media/a.mp4") ]))
    as (Rd & Len).
  - apply toy_written_is_read.
  - vm_compute. reflexivity.
  - reflexivity.
  - split; [exact Rd|]. apply Len. vm_compute.
    repeat (constructor; [simpl; intuition discriminate|]). constructor.
Defined.

(** C4 as stated fails: a turn that ends in an error entry writes nothing.
    After the one file of this folder the map has its entry and the
    artifact does not exist. *)
Lemma no_checkpoint_after_failure :
  let run := @FolderProcessor.process_folder _ Examples.rt Examples.processor
               "media" (Some "out") Examples.broken_folder in
  fst run = Ok [ ("corrupt.png",
                  FolderProcessor.error_entry "Return code 1: cannot decode"
                    FolderProcessor.image) ] /\
  @os_path_exists _ Examples.rt (results_file "out") (snd run) = false.
Proof. split; vm_compute; reflexivity. Qed.

(** After three of the four files of the mixed folder the artifact holds
    two entries: the failed third file is not yet on disk. *)
Example checkpoint_lags_behind_a_failure :
  let now := @state_after _ Examples.rt Examples.processor (Some "out")
               [ (FolderProcessor.video, "media/b.mp4");
                 (FolderProcessor.video, "media/a.mp4");
                 (FolderProcessor.image, "media/corrupt.png") ]
               (start Examples.media_folder) in
  keys (FolderProcessor.results now) = ["b.mp4"; "a.mp4"; "corrupt.png"] /\
  exists two,
    keys two = ["b.mp4"; "a.mp4"] /\
    @read_text _ Examples.rt (results_file "out") (FolderProcessor.world now)
    = Ok (Toy.dumps (JDict two)).
Proof.
  intros now. split; [vm_compute; reflexivity|].
  exists (firstn 2 (FolderProcessor.results now)).
  split; vm_compute; reflexivity.
Qed.

(* ================================================================== *)
(** * Paths *)
(* ================================================================== *)

Lemma is_slash_spec c : is_slash c = Ascii.eqb "/" c.
Proof. unfold is_slash. apply Ascii.eqb_sym. Qed.

Lemma contains_slash_cons c s :
  contains "/" (String c s) = is_slash c || contains "/" s.
Proof.
  cbn [contains startswith]. unfold is_slash.
  rewrite (Ascii.eqb_sym c "/"). now rewrite andb_true_r.
Qed.

Lemma after_last_slash_none t :
  contains "/" t = false -> after_last_slash t = None.
Proof.
  induction t as [| c t IH]; [reflexivity|].
  rewrite contains_slash_cons. intros H. apply orb_false_iff in H as [Hc Ht].
  cbn [after_last_slash]. now rewrite IH, Hc.
Qed.

Lemma after_last_slash_app x t :
  contains "/" t = false ->
  after_last_slash (x ++ t)
  = match after_last_slash x with
    | Some b => Some (b ++ t)%string
    | None => None
    end.
Proof.
  intros H. induction x as [| c x IH]; cbn [append after_last_slash].
  - now apply after_last_slash_none.
  - rewrite IH. destruct (after_last_slash x); [reflexivity|].
    now destruct (is_slash c).
Qed.

Lemma after_last_slash_trailing d : after_last_slash (d ++ "/") = Some "".
Proof.
  induction d as [| c d IH]; [reflexivity|].
  cbn [append after_last_slash]. now rewrite IH.
Qed.

(** The base name of a path that ends with a slash-free text ends with it. *)
Lemma endswith_basename lit p :
  contains "/" lit = false ->
  endswith lit p = true -> endswith lit (basename p) = true.
Proof.
  intros N E. apply endswith_spec in E as (pre & ->).
  unfold basename. rewrite after_last_slash_app by exact N.
  destruct (after_last_slash pre); apply endswith_app.
Qed.

Lemma endswith_trans a b c :
  endswith a b = true -> endswith b c = true -> endswith a c = true.
Proof.
  rewrite !endswith_spec. intros (p & ->) (q & ->).
  exists (q ++ p)%string. now rewrite append_assoc.
Qed.

Lemma endswith_path_join lit d n :
  endswith lit n = true -> endswith lit (path_join d n) = true.
Proof.
  intros E. apply (endswith_trans _ n); [exact E|].
  unfold path_join. destruct (startswith "/" n).
  - apply endswith_spec. now exists "".
  - destruct (String.eqb d "" || endswith "/" d).
    + apply endswith_app.
    + apply endswith_spec. exists (d ++ "/")%string. now rewrite append_assoc.
Qed.

(** Two endings of one string: one of them ends the other. *)
Lemma append_eq_append (p1 a p2 b : string) :
  (p1 ++ a = p2 ++ b)%string ->
  (exists x, a = (x ++ b)%string) \/ (exists x, b = (x ++ a)%string).
Proof.
  revert p2. induction p1 as [| c p1 IH]; intros p2 E.
  - left. exists p2. now simpl in E.
  - destruct p2 as [| c' p2].
    + right. exists (String c p1). now simpl in E.
    + simpl in E. injection E as _ E. now apply IH in E.
Qed.

Lemma endswith_comparable a b s :
  endswith a s = true -> endswith b s = true ->
  endswith b a = true \/ endswith a b = true.
Proof.
  rewrite !endswith_spec. intros (p1 & ->) (p2 & E).
  apply append_eq_append in E as [(x & ->) | (x & ->)]; [left | right];
    now exists x.
Qed.

(** ** [rstrip] and [split] *)

Lemma rstrip_slash_cons c s :
  rstrip_slash (String c s)
  = match rstrip_slash s with
    | EmptyString => if is_slash c then EmptyString else String c EmptyString
    | String c' r => String c (String c' r)
    end.
Proof. reflexivity. Qed.

Lemma rstrip_slash_app_slash d : rstrip_slash (d ++ "/") = rstrip_slash d.
Proof.
  induction d as [| c d IH]; [reflexivity|].
  cbn [append]. now rewrite !rstrip_slash_cons, IH.
Qed.

Lemma rstrip_slash_length s : String.length (rstrip_slash s) <= String.length s.
Proof.
  induction s as [| c s IH]; [auto|]. rewrite rstrip_slash_cons.
  destruct (rstrip_slash s); [destruct (is_slash c)|]; simpl in *; lia.
Qed.

Lemma rstrip_slash_idempotent s : rstrip_slash (rstrip_slash s) = rstrip_slash s.
Proof.
  induction s as [| c s IH]; [reflexivity|]. rewrite rstrip_slash_cons.
  destruct (rstrip_slash s) as [| c' r] eqn:E.
  - destruct (is_slash c) eqn:S; [reflexivity|].
    rewrite rstrip_slash_cons. cbn [rstrip_slash]. now rewrite S.
  - rewrite rstrip_slash_cons, IH. reflexivity.
Qed.

Lemma stripped_has_no_trailing_slash d :
  rstrip_slash d = d -> endswith "/" d = false.
Proof.
  intros S. destruct (endswith "/" d) eqn:E; [|reflexivity].
  apply endswith_spec in E as (pre & ->).
  rewrite rstrip_slash_app_slash in S.
  pose proof (rstrip_slash_length pre) as L. rewrite S, length_append in L.
  simpl in L. lia.
Qed.

Lemma substring_app a b :
  String.substring 0 (String.length a) (a ++ b) = a.
Proof. induction a as [| c a IH]; simpl; [now destruct b | now rewrite IH]. Qed.

(** Joining a stripped directory and a slash-free pattern, then splitting,
    gives the two back. *)
Lemma path_split_join d pat :
  rstrip_slash d = d -> contains "/" pat = false ->
  path_split (path_join d pat) = (d, pat).
Proof.
  intros S N.
  assert (startswith "/" pat = false) as P.
  { destruct pat as [| c pat]; [reflexivity|].
    rewrite contains_slash_cons in N. apply orb_false_iff in N as [N _].
    cbn [startswith]. now rewrite <- is_slash_spec, N. }
  unfold path_join. rewrite P.
  destruct d as [| c d'] eqn:D.
  - cbn [String.eqb orb append]. unfold path_split.
    now rewrite after_last_slash_none.
  - rewrite <- D in *. replace (String.eqb d "") with false by now subst.
    rewrite stripped_has_no_trailing_slash by exact S. cbn [orb].
    rewrite <- append_assoc. unfold path_split.
    rewrite after_last_slash_app, after_last_slash_trailing by exact N.
    cbn [append].
    replace (String.length ((d ++ "/") ++ pat) - String.length pat)
      with (String.length (d ++ "/")) by (rewrite (length_append (d ++ "/")); lia).
    rewrite substring_app, rstrip_slash_app_slash, S. now subst.
Qed.

(* ================================================================== *)
(** * Discovery *)
(* ================================================================== *)

Lemma filter_twice {A} (f g : A -> bool) l :
  filter f (filter g l) = filter (fun x => g x && f x) l.
Proof.
  induction l as [| x l IH]; [reflexivity|]. simpl.
  destruct (g x); simpl; [destruct (f x)|]; now rewrite IH.
Qed.

Lemma path_join_empty n : path_join "" n = n.
Proof. unfold path_join. now destruct (startswith "/" n). Qed.

Lemma has_suffix_spec suffixes name :
  has_suffix suffixes name = true <->
  exists suffix, In suffix suffixes /\ endswith suffix name = true.
Proof. apply existsb_exists. Qed.

(** No name ends with a video suffix and with an image suffix. *)
Lemma suffixes_disjoint name :
  has_suffix video_suffixes name = true ->
  has_suffix image_suffixes name = true -> False.
Proof.
  rewrite !has_suffix_spec. intros (v & Iv & Ev) (i & Ii & Ei).
  assert (forallb (fun v => forallb (fun i => negb (endswith i v) && negb (endswith v i))
                                    image_suffixes) video_suffixes = true) as C
    by (vm_compute; reflexivity).
  rewrite forallb_forall in C. specialize (C v Iv).
  rewrite forallb_forall in C. specialize (C i Ii).
  apply andb_true_iff in C as [C1 C2].
  destruct (endswith_comparable _ _ _ Ev Ei) as [E | E]; rewrite E in *; discriminate.
Qed.

Section DiscoveryProofs.
Context {W : Type} {R : Runtime W}.
Import FolderProcessor.

Lemma glob1_star d lit (w : W) :
  glob1 d (String "*" lit) w
  = match os_scandir d w with
    | None => []
    | Some names => filter (fun n => negb (is_hidden n) && endswith lit n) names
    end.
Proof.
  unfold glob1. destruct (os_scandir d w); [|reflexivity].
  now rewrite filter_twice.
Qed.

Lemma star_has_no_slash lit :
  contains "/" lit = false -> contains "/" (String "*" lit) = false.
Proof. intros N. now rewrite contains_slash_cons, N. Qed.

(** What [glob] finds for one extension, wherever it looks, ends with the
    extension. *)
Lemma glob_ends_with d lit (w : W) p :
  rstrip_slash d = d -> contains "/" lit = false ->
  In p (glob (path_join d (String "*" lit)) w) -> endswith lit p = true.
Proof.
  intros S N. unfold glob.
  rewrite path_split_join by auto using star_has_no_slash.
  assert (forall dd n, In n (glob1 dd (String "*" lit) w) -> endswith lit n = true) as G.
  { intros dd n. rewrite glob1_star. destruct (os_scandir dd w); [|intros []].
    rewrite filter_In, andb_true_iff. tauto. }
  destruct (String.eqb d ""); [apply G|].
  rewrite in_flat_map. intros (dd & _ & I).
  apply in_map_iff in I as (n & <- & I).
  apply endswith_path_join. now apply G in I.
Qed.

(** Without wildcard in the folder path, [glob] lists the matching entries
    of that one directory. *)
Lemma glob_in_folder d lit (w : W) :
  rstrip_slash d = d -> has_magic d = false -> contains "/" lit = false ->
  glob (path_join d (String "*" lit)) w = matching d lit w.
Proof.
  intros S M N. unfold glob, matching.
  rewrite path_split_join by auto using star_has_no_slash.
  destruct (String.eqb_spec d "") as [-> | D].
  - rewrite glob1_star. destruct (os_scandir "" w); [|reflexivity].
    rewrite <- (map_id (filter _ _)) at 1. apply map_ext.
    intros n. now rewrite path_join_empty.
  - rewrite M. cbn [flat_map]. rewrite app_nil_r, glob1_star.
    now destruct (os_scandir d w).
Qed.

Lemma find_videos_in_folder folder_path (w : W) :
  has_magic (rstrip_slash folder_path) = false ->
  find_videos folder_path w
  = flat_map (fun suffix => matching (rstrip_slash folder_path) suffix w)
             video_suffixes.
Proof.
  intros M. unfold find_videos, video_extensions, video_suffixes.
  cbn [flat_map].
  now rewrite !glob_in_folder by auto using rstrip_slash_idempotent.
Qed.

Lemma find_images_in_folder folder_path (w : W) :
  has_magic (rstrip_slash folder_path) = false ->
  find_images folder_path w
  = flat_map (fun suffix => matching (rstrip_slash folder_path) suffix w)
             image_suffixes.
Proof.
  intros M. unfold find_images, image_extensions, image_suffixes.
  cbn [flat_map].
  now rewrite !glob_in_folder by auto using rstrip_slash_idempotent.
Qed.

Lemma in_matching d suffixes (w : W) p :
  In p (flat_map (fun suffix => matching d suffix w) suffixes) <->
  exists n, p = path_join d n /\ listed d n w /\ is_hidden n = false /\
            has_suffix suffixes n = true.
Proof.
  rewrite in_flat_map. unfold matching, listed. split.
  - intros (suffix & Is & I).
    destruct (os_scandir d w) as [names |]; [|destruct I].
    apply in_map_iff in I as (n & <- & I).
    apply filter_In in I as (I & H). apply andb_true_iff in H as [H E].
    exists n. repeat split.
    + now exists names.
    + now apply negb_true_iff.
    + apply has_suffix_spec. now exists suffix.
  - intros (n & -> & (names & Sc & I) & H & E).
    apply has_suffix_spec in E as (suffix & Is & E).
    exists suffix. split; [exact Is|]. rewrite Sc.
    apply in_map, filter_In. split; [exact I|]. now rewrite H, E.
Qed.

(** What discovery finds where [fnmatch] is case-sensitive (posix).  For a
    folder path without wildcard characters, with its trailing slashes
    removed, the videos and the images found are exactly the entries of that
    directory, without those of its subdirectories, whose name does not
    begin with a dot and ends with one of the lower-case extensions. *)
Lemma discovery_matches_lowercase_suffixes folder_path (w : W) :
  let d := rstrip_slash folder_path in
  has_magic d = false ->
  (forall p, In p (find_videos folder_path w) <->
             exists n, p = path_join d n /\ listed d n w /\
                       is_hidden n = false /\ has_suffix video_suffixes n = true) /\
  (forall p, In p (find_images folder_path w) <->
             exists n, p = path_join d n /\ listed d n w /\
                       is_hidden n = false /\ has_suffix image_suffixes n = true).
Proof.
  intros d M. split; intros p.
  - rewrite find_videos_in_folder by exact M. apply in_matching.
  - rewrite find_images_in_folder by exact M. apply in_matching.
Qed.

(** The name under which a found video is recorded ends with a video
    suffix, and likewise for images. *)
Lemma found_video_names folder_path (w : W) p :
  In p (find_videos folder_path w) ->
  has_suffix video_suffixes (basename p) = true.
Proof.
  unfold find_videos, video_extensions. cbn [flat_map]. rewrite !in_app_iff.
  intros I. apply has_suffix_spec.
  repeat (destruct I as [I | I];
          [ apply glob_ends_with in I; auto using rstrip_slash_idempotent;
            apply endswith_basename in I; [|reflexivity];
            eexists; split; [|exact I]; simpl; tauto |]).
  destruct I.
Qed.

Lemma found_image_names folder_path (w : W) p :
  In p (find_images folder_path w) ->
  has_suffix image_suffixes (basename p) = true.
Proof.
  unfold find_images, image_extensions. cbn [flat_map]. rewrite !in_app_iff.
  intros I. apply has_suffix_spec.
  repeat (destruct I as [I | I];
          [ apply glob_ends_with in I; auto using rstrip_slash_idempotent;
            apply endswith_basename in I; [|reflexivity];
            eexists; split; [|exact I]; simpl; tauto |]).
  destruct I.
Qed.

End DiscoveryProofs.

(** The upper-case variant of an extension.  Where [fnmatch] is
    case-sensitive (posix), a file with the upper-case variant of an image
    extension is in the folder and is not found: [find_images] globs the
    lower-case patterns only, the lines under its comment
    [# Also check uppercase] being commented out, while [find_media_files]
    of [folder_processor_dev.py] and [batch_analyze_images] of [cli.py]
    glob both.  Where [fnmatch] folds the case (Windows), the lower-case
    pattern finds the file. *)
Lemma uppercase_extension_is_not_discovered :
  @listed _ Examples.rt "media" "PHOTO.JPG" Examples.media_folder /\
  endswith ".JPG" "PHOTO.JPG" = true /\
  @FolderProcessor.find_images _ Examples.rt "media" Examples.media_folder
    = ["media/corrupt.png"; "media/y.png"] /\
  ~ In "media/PHOTO.JPG"
       (@FolderProcessor.find_images _ Examples.rt "media" Examples.media_folder).
Proof.
  split; [|split; [|split]].
  - eexists. split; [reflexivity|]. simpl. tauto.
  - reflexivity.
  - vm_compute. reflexivity.
  - vm_compute. intuition discriminate.
Qed.

(* ================================================================== *)
(** * Order of the result map *)
(* ================================================================== *)

Lemma in_fold_add_key k ks acc :
  In k (fold_left add_key ks acc) <-> In k acc \/ In k ks.
Proof.
  revert acc. induction ks as [| x ks IH]; intros acc; cbn [fold_left In].
  - tauto.
  - rewrite IH. unfold add_key.
    destruct (existsb (String.eqb x) acc) eqn:E.
    + apply existsb_eqb_In in E. split; [tauto|].
      intros [I | [<- | I]]; tauto.
    + rewrite in_app_iff. cbn [In]. tauto.
Qed.

Lemma fold_add_key_not_nil ks acc :
  acc <> [] -> fold_left add_key ks acc <> [].
Proof.
  revert acc. induction ks as [| x ks IH]; intros acc N; [exact N|].
  cbn [fold_left]. apply IH. unfold add_key.
  destruct (existsb (String.eqb x) acc); [exact N|].
  now destruct acc.
Qed.

Lemma distinct_nil ks : distinct ks = [] <-> ks = [].
Proof.
  split; [|intros ->; reflexivity].
  destruct ks as [| k ks]; [reflexivity|]. unfold distinct. cbn [fold_left].
  intros E. now apply fold_add_key_not_nil in E.
Qed.

Lemma distinct_of_distinct ks : NoDup ks -> distinct ks = ks.
Proof. intros N. now apply (fold_add_key_fresh ks []). Qed.

Section OrderProofs.
Context {W : Type} {R : Runtime W}.
Import FolderProcessor.
Variables (self : Self) (output_dir : option string).

Lemma recorded_type m file (s s' : State W) e :
  recorded output_dir m file s s' e ->
  entry_type e = Some (JStr (media_name m)).
Proof.
  intros [msg -> | ? ? ? ? ? ? ? ? ? ? _ _ _ _ _ _ -> _]; now destruct m.
Qed.

(** A loop over files of one kind, run on a map whose front part holds none
    of their names, extends the map behind that part with entries of the
    kind. *)
Lemma typed_phase m files front :
  (forall f, In f files -> ~ In (basename f) (keys front)) ->
  forall (s : State W) back,
    results s = front ++ back ->
    Forall (of_type m) back ->
    exists back',
      results (state_after self output_dir (map (pair m) files) s)
        = front ++ back' /\
      keys back' = fold_left add_key (map basename files) (keys back) /\
      Forall (of_type m) back'.
Proof.
  induction files as [| f files IH]; intros Fresh s back E T.
  - now exists back.
  - cbn [map]. rewrite state_after_cons.
    destruct (turn_records self output_dir m f s) as (e & _ & Eq & Rec).
    rewrite E, dict_set_app in Eq by (apply Fresh; now left).
    destruct (IH (fun f' I => Fresh f' (or_intror I)) _ _ Eq) as (back' & E' & K & T').
    { apply (Forall_dict_set (fun e => entry_type e = Some (JStr (media_name m))));
        [exact T | exact (recorded_type Rec)]. }
    exists back'. split; [exact E'|]. split; [|exact T'].
    rewrite K. cbn [map fold_left]. now rewrite keys_dict_set.
Qed.

(** C7.  The result map of [process_folder] is the video entries followed by
    the image entries; the keys of each part are the names of the files found,
    in the order [glob] gave them over the extension list (a name found twice
    keeps its first place). *)
Theorem videos_precede_images folder_path (w : W) :
  let video_files := find_videos folder_path w in
  let image_files := find_images folder_path w in
  exists res w' videos images,
    process_folder self folder_path output_dir w = (Ok res, w') /\
    res = videos ++ images /\
    keys videos = distinct (map basename video_files) /\
    keys images = distinct (map basename image_files) /\
    Forall (of_type video) videos /\
    Forall (of_type image) images /\
    (NoDup (map basename video_files) -> keys videos = map basename video_files) /\
    (NoDup (map basename image_files) -> keys images = map basename image_files).
Proof.
  intros video_files image_files.
  destruct (@typed_phase video video_files [] (fun _ _ I => I) (start w) []
              eq_refl (Forall_nil _)) as (videos & Ev & Kv & Tv).
  cbn [app] in Ev.
  destruct (@typed_phase image image_files videos) with
    (s := state_after self output_dir (map (pair video) video_files) (start w))
    (back := @nil (string * json)) as (images & Ei & Ki & Ti).
  { intros f If Iv. rewrite Kv in Iv. apply in_fold_add_key in Iv as [[] | Iv].
    apply in_map_iff in Iv as (v & Eb & Iv).
    apply found_video_names in Iv. apply found_image_names in If.
    rewrite Eb in Iv. exact (suffixes_disjoint _ Iv If). }
  { now rewrite app_nil_r. }
  { constructor. }
  exists (videos ++ images),
         (world (state_after self output_dir (queue video_files image_files) (start w))),
         videos, images.
  split.
  { rewrite process_folder_run. fold video_files image_files.
    unfold queue. now rewrite state_after_app, Ei. }
  repeat split; auto.
  - intros N. rewrite Kv. now apply distinct_of_distinct.
  - intros N. rewrite Ki. now apply distinct_of_distinct.
Qed.

End OrderProofs.

(** The order on the mixed folder: [b.mp4] before [a.mp4] as listed, and
    both before the images. *)
Example order_on_a_mixed_folder :
  exists res,
    fst (@FolderProcessor.process_folder _ Examples.rt Examples.processor "media"
           (Some "out") Examples.media_folder) = Ok res /\
    keys res = ["b.mp4"; "a.mp4"; "corrupt.png"; "y.png"].
Proof. eexists. split; vm_compute; reflexivity. Qed.

(* ================================================================== *)
(** * The names found in one folder are distinct *)
(* ================================================================== *)

Lemma basename_path_join d n :
  rstrip_slash d = d -> contains "/" n = false ->
  basename (path_join d n) = n.
Proof.
  intros S N. pose proof (@path_split_join d n S N) as P.
  unfold path_split in P. unfold basename.
  destruct (after_last_slash (path_join d n)) as [tail |].
  - cbv zeta in P. destruct (rstrip_slash _) in P; now injection P.
  - injection P as _ P. exact P.
Qed.

Lemma map_flat_map {A B C} (g : B -> C) (f : A -> list B) l :
  map g (flat_map f l) = flat_map (fun x => map g (f x)) l.
Proof.
  induction l as [| x l IH]; [reflexivity|].
  cbn [flat_map]. now rewrite map_app, IH.
Qed.

Lemma NoDup_filter_list {A} (f : A -> bool) l : NoDup l -> NoDup (filter f l).
Proof.
  induction 1 as [| x l N _ IH]; simpl; [constructor|].
  destruct (f x); [|exact IH]. constructor; [|exact IH].
  rewrite filter_In. tauto.
Qed.

(** The names kept for pairwise incomparable suffixes do not repeat. *)
Lemma NoDup_by_suffix (keep : string -> bool) names suffixes :
  NoDup names -> pairwise_incomparable suffixes = true ->
  NoDup (flat_map (fun suffix =>
                     filter (fun n => keep n && endswith suffix n) names)
                  suffixes).
Proof.
  intros N. induction suffixes as [| s rest IH]; intros P; [constructor|].
  cbn [pairwise_incomparable] in P. apply andb_true_iff in P as [Ps Pr].
  cbn [flat_map]. apply NoDup_app.
  - now apply NoDup_filter_list.
  - now apply IH.
  - intros n I1 I2. apply filter_In in I1 as (_ & E1).
    apply andb_true_iff in E1 as [_ E1].
    apply in_flat_map in I2 as (s' & Is' & I2).
    apply filter_In in I2 as (_ & E2). apply andb_true_iff in E2 as [_ E2].
    rewrite forallb_forall in Ps. specialize (Ps s' Is').
    apply andb_true_iff in Ps as [C1 C2].
    destruct (endswith_comparable _ _ _ E1 E2) as [E | E]; rewrite E in *;
      discriminate.
Qed.

Section DistinctNames.
Context {W : Type} {R : Runtime W}.
Import FolderProcessor.

Lemma basenames_of_matching d suffix (w : W) :
  rstrip_slash d = d ->
  (forall names, os_scandir d w = Some names -> sane_names names) ->
  map basename (matching d suffix w)
  = match os_scandir d w with
    | None => []
    | Some names => filter (fun n => negb (is_hidden n) && endswith suffix n) names
    end.
Proof.
  intros S Sane. unfold matching.
  destruct (os_scandir d w) as [names |]; [|reflexivity].
  destruct (Sane names eq_refl) as [_ F].
  rewrite map_map. rewrite <- (map_id (filter _ names)) at 2.
  apply map_ext_in. intros n I. apply filter_In in I as [I _].
  rewrite Forall_forall in F. now apply basename_path_join, F.
Qed.

(** In a folder named without wildcard, on a file system with sane
    listings, the files found have distinct base names. *)
Lemma found_names_distinct folder_path (w : W) :
  has_magic (rstrip_slash folder_path) = false ->
  (forall names, os_scandir (rstrip_slash folder_path) w = Some names ->
                 sane_names names) ->
  NoDup (map basename (find_videos folder_path w ++ find_images folder_path w)).
Proof.
  intros M Sane.
  rewrite find_videos_in_folder, find_images_in_folder by exact M.
  rewrite <- flat_map_app, map_flat_map.
  erewrite flat_map_ext
    by (intros suffix; apply basenames_of_matching;
        [apply rstrip_slash_idempotent | exact Sane]).
  destruct (os_scandir (rstrip_slash folder_path) w) as [names |] eqn:E.
  - apply NoDup_by_suffix; [apply (Sane names eq_refl) | vm_compute; reflexivity].
  - induction (video_suffixes ++ image_suffixes); [constructor | exact IHl].
Qed.

End DistinctNames.


(* ================================================================== *)
(** * The single-item analyzer, continued *)
(* ================================================================== *)

Section AnalyzerMore.
Context {W : Type} {R : Runtime W}.
Import ImageAnalyzer.

Ltac tidy s :=
  repeat match goal with
         | H : assoc _ (clients (self s)) = Some _ |- _ =>
             progress (rewrite H in * )
         end;
  cbn [self world clients model generate] in *;
  rewrite ?assoc_dict_set_same in *;
  repeat match goal with
         | H : Some _ = Some _ |- _ => injection H as H; subst
         end;
  cbn [self world clients model generate] in *.

(** What the [try] block returns, with the steps that led to it. *)
Lemma analyze_image_try_reports image_path client_name model custom_prompt
    (s : AState W) :
  wp (analyze_image_try image_path client_name model custom_prompt)
     (fun r s' =>
        match r with
        | Raise _ => True
        | Ok v =>
            exists name c used prompt answer size w1,
              v = success_record image_path name used prompt answer size (world s') /\
              assoc name (clients (self s)) = Some c /\
              (forall n, given client_name = Some n -> name = n) /\
              (given client_name = None ->
               exists config listed,
                 get_config (self s) (world s) = Ok config /\
                 py_get config "clients" (JDict []) = Ok listed /\
                 py_get listed "default" (JStr "ollama") = Ok (JStr name)) /\
              (forall m, given model = Some m -> used = m) /\
              (given model = None -> ImageAnalyzer.model c = Some used) /\
              _load_frame_prompt custom_prompt (world s) = (Ok prompt, w1) /\
              generate c (Some used) prompt image_path w1 = (Ok answer, world s') /\
              os_path_getsize image_path (world s') = Ok size
        end) s.
Proof.
  unfold analyze_image_try, resolve_client, set_model, get_model,
    call_generate, in_world.
  wp_steps; auto.
  all: tidy s.
  all: do 7 eexists; split; [reflexivity|].
  all: repeat split; try eassumption; try congruence.
  all: intros _; do 2 eexists; repeat split; eassumption.
Qed.

(** A record with the key [analysis] comes from the [try] block. *)
Lemma analysis_comes_from_try image_path client_name model custom_prompt
    (s s' : AState W) r :
  analyze_image image_path client_name model custom_prompt s = (Ok r, s') ->
  has_key "analysis" r = true ->
  analyze_image_try image_path client_name model custom_prompt s = (Ok r, s').
Proof.
  unfold analyze_image, try_except.
  destruct (analyze_image_try image_path client_name model custom_prompt s)
    as [[v | e] s1]; [auto|].
  destruct (analyze_image_except_returns image_path e s1) as (r' & E & _ & A & _).
  rewrite E. intros H. injection H as <- <-. congruence.
Qed.

(** Every success record reports the call that made it: the client that
    was resolved (the one named, else the configured default, else
    [ollama]), the model the client ran (the override, else its own), the
    prompt that was built and sent, and the client's answer. *)
Theorem success_record_reports_the_call image_path client_name model
    custom_prompt (s s' : AState W) r :
  analyze_image image_path client_name model custom_prompt s = (Ok r, s') ->
  has_key "analysis" r = true ->
  exists name c used prompt answer size w1,
    r = success_record image_path name used prompt answer size (world s') /\
    assoc name (clients (self s)) = Some c /\
    (forall n, given client_name = Some n -> name = n) /\
    (given client_name = None ->
     exists config listed,
       get_config (self s) (world s) = Ok config /\
       py_get config "clients" (JDict []) = Ok listed /\
       py_get listed "default" (JStr "ollama") = Ok (JStr name)) /\
    (forall m, given model = Some m -> used = m) /\
    (given model = None -> ImageAnalyzer.model c = Some used) /\
    _load_frame_prompt custom_prompt (world s) = (Ok prompt, w1) /\
    generate c (Some used) prompt image_path w1 = (Ok answer, world s') /\
    os_path_getsize image_path (world s') = Ok size.
Proof.
  intros H A. apply analysis_comes_from_try in H; [|exact A].
  pose proof (analyze_image_try_reports image_path client_name model
                custom_prompt s) as P.
  unfold wp in P. rewrite H in P. exact P.
Qed.

(** A missing file is reported by the error record, with the path as it was
    given; the analyzer and the world are as before. *)
Theorem missing_image_is_reported image_path client_name model custom_prompt
    (s : AState W) :
  os_path_exists image_path (world s) = false ->
  analyze_image image_path client_name model custom_prompt s
  = (Ok (error_record image_path image_path
           ("Image file not found: " ++ image_path)), s).
Proof.
  intros E. unfold analyze_image, try_except, analyze_image_try,
    analyze_image_except, error_record, bind, gets, raise, ret.
  rewrite E. cbn [negb]. now rewrite E.
Qed.

(** The error record for a name without client. *)
Lemma unconfigured_client_record image_path name client_name model
    custom_prompt (s : AState W) :
  os_path_exists image_path (world s) = true ->
  given client_name = Some name ->
  assoc name (clients (self s)) = None ->
  analyze_image image_path client_name model custom_prompt s
  = (Ok (error_record image_path (os_path_abspath image_path (world s))
           ("Client '" ++ name ++ "' not configured")), s).
Proof.
  intros E G N. unfold analyze_image, try_except, analyze_image_try,
    analyze_image_except, resolve_client, error_record, bind, gets, raise, ret.
  rewrite E, G. cbn [negb]. now rewrite N, E.
Qed.

(** A client name that has no client is reported by the error record; no
    client is called, the analyzer and the world are as before. *)
Theorem unconfigured_client_is_reported image_path name client_name model
    custom_prompt (s : AState W) :
  os_path_exists image_path (world s) = true ->
  given client_name = Some name ->
  assoc name (clients (self s)) = None ->
  analyze_image image_path client_name model custom_prompt s
  = (Ok (error_record image_path (os_path_abspath image_path (world s))
           ("Client '" ++ name ++ "' not configured")), s).
Proof. apply unconfigured_client_record. Qed.

(** Without model override the analyzer object is as before the call,
    whatever the call does. *)
Theorem no_override_keeps_the_analyzer image_path client_name model
    custom_prompt (s s' : AState W) r :
  given model = None ->
  analyze_image image_path client_name model custom_prompt s = (r, s') ->
  self s' = self s.
Proof.
  intros G H.
  assert (wp (analyze_image image_path client_name model custom_prompt)
             (fun _ s' => self s' = self s) s) as P.
  { unfold analyze_image, analyze_image_except, analyze_image_try,
      resolve_client, set_model, get_model, call_generate, in_world.
    rewrite G. wp_steps; reflexivity. }
  unfold wp in P. rewrite H in P. exact P.
Qed.

(** A model override is written into the client handle the analyzer holds,
    and stays there after the call, whether the analysis succeeded or not. *)
Theorem model_override_outlives_the_call image_path name c m client_name model
    custom_prompt (s s' : AState W) r :
  os_path_exists image_path (world s) = true ->
  given client_name = Some name ->
  assoc name (clients (self s)) = Some c ->
  given model = Some m ->
  analyze_image image_path client_name model custom_prompt s = (r, s') ->
  clients (self s')
  = dict_set name {| ImageAnalyzer.model := Some m; generate := generate c |}
      (clients (self s)).
Proof.
  intros E G A O H.
  assert (wp (analyze_image image_path client_name model custom_prompt)
             (fun _ s' =>
                clients (self s')
                = dict_set name {| ImageAnalyzer.model := Some m;
                                   generate := generate c |}
                    (clients (self s))) s) as P.
  { unfold analyze_image, analyze_image_except, analyze_image_try,
      resolve_client, set_model, get_model, call_generate, in_world.
    rewrite G, O. wp_steps; tidy s; try reflexivity; try congruence.
    all: rewrite E in *; discriminate. }
  unfold wp in P. rewrite H in P. exact P.
Qed.

(** An exception of the client is reported by the error record, with the
    message of the exception. *)
Theorem client_failure_is_reported image_path name c preset prompt e w1 w2
    client_name custom_prompt (s : AState W) :
  os_path_exists image_path (world s) = true ->
  given client_name = Some name ->
  assoc name (clients (self s)) = Some c ->
  ImageAnalyzer.model c = Some preset ->
  _load_frame_prompt custom_prompt (world s) = (Ok prompt, w1) ->
  generate c (Some preset) prompt image_path w1 = (Raise e, w2) ->
  analyze_image image_path client_name None custom_prompt s
  = (Ok (error_record image_path
           (if os_path_exists image_path w2
            then os_path_abspath image_path w2 else image_path)
           (exn_msg e)),
     {| self := self s; world := w2 |}).
Proof.
  intros E G A P L F.
  assert (wp (analyze_image image_path client_name None custom_prompt)
             (fun r s' =>
                (r, s')
                = (Ok (error_record image_path
                         (if os_path_exists image_path w2
                          then os_path_abspath image_path w2 else image_path)
                         (exn_msg e)),
                   {| self := self s; world := w2 |})) s) as Q.
  { unfold analyze_image, analyze_image_except, analyze_image_try,
      resolve_client, set_model, get_model, call_generate, in_world.
    rewrite G. cbn [given]. wp_steps.
    all: try (rewrite E in *; discriminate).
    all: repeat first
           [ progress (tidy s)
           | progress (rewrite P in * )
           | match goal with
             | H1 : ?x = _, H2 : ?x = _ |- _ =>
                 rewrite H1 in H2; inversion H2; subst; clear H2
             end ].
    all: try congruence.
    all: reflexivity. }
  unfold wp in Q. now rewrite <- Q, <- surjective_pairing.
Qed.

End AnalyzerMore.

Lemma success_record_reports_the_call_witness :
  exists r s',
    @ImageAnalyzer.analyze_image _ Examples.rt "cat.png" None (Some "llava:13b")
      (Some "what colour?") Examples.at_desk = (Ok r, s') /\
    has_key "analysis" r = true /\
    exists prompt answer size,
      r = @success_record _ Examples.rt "cat.png" "ollama" "llava:13b" prompt
            answer size (ImageAnalyzer.world s').
Proof.
  eexists _, _. split; [vm_compute; reflexivity|]. split; [reflexivity|].
  destruct (@success_record_reports_the_call _ Examples.rt "cat.png" None
              (Some "llava:13b") (Some "what colour?") Examples.at_desk
              _ _ ltac:(vm_compute; reflexivity) eq_refl)
    as (name & c & used & prompt & answer & size & w1 & Hr & _ & _ & Hc & Hm & _).
  destruct (Hc eq_refl) as (config & listed & E1 & E2 & E3).
  vm_compute in E1. injection E1 as <-.
  vm_compute in E2. injection E2 as <-.
  vm_compute in E3. injection E3 as <-.
  rewrite (Hm "llava:13b" eq_refl) in Hr.
  exists prompt, answer, size. exact Hr.
Defined.

Lemma missing_image_is_reported_witness :
  @os_path_exists _ Examples.rt "dog.png"
    (ImageAnalyzer.world Examples.at_desk) = false /\
  @ImageAnalyzer.analyze_image _ Examples.rt "dog.png" None None None
    Examples.at_desk
  = (Ok (error_record "dog.png" "dog.png" "Image file not found: dog.png"),
     Examples.at_desk).
Proof.
  split; [reflexivity|].
  apply (@missing_image_is_reported _ Examples.rt "dog.png" None None None
           Examples.at_desk).
  reflexivity.
Defined.

Lemma unconfigured_client_is_reported_witness :
  @ImageAnalyzer.analyze_image _ Examples.rt "cat.png" (Some "gemini") None None
    Examples.at_desk
  = (Ok (error_record "cat.png" "/work/cat.png" "Client 'gemini' not configured"),
     Examples.at_desk).
Proof.
  apply (@unconfigured_client_is_reported _ Examples.rt "cat.png" "gemini"
           (Some "gemini") None None Examples.at_desk); reflexivity.
Defined.

Lemma no_override_keeps_the_analyzer_witness :
  ImageAnalyzer.self
    (snd (@ImageAnalyzer.analyze_image _ Examples.rt "cat.png" (Some "openai_api")
            None None Examples.at_desk))
  = Examples.analyzer.
Proof.
  apply (@no_override_keeps_the_analyzer _ Examples.rt "cat.png"
           (Some "openai_api") None None Examples.at_desk _
           (fst (@ImageAnalyzer.analyze_image _ Examples.rt "cat.png"
                   (Some "openai_api") None None Examples.at_desk))).
  - reflexivity.
  - apply surjective_pairing.
Defined.

Lemma model_override_outlives_the_call_witness :
  fst (@ImageAnalyzer.analyze_image _ Examples.rt "cat.png" (Some "openai_api")
         (Some "gpt-4o") None Examples.at_desk)
  = Ok (error_record "cat.png" "/work/cat.png" "connection refused") /\
  option_map (@ImageAnalyzer.model _)
    (assoc "openai_api"
       (ImageAnalyzer.clients
          (ImageAnalyzer.self
             (snd (@ImageAnalyzer.analyze_image _ Examples.rt "cat.png"
                     (Some "openai_api") (Some "gpt-4o") None Examples.at_desk)))))
  = Some (Some "gpt-4o").
Proof.
  split; [vm_compute; reflexivity|].
  rewrite (@model_override_outlives_the_call _ Examples.rt "cat.png"
             "openai_api" Toy.failing "gpt-4o" (Some "openai_api") (Some "gpt-4o")
             None Examples.at_desk _ _ eq_refl eq_refl eq_refl eq_refl
             (surjective_pairing _)).
  reflexivity.
Defined.

Lemma client_failure_is_reported_witness :
  @ImageAnalyzer.analyze_image _ Examples.rt "cat.png" (Some "openai_api") None
    None Examples.at_desk
  = (Ok (error_record "cat.png" "/work/cat.png" "connection refused"),
     Examples.at_desk).
Proof.
  apply (@client_failure_is_reported _ Examples.rt "cat.png" "openai_api"
           Toy.failing "llava" (FALLBACK_BEFORE ++ FALLBACK_AFTER)%string
           (Exn RuntimeError "connection refused")
           Examples.desk Examples.desk (Some "openai_api") None
           Examples.at_desk); reflexivity.
Defined.

(* ================================================================== *)
(** * Extensions and MIME types *)
(* ================================================================== *)

Lemma ascii_lower_idempotent c : ascii_lower (ascii_lower c) = ascii_lower c.
Proof. destruct c as [[] [] [] [] [] [] [] []]; reflexivity. Qed.

Lemma is_slash_lower c : is_slash (ascii_lower c) = is_slash c.
Proof. destruct c as [[] [] [] [] [] [] [] []]; reflexivity. Qed.

Lemma is_dot_lower c : is_dot (ascii_lower c) = is_dot c.
Proof. destruct c as [[] [] [] [] [] [] [] []]; reflexivity. Qed.

Lemma lower_idempotent s : lower (lower s) = lower s.
Proof.
  induction s as [| c s IH]; [reflexivity|].
  cbn [lower]. now rewrite ascii_lower_idempotent, IH.
Qed.

Lemma lower_length s : String.length (lower s) = String.length s.
Proof. induction s; simpl; congruence. Qed.

Lemma lower_append a b : lower (a ++ b) = (lower a ++ lower b)%string.
Proof. induction a; simpl; congruence. Qed.

Lemma from_last_dot_lower n :
  from_last_dot (lower n) = option_map lower (from_last_dot n).
Proof.
  induction n as [| c n IH]; [reflexivity|].
  cbn [lower from_last_dot]. rewrite IH, is_dot_lower.
  destruct (from_last_dot n); [reflexivity | now destruct (is_dot c)].
Qed.

Lemma components_not_nil p : components p <> [].
Proof.
  destruct p as [| c p]; [discriminate|]. cbn [components].
  destruct (is_slash c); [discriminate|]. now destruct (components p).
Qed.

Lemma components_lower p : components (lower p) = map lower (components p).
Proof.
  induction p as [| c p IH]; [reflexivity|].
  cbn [lower components]. rewrite IH, is_slash_lower.
  destruct (is_slash c); [reflexivity|].
  now destruct (components p).
Qed.

Lemma kept_component_lower c : kept_component (lower c) = kept_component c.
Proof.
  unfold kept_component. destruct c as [| a c]; [reflexivity|].
  cbn [lower String.eqb]. fold (is_dot (ascii_lower a)). fold (is_dot a).
  rewrite is_dot_lower. now destruct c.
Qed.

Lemma filter_map_lower l :
  filter kept_component (map lower l) = map lower (filter kept_component l).
Proof.
  induction l as [| x l IH]; [reflexivity|].
  cbn [map filter]. rewrite kept_component_lower, IH.
  now destruct (kept_component x).
Qed.

Lemma last_map_lower l : last (map lower l) "" = lower (last l "").
Proof.
  induction l as [| x l IH]; [reflexivity|].
  cbn [map last]. rewrite IH. now destruct l.
Qed.

Lemma path_name_lower p : path_name (lower p) = lower (path_name p).
Proof.
  unfold path_name. now rewrite components_lower, filter_map_lower, last_map_lower.
Qed.

(** The suffix of a path in lower case is the suffix in lower case. *)
Lemma path_suffix_lower p : path_suffix (lower p) = lower (path_suffix p).
Proof.
  unfold path_suffix. rewrite path_name_lower, from_last_dot_lower.
  destruct (from_last_dot (path_name p)) as [suffix |]; [|reflexivity].
  cbn [option_map]. rewrite !lower_length.
  now destruct (_ || _).
Qed.

Lemma mime_type_lower p :
  ImageAnalyzer._get_image_mime_type (lower p)
  = ImageAnalyzer._get_image_mime_type p.
Proof.
  unfold ImageAnalyzer._get_image_mime_type.
  now rewrite path_suffix_lower, lower_idempotent.
Qed.

Lemma mime_type_from_table p :
  ImageAnalyzer._get_image_mime_type p
  = match assoc (lower (path_suffix p)) mime_types with
    | Some m => m
    | None => "image/jpeg"
    end.
Proof. reflexivity. Qed.

(** The MIME type of a path depends on the path up to letter case only. *)
Theorem mime_type_ignores_case p q :
  lower p = lower q ->
  ImageAnalyzer._get_image_mime_type p = ImageAnalyzer._get_image_mime_type q.
Proof.
  intros E. now rewrite <- (mime_type_lower p), <- (mime_type_lower q), E.
Qed.

Lemma mime_type_ignores_case_witness :
  ImageAnalyzer._get_image_mime_type "Holiday/IMG_0042.PNG"
  = ImageAnalyzer._get_image_mime_type "holiday/img_0042.png".
Proof. apply mime_type_ignores_case. reflexivity. Defined.

Lemma from_last_dot_append a x y :
  from_last_dot x = Some y -> from_last_dot (a ++ x) = Some y.
Proof.
  intros E. induction a as [| c a IH]; [exact E|].
  cbn [append from_last_dot]. now rewrite IH.
Qed.

Lemma components_without_slash x : contains "/" x = false -> components x = [x].
Proof.
  induction x as [| c x IH]; [reflexivity|].
  rewrite contains_slash_cons. intros H. apply orb_false_iff in H as [C N].
  cbn [components]. now rewrite C, IH.
Qed.

(** Text without slash that is appended to a path goes to its last
    component. *)
Lemma components_app a x :
  contains "/" x = false ->
  components (a ++ x)
  = removelast (components a) ++ [(last (components a) "" ++ x)%string].
Proof.
  intros N. induction a as [| c a IH].
  - cbn [append components removelast last app]. now apply components_without_slash.
  - cbn [append components]. rewrite IH.
    pose proof (components_not_nil a) as NN.
    destruct (is_slash c).
    + destruct (components a) as [| f r]; [contradiction|]. reflexivity.
    + destruct (components a) as [| f r]; [contradiction|].
      destruct r as [| g r]; reflexivity.
Qed.

Lemma last_of_filter {A} (keep : A -> bool) l d :
  l <> [] -> keep (last l d) = true -> last (filter keep l) d = last l d.
Proof.
  intros N K. destruct (exists_last N) as (l' & z & ->).
  rewrite last_last in *. rewrite filter_app. cbn [filter]. rewrite K.
  apply last_last.
Qed.

(** A path that ends with an extension of the table, after a character
    that is not a slash, has that extension for suffix. *)
Lemma path_suffix_known front c e m :
  In (e, m) mime_types -> is_slash c = false ->
  path_suffix (front ++ String c e) = e.
Proof.
  intros I C.
  assert (contains "/" e = false /\ e <> "" /\
          from_last_dot e = Some e /\ (String.length e =? 1)%nat = false)
    as (Ns & Ne & Fd & L1).
  { unfold mime_types in I. simpl in I.
    repeat (destruct I as [I | I];
            [injection I as <- <-; repeat split; discriminate|]).
    destruct I. }
  assert (exists b, path_name (front ++ String c e) = (b ++ String c e)%string)
    as (b & N).
  { exists (last (components front) "").
    unfold path_name. rewrite components_app
      by now rewrite contains_slash_cons, C, Ns.
    rewrite last_of_filter; rewrite ?last_last; try reflexivity.
    - now destruct (removelast (components front)).
    - unfold kept_component.
      destruct (last (components front) "") as [| x b]; cbn [append String.eqb].
      + destruct e; [contradiction|]. cbn. now destruct (Ascii.eqb c ".").
      + destruct b; cbn; now destruct (Ascii.eqb x "."). }
  unfold path_suffix. rewrite N.
  replace (b ++ String c e)%string with ((b ++ String c "") ++ e)%string
    by (now rewrite append_assoc).
  rewrite (@from_last_dot_append (b ++ String c "") e e Fd), L1, orb_false_r.
  replace (String.length e =? String.length ((b ++ String c "") ++ e))%nat
    with false; [reflexivity|].
  symmetry. apply Nat.eqb_neq. rewrite !length_append. simpl. lia.
Qed.

(** A path that ends with an extension of the table in any letter case,
    after a character that is not a slash, gets the type the table gives
    for the extension. *)
Theorem mime_type_of_known_extension front c extension e m :
  In (e, m) mime_types ->
  lower extension = e ->
  is_slash c = false ->
  ImageAnalyzer._get_image_mime_type (front ++ String c extension) = m.
Proof.
  intros I L C.
  rewrite <- mime_type_lower, lower_append. cbn [lower]. rewrite L.
  rewrite mime_type_from_table.
  rewrite (@path_suffix_known _ _ e m I) by now rewrite is_slash_lower.
  replace (lower e) with e.
  - unfold mime_types in *. simpl in I.
    repeat (destruct I as [I | I]; [injection I as <- <-; reflexivity|]).
    destruct I.
  - unfold mime_types in I. simpl in I.
    repeat (destruct I as [I | I]; [injection I as <- <-; reflexivity|]).
    destruct I.
Qed.

Lemma mime_type_of_known_extension_witness :
  In (".webp", "image/webp") mime_types /\
  lower ".WebP" = ".webp" /\
  ImageAnalyzer._get_image_mime_type "shots/site.v2.WebP" = "image/webp".
Proof.
  assert (In (".webp", "image/webp") mime_types) as I by (simpl; tauto).
  split; [exact I|]. split; [reflexivity|].
  exact (@mime_type_of_known_extension "shots/site.v" "2" ".WebP" ".webp"
           "image/webp" I eq_refl eq_refl).
Defined.

Section ValidateProofs.
Context {W : Type} {R : Runtime W}.

(** [validate_image_file] accepts the files that exist and whose extension,
    in lower case, is a key of the MIME table: for a validated file the
    type comes from the table, not from the default. *)
Theorem validated_files_are_in_the_mime_table image_path (w : W) :
  Cli.validate_image_file image_path w = true <->
  os_path_exists image_path w = true /\
  In (lower (path_suffix image_path),
      ImageAnalyzer._get_image_mime_type image_path) mime_types.
Proof.
  unfold Cli.validate_image_file. rewrite mime_type_from_table.
  destruct (os_path_exists image_path w); cbn [negb].
  2:{ split; [discriminate | intros [? _]; discriminate]. }
  generalize (lower (path_suffix image_path)). intros e. split.
  - intros V. split; [reflexivity|].
    apply existsb_exists in V as (x & I & E). apply String.eqb_eq in E. subst x.
    unfold Cli.supported_extensions in I. simpl in I.
    repeat (destruct I as [<- | I]; [simpl; tauto|]). destruct I.
  - intros [_ I]. apply existsb_exists.
    exists e. split; [|apply String.eqb_refl].
    unfold mime_types in I. simpl in I.
    repeat (destruct I as [I | I];
            [injection I as E _; subst e; simpl; tauto|]).
    destruct I.
Qed.

End ValidateProofs.

(** The suffix is the one of the last component that is neither empty nor
    [.], as [Path(p).suffix] has it; a path that ends in such components
    is validated by the component before them. *)
Example suffix_of_the_last_named_component :
  path_suffix "shots/dir.png/." = ".png" /\
  path_suffix "shots/cat.PNG/" = ".PNG" /\
  path_suffix "shots.d/cat" = "" /\
  path_suffix "shots/.png" = "" /\
  path_suffix "shots/cat.tar.gz" = ".gz" /\
  @Cli.validate_image_file _ Examples.rt "dir.png/."
    {| Toy.files := []; Toy.dirs := [("dir.png/.", [])]; Toy.clock := 0 |}
  = true.
Proof. repeat split. Qed.

(* ================================================================== *)
(** * The client registry and the entry points of the analyzer *)
(* ================================================================== *)

Lemma wp_on_analyzer {W A} (analyzer : ImageAnalyzer.Self W)
    (m : M (ImageAnalyzer.AState W) A) (Q : result A -> W -> Prop) (w : W) :
  (forall r s,
      m {| ImageAnalyzer.self := analyzer; ImageAnalyzer.world := w |} = (r, s) ->
      Q r (ImageAnalyzer.world s)) ->
  wp (Setup.on_analyzer analyzer m) Q w.
Proof.
  intros H. unfold wp, Setup.on_analyzer.
  destruct (m _) as [r s] eqn:E. now apply H.
Qed.

Ltac wp_more :=
  first [ wp_step
        | lazymatch goal with
          | |- wp (Setup.on_analyzer _ _) _ _ =>
              apply wp_on_analyzer; intros [? | ?] ? ?
          end ];
  cbv beta iota.

(** Equations with the same left side are made to agree. *)
Ltac agree :=
  repeat match goal with
         | H1 : ?x = _, H2 : ?x = _ |- _ =>
             rewrite H1 in H2; inversion H2; subst; clear H2
         end.

Lemma assoc_none {V} k (d : list (string * V)) :
  ~ In k (keys d) -> assoc k d = None.
Proof.
  induction d as [| [k' v] d IH]; [reflexivity|]. simpl. intros N.
  destruct (String.eqb_spec k k') as [-> | _]; [tauto|]. apply IH. tauto.
Qed.

Section SetupProofs.
Context {W : Type} {R : Runtime W}.
Variable OllamaClient : json -> result (ImageAnalyzer.Client W).
Variable OpenAIClient : json -> json -> result (ImageAnalyzer.Client W).

Lemma setup_clients_spec get_config (w : W) :
  wp (Setup._setup_clients OllamaClient OpenAIClient get_config)
     (fun r w' =>
        w' = w /\
        match r with
        | Raise _ => True
        | Ok clients =>
            exists config listed has_ollama has_openai,
              get_config w = Ok config /\
              py_get config "clients" (JDict []) = Ok listed /\
              py_in "ollama" listed = Ok has_ollama /\
              py_in "openai_api" listed = Ok has_openai /\
              keys clients = registered has_ollama has_openai
        end) w.
Proof.
  unfold Setup._setup_clients. wp_steps.
  all: split; [reflexivity|]; auto.
  all: agree.
  all: do 4 eexists; repeat split; try eassumption; reflexivity.
Qed.

(** The registry holds the recognized client names that [config["clients"]]
    holds, [ollama] before [openai_api], and no other name; building it
    leaves the world as it was. *)
Theorem registry_holds_the_configured_clients get_config (w w' : W) clients :
  Setup._setup_clients OllamaClient OpenAIClient get_config w = (Ok clients, w') ->
  w' = w /\
  exists config listed has_ollama has_openai,
    get_config w = Ok config /\
    py_get config "clients" (JDict []) = Ok listed /\
    py_in "ollama" listed = Ok has_ollama /\
    py_in "openai_api" listed = Ok has_openai /\
    keys clients = registered has_ollama has_openai.
Proof.
  intros H. pose proof (setup_clients_spec get_config w) as P.
  unfold wp in P. rewrite H in P. exact P.
Qed.

Lemma registered_names has_ollama has_openai name :
  In name (registered has_ollama has_openai) ->
  name = "ollama" \/ name = "openai_api".
Proof.
  unfold registered. destruct has_ollama, has_openai; simpl; intuition.
Qed.

(** An analyzer built by [__init__] has no client for a name other than
    [ollama] and [openai_api]: asking for one gives the error record. *)
Theorem unrecognized_client_is_never_configured config_manager analyzer
    image_path name client_name model custom_prompt (w w' : W) :
  Setup.init OllamaClient OpenAIClient config_manager w = (Ok analyzer, w') ->
  given client_name = Some name ->
  name <> "ollama" -> name <> "openai_api" ->
  os_path_exists image_path w' = true ->
  ImageAnalyzer.analyze_image image_path client_name model custom_prompt
    {| ImageAnalyzer.self := analyzer; ImageAnalyzer.world := w' |}
  = (Ok (error_record image_path (os_path_abspath image_path w')
           ("Client '" ++ name ++ "' not configured")),
     {| ImageAnalyzer.self := analyzer; ImageAnalyzer.world := w' |}).
Proof.
  intros I G N1 N2 E.
  assert (assoc name (ImageAnalyzer.clients analyzer) = None) as A.
  { unfold Setup.init, bind, ret in I.
    destruct (Setup._setup_clients _ _ _ w) as [[clients | e] w1] eqn:S;
      [|discriminate].
    injection I as <- <-. cbn [ImageAnalyzer.clients].
    pose proof (setup_clients_spec config_manager w) as P.
    unfold wp in P. rewrite S in P.
    destruct P as (_ & _ & _ & ho & ha & _ & _ & _ & _ & K).
    apply assoc_none. rewrite K. intros In'.
    apply registered_names in In'. tauto. }
  now apply (@unconfigured_client_record _ _ image_path name client_name model
               custom_prompt
               {| ImageAnalyzer.self := analyzer; ImageAnalyzer.world := w' |}).
Qed.

End SetupProofs.

Lemma registry_holds_the_configured_clients_witness :
  exists clients,
    Setup._setup_clients Scenes.ollama_client Scenes.openai_client
      Scenes.get_config Examples.desk = (Ok clients, Examples.desk) /\
    keys clients = ["ollama"].
Proof.
  eexists. split; [vm_compute; reflexivity|].
  destruct (registry_holds_the_configured_clients
              Scenes.ollama_client Scenes.openai_client Scenes.get_config
              Examples.desk (w' := Examples.desk)
              ltac:(vm_compute; reflexivity))
    as (_ & config & listed & ho & ha & E1 & E2 & E3 & E4 & K).
  vm_compute in E1. injection E1 as <-.
  vm_compute in E2. injection E2 as <-.
  vm_compute in E3. injection E3 as <-.
  vm_compute in E4. injection E4 as <-.
  exact K.
Defined.

Lemma unrecognized_client_is_never_configured_witness :
  exists analyzer,
    Setup.init Scenes.ollama_client Scenes.openai_client
      Scenes.get_config Examples.desk = (Ok analyzer, Examples.desk) /\
    @ImageAnalyzer.analyze_image _ Examples.rt "cat.png" (Some "gemini") None None
      {| ImageAnalyzer.self := analyzer; ImageAnalyzer.world := Examples.desk |}
    = (Ok (error_record "cat.png" "/work/cat.png" "Client 'gemini' not configured"),
       {| ImageAnalyzer.self := analyzer; ImageAnalyzer.world := Examples.desk |}).
Proof.
  eexists. split; [vm_compute; reflexivity|].
  apply (unrecognized_client_is_never_configured (R := Examples.rt)
           Scenes.ollama_client Scenes.openai_client Scenes.get_config
           "cat.png" (name := "gemini") (Some "gemini") None None
           Examples.desk (w' := Examples.desk)).
  - vm_compute. reflexivity.
  - reflexivity.
  - discriminate.
  - discriminate.
  - reflexivity.
Defined.

(* ================================================================== *)
(** * [analyze_single_image] and the command line of the analyzer *)
(* ================================================================== *)

Lemma wp_consequence {S A} (m : M S A) (P Q : result A -> S -> Prop) (s : S) :
  wp m P s -> (forall r s', P r s' -> Q r s') -> wp m Q s.
Proof. unfold wp. auto. Qed.

(** The steps of a computation that returned, taken apart. *)
Ltac crack H :=
  repeat match type of H with
         | context [match ?x with _ => _ end] =>
             lazymatch x with
             | context [match _ with _ => _ end] => fail
             | _ => destruct x eqn:?; try discriminate H
             end
         end;
  repeat match goal with u : unit |- _ => destruct u end.

Section EntryProofs.
Context {W : Type} {R : Runtime W} {T : Strict W}.
Variable OllamaClient : json -> result (ImageAnalyzer.Client W).
Variable OpenAIClient : json -> json -> result (ImageAnalyzer.Client W).
Variable ConfigManager : W -> result (W -> result json).

(** [analyze_image] returns one of its two records. *)
Lemma analyze_image_records image_path client_name model custom_prompt
    (s s' : ImageAnalyzer.AState W) r :
  ImageAnalyzer.analyze_image image_path client_name model custom_prompt s
  = (r, s') ->
  (exists name used prompt answer size,
      r = Ok (success_record image_path name used prompt answer size
                (ImageAnalyzer.world s'))) \/
  (exists shown msg, r = Ok (error_record image_path shown msg)).
Proof.
  intros H.
  assert (wp (ImageAnalyzer.analyze_image image_path client_name model
                custom_prompt)
             (fun r s' =>
                (exists name used prompt answer size,
                    r = Ok (success_record image_path name used prompt answer
                              size (ImageAnalyzer.world s'))) \/
                (exists shown msg, r = Ok (error_record image_path shown msg)))
             s) as P.
  { unfold ImageAnalyzer.analyze_image. apply wp_try.
    eapply wp_consequence; [apply analyze_image_try_reports|].
    intros [v | e] s1 Q.
    - destruct Q as (name & c & used & prompt & answer & size & w1 & -> & _).
      left. now exists name, used, prompt, answer, size.
    - right. unfold wp, ImageAnalyzer.analyze_image_except, bind, gets, ret.
      cbn. now eexists _, _. }
  unfold wp in P. now rewrite H in P.
Qed.

Lemma init_spec config_manager (w w' : W) r :
  Setup.init OllamaClient OpenAIClient config_manager w = (r, w') -> w' = w.
Proof.
  unfold Setup.init, bind, ret. intros H.
  pose proof (setup_clients_spec OllamaClient OpenAIClient config_manager w) as P.
  unfold wp in P.
  destruct (Setup._setup_clients _ _ _ w) as [[clients | e] w1];
    injection H as <- <-; apply P.
Qed.

(** [analyze_single_image] returns the record of [analyze_image] on a fresh
    analyzer.  A record with a non-empty error message is returned as it is
    and nothing is saved.  A record without error, or with an empty message,
    is written to [image_analysis.json] in the output directory before the
    key [output_file] is added: the returned record has the key, the saved
    one does not. *)
Theorem single_image_is_saved_unless_it_failed image_path client model prompt
    output_dir (w w' : W) result :
  Setup.analyze_single_image OllamaClient OpenAIClient ConfigManager image_path
    client model prompt output_dir w = (Ok result, w') ->
  exists config_manager analyzer record s,
    ConfigManager w = Ok config_manager /\
    Setup.init OllamaClient OpenAIClient config_manager w = (Ok analyzer, w) /\
    ImageAnalyzer.analyze_image image_path client model prompt
      {| ImageAnalyzer.self := analyzer; ImageAnalyzer.world := w |}
    = (Ok (JDict record), s) /\
    ((exists message,
         assoc "error" record = Some (JStr message) /\ message <> "" /\
         result = JDict record /\ w' = ImageAnalyzer.world s) \/
     ((assoc "error" record = None \/ assoc "error" record = Some (JStr "")) /\
      assoc "output_file" record = None /\
      result = JDict (dict_set "output_file"
                        (JStr (path_join output_dir "image_analysis.json"))
                        record) /\
      exists saving,
        write_text (path_join output_dir "image_analysis.json")
          (json_dumps (JDict record)) saving = (Ok tt, w'))).
Proof.
  unfold Setup.analyze_single_image. unfold bind at 1. unfold reading at 1.
  destruct (ConfigManager w) as [config_manager | e] eqn:C; [|discriminate].
  unfold bind at 1.
  destruct (Setup.init _ _ config_manager w) as [[analyzer | e] w1] eqn:I;
    [|discriminate].
  pose proof (init_spec _ _ I) as ->.
  unfold bind at 1. unfold Setup.on_analyzer at 1.
  destruct (ImageAnalyzer.analyze_image _ _ _ _ _) as [r s] eqn:A.
  intros H. exists config_manager, analyzer.
  destruct (@analyze_image_records _ _ _ _ _ _ _ A)
    as [(name & used & p & answer & size & ->) | (shown & msg & ->)].
  - eexists _, s. do 3 (split; [first [reflexivity | eassumption]|]).
    right. unfold ImageAnalyzer.save_analysis, success_record, say, reading in H.
    unfold bind, lift, ret in H. cbn -[path_join preview] in H.
    crack H. injection H as <- <-. cbn -[path_join].
    split; [now left|]. split; [reflexivity|]. split; [reflexivity|].
    eexists. eassumption.
  - eexists _, s. do 3 (split; [first [reflexivity | eassumption]|]).
    unfold ImageAnalyzer.save_analysis, error_record, say, reading in H.
    unfold bind, lift, ret in H. cbn -[path_join preview] in H.
    destruct (String.eqb msg "") eqn:E; cbn -[path_join preview] in H;
      [apply String.eqb_eq in E | apply String.eqb_neq in E].
    + subst msg. crack H. injection H as <- <-. cbn -[path_join]. right.
      split; [now right|]. split; [reflexivity|]. split; [reflexivity|].
      eexists. eassumption.
    + crack H. injection H as <- <-. cbn -[path_join]. left. now exists msg.
Qed.

Variable update_from_args :
  (W -> result json) -> Cli.Args -> result (W -> result json).
Variable parse_args : list string -> Cli.Parsed.

Lemma main_try_spec args (w w' : W) status :
  Cli.main_try OllamaClient OpenAIClient ConfigManager update_from_args args w
  = (Ok status, w') ->
  exists loaded config_manager analyzer record s,
    ConfigManager w = Ok loaded /\
    update_from_args loaded args = Ok config_manager /\
    Setup.init OllamaClient OpenAIClient config_manager w = (Ok analyzer, w) /\
    ImageAnalyzer.analyze_image (Cli.image_path args) (Cli.client args)
      (Cli.model args) (Cli.prompt args)
      {| ImageAnalyzer.self := analyzer; ImageAnalyzer.world := w |}
    = (Ok (JDict record), s) /\
    ((exists message,
         assoc "error" record = Some (JStr message) /\ message <> "" /\
         status = 1%Z /\ w' = ImageAnalyzer.world s) \/
     ((assoc "error" record = None \/ assoc "error" record = Some (JStr "")) /\
      status = 0%Z /\
      exists saving,
        write_text (path_join (Cli.output_dir args) "image_analysis.json")
          (json_dumps (JDict record)) saving = (Ok tt, w'))).
Proof.
  unfold Cli.main_try, Cli.setup_config.
  unfold bind at 1. unfold bind at 1. unfold reading at 1.
  destruct (ConfigManager w) as [loaded | e] eqn:C; [|discriminate].
  unfold lift at 1.
  destruct (update_from_args loaded args) as [config_manager | e] eqn:U;
    [|discriminate].
  unfold bind at 1. unfold reading at 1.
  destruct (config_manager w) as [config | e] eqn:G; [|discriminate].
  unfold bind at 1. unfold lift at 1.
  destruct (py_get config "clients" (JDict [])) as [configured | e];
    [|discriminate].
  unfold bind at 1. unfold lift at 1.
  destruct (py_len configured) as [n | e]; [|discriminate].
  unfold bind at 1.
  destruct (Setup.init _ _ config_manager w) as [[analyzer | e] w1] eqn:I;
    [|discriminate].
  pose proof (init_spec _ _ I) as ->.
  unfold bind at 1. unfold Setup.on_analyzer at 1.
  destruct (ImageAnalyzer.analyze_image _ _ _ _ _) as [r s] eqn:A.
  intros H. exists loaded, config_manager, analyzer.
  destruct (@analyze_image_records _ _ _ _ _ _ _ A)
    as [(name & used & p & answer & size & ->) | (shown & msg & ->)].
  - eexists _, s. do 4 (split; [first [reflexivity | eassumption]|]).
    right. unfold ImageAnalyzer.save_analysis, success_record, say, reading in H.
    unfold bind, lift, ret, gets in H. cbn -[path_join preview_at] in H.
    crack H. injection H as <- <-. cbn -[path_join].
    split; [now left|]. split; [reflexivity|]. eexists. eassumption.
  - eexists _, s. do 4 (split; [first [reflexivity | eassumption]|]).
    unfold ImageAnalyzer.save_analysis, error_record, say, reading in H.
    unfold bind, lift, ret, gets in H. cbn -[path_join preview_at] in H.
    destruct (String.eqb msg "") eqn:E; cbn -[path_join preview_at] in H;
      [apply String.eqb_eq in E | apply String.eqb_neq in E].
    + subst msg. crack H. injection H as <- <-. cbn -[path_join]. right.
      split; [now right|]. split; [reflexivity|]. eexists. eassumption.
    + crack H. injection H as <- <-. cbn -[path_join]. left. now exists msg.
Qed.

Lemma main_except_ends_with_1 e (w : W) : Cli.main_except e w = (Ok 1%Z, w).
Proof.
  unfold Cli.main_except, try_except, bind, say, reading, ret.
  now destruct (print_ _ w).
Qed.


(** Exit status 0 means that [--help] was asked for, and then nothing was
    read or written, or that the record was saved: the path passed the
    validation, [analyze_image] on a fresh analyzer returned a record whose
    error is absent or empty, and that record was written to
    [image_analysis.json] in the output directory as the last change of the
    run. *)
Theorem cli_status_0_means_help_or_saved argv (w w' : W) :
  Cli.main OllamaClient OpenAIClient ConfigManager update_from_args parse_args
    argv w = (Ok 0%Z, w') ->
  (parse_args argv = Cli.Help /\ w' = w) \/
  exists args,
    parse_args argv = Cli.Namespace args /\
    Cli.validate_image_file (Cli.image_path args) w = true /\
    exists loaded config_manager analyzer record s saving,
      ConfigManager w = Ok loaded /\
      update_from_args loaded args = Ok config_manager /\
      Setup.init OllamaClient OpenAIClient config_manager w = (Ok analyzer, w) /\
      ImageAnalyzer.analyze_image (Cli.image_path args) (Cli.client args)
        (Cli.model args) (Cli.prompt args)
        {| ImageAnalyzer.self := analyzer; ImageAnalyzer.world := w |}
      = (Ok (JDict record), s) /\
      (assoc "error" record = None \/ assoc "error" record = Some (JStr "")) /\
      write_text (path_join (Cli.output_dir args) "image_analysis.json")
        (json_dumps (JDict record)) saving = (Ok tt, w').
Proof.
  unfold Cli.main. destruct (parse_args argv) as [args | |].
  2:{ discriminate. }
  2:{ intros H. injection H as <-. now left. }
  unfold bind, gets, ret, try_except.
  destruct (Cli.validate_image_file (Cli.image_path args) w) eqn:V;
    cbn [negb]; [|discriminate].
  destruct (Cli.main_try _ _ _ _ args w) as [[status | e] w1] eqn:Tr.
  2:{ rewrite main_except_ends_with_1. discriminate. }
  intros H. injection H as -> ->. right. exists args.
  split; [reflexivity|]. split; [exact V|].
  destruct (main_try_spec _ _ Tr)
    as (loaded & config_manager & analyzer & record & s & C & U & I & A &
        [(_ & _ & _ & D & _) | (E & _ & saving & Wr)]); [discriminate|].
  now exists loaded, config_manager, analyzer, record, s, saving.
Qed.

End EntryProofs.

Lemma single_image_is_saved_unless_it_failed_witness :
  exists result w',
    @Setup.analyze_single_image _ Examples.rt Scenes.console Scenes.ollama_client
      Scenes.openai_client Scenes.config_manager "cat.png" None None None
      "output" Examples.desk = (Ok result, w') /\
    exists record saving,
      assoc "output_file" record = None /\
      result = JDict (dict_set "output_file" (JStr "output/image_analysis.json")
                        record) /\
      Toy.write "output/image_analysis.json" (Toy.dumps (JDict record)) saving
      = (Ok tt, w').
Proof.
  do 2 eexists. split; [vm_compute; reflexivity|].
  destruct (@single_image_is_saved_unless_it_failed _ Examples.rt Scenes.console
              Scenes.ollama_client Scenes.openai_client Scenes.config_manager
              "cat.png" None None None "output" Examples.desk _ _
              ltac:(vm_compute; reflexivity))
    as (config_manager & analyzer & record & s & C & I & A &
        [(message & E & _) | (_ & F & D & saving & Wr)]).
  - exfalso. vm_compute in C. injection C as <-.
    vm_compute in I. injection I as <-.
    vm_compute in A. injection A as <- _. discriminate.
  - now exists record, saving.
Defined.

Lemma cli_status_0_means_help_or_saved_witness :
  exists w',
    @Cli.main _ Examples.rt Scenes.console Scenes.ollama_client
      Scenes.openai_client Scenes.config_manager Scenes.keep_config
      Scenes.parse_args ["cat.png"] Examples.desk = (Ok 0%Z, w') /\
    Cli.validate_image_file (R := Examples.rt) "cat.png" Examples.desk = true /\
    exists record saving,
      Toy.write "output/image_analysis.json" (Toy.dumps (JDict record)) saving
      = (Ok tt, w').
Proof.
  eexists. split; [vm_compute; reflexivity|].
  destruct (@cli_status_0_means_help_or_saved _ Examples.rt Scenes.console
              Scenes.ollama_client Scenes.openai_client Scenes.config_manager
              Scenes.keep_config Scenes.parse_args ["cat.png"] Examples.desk _
              ltac:(vm_compute; reflexivity))
    as [[P _] | (args & P & V & _ & _ & _ & record & _ & saving & _ & _ & _ & _
                 & _ & Wr)].
  - discriminate P.
  - injection P as <-. split; [exact V|]. now exists record, saving.
Defined.

(** The three ways the command line ends without a saved record: the usage
    error of the parser, its [--help], and a path that is no image. *)
Example cli_statuses :
  fst (@Cli.main _ Examples.rt Scenes.console Scenes.ollama_client
         Scenes.openai_client Scenes.config_manager Scenes.keep_config
         Scenes.parse_args ["--client"; "gemini"; "cat.png"] Examples.desk)
  = Ok 2%Z /\
  @Cli.main _ Examples.rt Scenes.console Scenes.ollama_client
    Scenes.openai_client Scenes.config_manager Scenes.keep_config
    Scenes.parse_args ["--help"] Examples.desk = (Ok 0%Z, Examples.desk) /\
  @Cli.main _ Examples.rt Scenes.console Scenes.ollama_client
    Scenes.openai_client Scenes.config_manager Scenes.keep_config
    Scenes.parse_args ["notes.txt"] Examples.desk = (Ok 1%Z, Examples.desk) /\
  fst (@Cli.main _ Examples.rt Scenes.ascii_console Scenes.ollama_client
         Scenes.openai_client Scenes.config_manager Scenes.keep_config
         Scenes.parse_args ["cat.png"] Examples.desk)
  = Ok 1%Z.
Proof. repeat split. Qed.

(* ================================================================== *)
(** * The batch driver, continued *)
(* ================================================================== *)

Section ProcessProofs.
Context {W : Type} {R : Runtime W}.
Import FolderProcessor.

(** The batch driver finds, in a record that [analyze_image] saved, the
    answer of the client; an answer that is falsy is replaced by the default
    text. *)
Theorem batch_reads_the_answer_of_the_client image_path name used prompt
    answer size (w : W) :
  image_description (success_record image_path name used prompt answer size w)
  = Ok (if truthy answer then answer else JStr "No description available").
Proof.
  unfold image_description, success_record. cbn.
  now destruct (truthy answer).
Qed.

(** Once the directory is there, the [try] of [process_image] and
    [process_video] returns an outcome, whatever the external program does. *)
Lemma run_analyzer_returns cmd dir timeout_msg (w : W) :
  exists outcome w',
    run_analyzer cmd dir timeout_msg w = (Ok outcome, w') /\
    match outcome with
    | Succeeded d =>
        d = dir /\
        exists cp, subprocess_run (cmd w) w = (Ok cp, w') /\ returncode cp = 0%Z
    | Failed msg =>
        (exists cp, subprocess_run (cmd w) w = (Ok cp, w') /\
                    returncode cp <> 0%Z /\
                    msg = ("Return code " ++ str_of_Z (returncode cp) ++ ": "
                             ++ stderr cp)%string) \/
        (exists e, subprocess_run (cmd w) w = (Raise e, w') /\
                   msg = match exn_cls e with
                         | TimeoutExpired => timeout_msg
                         | _ => exn_msg e
                         end)
    end.
Proof.
  unfold run_analyzer, try_except, bind, gets, ret.
  destruct (subprocess_run (cmd w) w) as [[cp | e] w'] eqn:E.
  - destruct (Z.eqb_spec (returncode cp) 0) as [Z | N].
    + exists (Succeeded dir), w'. split; [reflexivity|]. split; [reflexivity|].
      now exists cp.
    + eexists (Failed _), w'. split; [reflexivity|]. left. now exists cp.
  - destruct (exn_cls e) eqn:C.
    all: eexists (Failed _), w'; (split; [reflexivity|]); right; exists e;
      rewrite C; now split.
Qed.

(** [process_image] and [process_video] raise only while they prepare the
    output directory: an exception of [subprocess.run], the time limit
    included, and a non-zero exit status come back as an outcome. *)
Theorem process_raises_only_preparing_the_directory m self path output_dir e
    (w w' : W) :
  process m self path output_dir w = (Raise e, w') <->
  prepare_output_dir output_dir w = (Raise e, w').
Proof.
  destruct m; unfold process, process_image, process_video, bind.
  all: destruct (prepare_output_dir output_dir w) as [[dir | e'] w1].
  all: try (split; intros H; injection H as <- <-; reflexivity).
  all: split; [|discriminate].
  - destruct (run_analyzer_returns (video_cmd self path dir) dir
                "Timeout processing video" w1) as (o & w2 & -> & _).
    discriminate.
  - destruct (run_analyzer_returns (image_cmd self path dir) dir
                "Timeout processing image" w1) as (o & w2 & -> & _).
    discriminate.
Qed.

(** A success of [process_image] or [process_video] means that the external
    program ended with exit status 0, and it names the directory the program
    was told to write to: the given one, or the fresh temporary one. *)
Theorem success_means_exit_status_0 m self path output_dir dir (w w' : W) :
  process m self path output_dir w = (Ok (Succeeded dir), w') ->
  exists w1 cp,
    prepare_output_dir output_dir w = (Ok dir, w1) /\
    subprocess_run (command m self path dir w1) w1 = (Ok cp, w') /\
    returncode cp = 0%Z.
Proof.
  destruct m; unfold process, command, process_image, process_video, bind.
  all: destruct (prepare_output_dir output_dir w) as [[d | e'] w1];
    [|discriminate].
  all: intros H.
  - destruct (run_analyzer_returns (video_cmd self path d) d
                "Timeout processing video" w1) as (o & w2 & E & S).
    rewrite E in H. injection H as -> ->.
    destruct S as (<- & cp & Run & Z). now exists w1, cp.
  - destruct (run_analyzer_returns (image_cmd self path d) d
                "Timeout processing image" w1) as (o & w2 & E & S).
    rewrite E in H. injection H as -> ->.
    destruct S as (<- & cp & Run & Z). now exists w1, cp.
Qed.


Lemma process_outcome m self path output_dir dir w1 (w : W) :
  prepare_output_dir output_dir w = (Ok dir, w1) ->
  process m self path output_dir w
  = run_analyzer (command m self path dir) dir
      ("Timeout processing " ++ media_name m) w1.
Proof.
  intros P. destruct m; unfold process, command, process_video, process_image,
    bind; now rewrite P.
Qed.




(** ** The turn that goes through *)

Lemma process_succeeds m self path output_dir dir cp w1 w2 (w : W) :
  prepare_output_dir output_dir w = (Ok dir, w1) ->
  subprocess_run (command m self path dir w1) w1 = (Ok cp, w2) ->
  returncode cp = 0%Z ->
  process m self path output_dir w = (Ok (Succeeded dir), w2).
Proof.
  intros P Run Z. rewrite (@process_outcome m self _ _ _ _ _ P).
  unfold run_analyzer, try_except, bind, gets, ret. now rewrite Run, Z.
Qed.

Lemma process_succeeded m self path output_dir dir (w w' : W) :
  process m self path output_dir w = (Ok (Succeeded dir), w') ->
  exists w1 cp,
    prepare_output_dir output_dir w = (Ok dir, w1) /\
    subprocess_run (command m self path dir w1) w1 = (Ok cp, w') /\
    returncode cp = 0%Z.
Proof.
  intros H.
  destruct (prepare_output_dir output_dir w) as [[d | e] w1] eqn:P.
  - rewrite (@process_outcome m self _ _ _ _ _ P) in H.
    destruct (run_analyzer_returns (command m self path d) d
                ("Timeout processing " ++ media_name m) w1)
      as (o & w2 & E & S).
    rewrite E in H. injection H as -> ->.
    destruct S as (<- & cp & Run & Z). now exists w1, cp.
  - destruct m; unfold process, process_video, process_image, bind in H;
      rewrite P in H; discriminate.
Qed.

Lemma save_results_run rs d w3 w4 (w : W) :
  os_makedirs d w = (Ok tt, w3) ->
  write_text (results_file d) (json_dumps (JDict rs)) w3 = (Ok tt, w4) ->
  save_results rs (Some d) w = (Ok (results_file d), w4).
Proof.
  intros Mk Wr. unfold save_results, bind, ret. fold (results_file d).
  now rewrite Mk, Wr.
Qed.

Lemma save_results_returned rs output_dir f (w w' : W) :
  save_results rs output_dir w = (Ok f, w') ->
  exists d w3,
    output_dir = Some d /\
    os_makedirs d w = (Ok tt, w3) /\
    write_text (results_file d) (json_dumps (JDict rs)) w3 = (Ok tt, w').
Proof.
  unfold save_results. destruct output_dir as [d |]; [|discriminate].
  unfold bind, ret. fold (results_file d).
  destruct (os_makedirs d w) as [[[] | e] w3] eqn:Mk; [|discriminate].
  destruct (write_text _ _ w3) as [[[] | e] w4] eqn:E; [|discriminate].
  intros H. injection H as _ <-. now exists d, w3.
Qed.

(** A turn records the success entry of its file exactly when the analysis
    of the file goes through; otherwise it records an error entry. *)
Lemma process_item_outcome self output_dir m file (s : State W) :
  wp (process_item self output_dir m file)
     (fun r s' =>
        r = Ok tt /\
        exists e,
          results s' = dict_set (basename file) e (results s) /\
          ((analysed self output_dir m file s e /\ is_error e = false) \/
           ((exists msg, e = error_entry msg m) /\
            forall e', ~ analysed self output_dir m file s e'))) s.
Proof.
  unfold process_item, video_try, image_try, load_json, in_world, set_result.
  destruct m; wp_steps.
  all: (split; [reflexivity|]).
  all: cbn [results world].
  all: cbn [results world] in *.
  all: rewrite ?dict_set_twice.
  all: eexists; (split; [reflexivity|]).
  all: try (right; split; [eexists; reflexivity|];
            intros e' (d & dir' & w1' & cp' & w2' & jf' & text' & data' & value'
                       & resp' & tr' & w3' & w4' & shown' & Od & P & Run & Z & Fa
                       & Rd & Ld & De & Tr & Re & Ee & Mk & Wr & Pv);
            subst output_dir e';
            pose proof (@process_succeeds _ _ _ _ _ _ _ _ _ P Run Z) as PS;
            pose proof (@save_results_run _ _ _ _ _ Mk Wr) as SR;
            (specialize (Tr eq_refl) || clear Tr);
            unfold found_artifact in Fa;
            cbn [process description_of artifact success_entry] in *;
            agree; fail).
  all: left; (split; [|reflexivity]).
  all: match goal with
       | H : process_video _ _ _ _ = (Ok (Succeeded _), _) |- _ =>
           apply (process_succeeded video) in H as (w1 & cp & P & Run & Z)
       | H : process_image _ _ _ _ = (Ok (Succeeded _), _) |- _ =>
           apply (process_succeeded image) in H as (w1 & cp & P & Run & Z)
       end.
  all: match goal with
       | H : save_results _ _ _ = (Ok _, _) |- _ =>
           apply save_results_returned in H as (d & w3 & -> & Mk & Wr)
       end.
  all: unfold analysed, found_artifact; cbn [description_of artifact command].
  all: do 14 eexists.
  all: repeat (split; [first [eassumption | reflexivity | discriminate
                              | intros _; eassumption]|]).
  all: try eassumption.
  Unshelve. all: exact JNull.
Qed.

(** The same, with the state the turn ends in. *)
Lemma turn_outcome self output_dir m file (s : State W) :
  exists e,
    results (state_after self output_dir [(m, file)] s)
    = dict_set (basename file) e (results s) /\
    ((analysed self output_dir m file s e /\ is_error e = false) \/
     ((exists msg, e = error_entry msg m) /\
      forall e', ~ analysed self output_dir m file s e')).
Proof.
  pose proof (process_item_outcome self output_dir m file s) as H.
  unfold wp in H.
  unfold state_after, process_all. cbn [for_each fst snd]. unfold bind, ret.
  destruct (process_item self output_dir m file s) as [r s1].
  cbn [fst snd] in H. destruct H as (-> & e & He & O).
  cbn [snd]. now exists e.
Qed.

(** The entries of a batch over files of distinct names: one per file, each
    the outcome of the turn of its file, which ran in the state the turns
    before it left. *)
Lemma process_folder_outcomes (self : Self) folder_path output_dir (w : W) :
  let video_files := find_videos folder_path w in
  let image_files := find_images folder_path w in
  NoDup (map basename (video_files ++ image_files)) ->
  exists res w',
    process_folder self folder_path output_dir w = (Ok res, w') /\
    keys res = map basename (video_files ++ image_files) /\
    List.length res = List.length video_files + List.length image_files /\
    forall done m file rest,
      queue video_files image_files = done ++ (m, file) :: rest ->
      let before := state_after self output_dir done (start w) in
      exists e,
        assoc (basename file) res = Some e /\
        ((analysed self output_dir m file before e /\ is_error e = false) \/
         ((exists msg, e = error_entry msg m) /\
          forall e', ~ analysed self output_dir m file before e')).
Proof.
  intros video_files image_files N.
  eexists _, _. split; [apply process_folder_run|].
  fold video_files image_files.
  assert (keys (results (state_after self output_dir
                           (queue video_files image_files) (start w)))
          = map basename (video_files ++ image_files)) as K.
  { rewrite keys_after, queue_keys. now apply (fold_add_key_fresh _ []). }
  split; [exact K|]. split.
  { rewrite <- length_app, <- (length_map basename), <- K. unfold keys.
    now rewrite length_map. }
  intros done m file rest Q before.
  destruct (turn_outcome self output_dir m file before) as (e & E & O).
  subst before. rewrite <- state_after_app in E.
  exists e. split; [|exact O].
  rewrite Q.
  replace (done ++ (m, file) :: rest) with ((done ++ [(m, file)]) ++ rest)
    by now rewrite <- app_assoc.
  rewrite state_after_app, entry_kept.
  - rewrite E. apply assoc_dict_set_same.
  - rewrite <- queue_keys, Q, map_app in N. cbn [map snd] in N.
    now apply NoDup_remove_2 in N as N2; intros I; apply N2; apply in_or_app; right.
Qed.


End ProcessProofs.

Lemma success_means_exit_status_0_witness :
  exists w' w1 cp,
    @process _ Examples.rt FolderProcessor.image Examples.processor
      "/work/media/y.png" (Some "out/image_y") Examples.one_image
    = (Ok (FolderProcessor.Succeeded "out/image_y"), w') /\
    Toy.makedirs "out/image_y" Examples.one_image = (Ok tt, w1) /\
    returncode cp = 0%Z.
Proof.
  eexists.
  destruct (@success_means_exit_status_0 _ Examples.rt FolderProcessor.image
              Examples.processor "/work/media/y.png" (Some "out/image_y")
              "out/image_y" Examples.one_image _ ltac:(vm_compute; reflexivity))
    as (w1 & cp & P & _ & Z).
  exists w1, cp. split; [vm_compute; reflexivity|]. split; [|exact Z].
  revert P. vm_compute. intros P. injection P as <-. reflexivity.
Defined.




(* ================================================================== *)
(** * The batch driver with its console *)
(* ================================================================== *)

(** ** On a console that takes every text *)

Section QuietConsole.
Context {W : Type} {R : Runtime W} {T : Strict W}.
Import FolderProcessor.

Hypothesis Accepts : accepting T.

Lemma accepted text (w : W) : print_ text w = Ok tt.
Proof. apply Accepts. Qed.

Lemma console_glob_output (w : W) :
  Console.glob "output/*.json" w = Ok (glob "output/*.json" w).
Proof.
  unfold Console.glob, glob.
  change (path_split "output/*.json") with ("output", "*.json").
  cbn [String.eqb Ascii.eqb Bool.eqb].
  change (has_magic "output") with false.
  change (contains NUL "output") with false.
  cbn [flat_map]. now rewrite app_nil_r.
Qed.

(** Both sides of an equation between computations, taken apart at the
    same steps. *)
Ltac both_sides :=
  repeat first
    [ rewrite accepted
    | rewrite console_glob_output
    | progress cbv beta iota
    | match goal with
      | |- context [match ?x with _ => _ end] =>
          lazymatch x with
          | context [match _ with _ => _ end] => fail
          | _ => destruct x eqn:?
          end
      end ];
  repeat match goal with u : unit |- _ => destruct u end;
  try reflexivity.

Lemma console_run_analyzer cmd dir timeout_msg (w : W) :
  Console.run_analyzer cmd dir timeout_msg w = run_analyzer cmd dir timeout_msg w.
Proof.
  unfold Console.run_analyzer, run_analyzer, try_except, bind, gets, say,
    reading, ret.
  both_sides.
Qed.

Lemma console_process m self path output_dir (w : W) :
  match m with
  | video => Console.process_video
  | image => Console.process_image
  end self path output_dir w
  = process m self path output_dir w.
Proof.
  destruct m; unfold Console.process_video, Console.process_image, process,
    process_video, process_image, bind.
  all: destruct (prepare_output_dir output_dir w) as [[d | e] w1];
    [apply console_run_analyzer | reflexivity].
Qed.

Lemma console_glob_in_folder d lit (w : W) :
  rstrip_slash d = d -> has_magic d = false -> contains NUL d = false ->
  contains "/" lit = false ->
  Console.glob (path_join d (String "*" lit)) w
  = Ok (glob (path_join d (String "*" lit)) w).
Proof.
  intros S M N L. unfold Console.glob, glob.
  rewrite path_split_join by auto using star_has_no_slash.
  destruct (String.eqb d ""); [reflexivity|].
  rewrite M, N. cbn [flat_map]. now rewrite app_nil_r.
Qed.

Lemma console_find folder_path (w : W) :
  has_magic (rstrip_slash folder_path) = false ->
  contains NUL (rstrip_slash folder_path) = false ->
  Console.find_all_media folder_path w
  = Ok (find_videos folder_path w, find_images folder_path w).
Proof.
  intros M N.
  assert (rstrip_slash (rstrip_slash folder_path) = rstrip_slash folder_path)
    as S by apply rstrip_slash_idempotent.
  unfold Console.find_all_media, Console.find_videos, Console.find_images,
    find_videos, find_images, video_extensions, image_extensions.
  cbn [Console.glob_each flat_map].
  rewrite !console_glob_in_folder by (assumption || reflexivity).
  now rewrite !app_nil_r.
Qed.

Lemma console_turn self output_dir total_files file_count m file (s : State W) :
  Console.process_item self output_dir total_files m file_count file s
  = process_item self output_dir m file s.
Proof.
  unfold Console.process_item, process_item.
  unfold bind at 1. unfold Console.tell at 1. unfold reading at 1.
  rewrite accepted.
  destruct m.
  - unfold try_except, Console.video_try, video_try, load_json, in_world, zoom,
      set_result, Console.tell, bind, gets, reading, lift, modify, ret.
    rewrite (console_process video). cbn [process].
    both_sides.
  - unfold try_except, Console.image_try, image_try, load_json, in_world, zoom,
      set_result, Console.tell, bind, gets, reading, lift, modify, ret.
    rewrite (console_process image). cbn [process].
    both_sides.
Qed.

Lemma console_loop self output_dir total_files m files file_count (s : State W) :
  Console.for_each_from file_count files
    (Console.process_item self output_dir total_files m) s
  = for_each files (process_item self output_dir m) s.
Proof.
  revert file_count s. induction files as [| file files IH]; intros file_count s;
    [reflexivity|].
  cbn [Console.for_each_from for_each]. unfold bind.
  rewrite console_turn.
  destruct (process_item self output_dir m file s) as [[[] | e] s'];
    [apply IH | reflexivity].
Qed.

Lemma console_queues self output_dir video_files image_files (s : State W) :
  Console.process_queues self output_dir video_files image_files s
  = process_queues self output_dir video_files image_files s.
Proof.
  unfold Console.process_queues, process_queues, bind.
  rewrite console_loop.
  destruct (for_each video_files _ s) as [[[] | e] s'];
    [apply console_loop | reflexivity].
Qed.

(** On a console that takes every text, and for a folder path that [glob]
    takes, the batch driver is the quiet one. *)
Lemma quiet_console self folder_path output_dir (w : W) :
  has_magic (rstrip_slash folder_path) = false ->
  contains NUL (rstrip_slash folder_path) = false ->
  Console.process_folder self folder_path output_dir w
  = process_folder self folder_path output_dir w.
Proof.
  intros M N. unfold Console.process_folder, process_folder, find_all_media.
  unfold bind at 1. unfold reading at 1. rewrite (console_find _ _ M N).
  destruct (_ =? 0)%nat.
  - unfold bind, say, reading, ret. now rewrite accepted.
  - unfold bind, say, reading. rewrite accepted.
    now rewrite console_queues.
Qed.

End QuietConsole.

(** ** On any console *)

Section ConsoleProofs.
Context {W : Type} {R : Runtime W} {T : Strict W}.
Import FolderProcessor.

(** A turn assigns one entry to the name of its file; the only exceptions
    that leave it are those of a [print]: of the line that announces the
    file, and of the line in the [except] clause. *)
Lemma console_item_spec self output_dir total_files m file_count file
    (s : State W) :
  wp (Console.process_item self output_dir total_files m file_count file)
     (fun r s' =>
        match r with
        | Ok _ => exists e, results s' = dict_set (basename file) e (results s) /\
                            batch_entry e
        | Raise e => raised_by_print e
        end) s.
Proof.
  unfold Console.process_item, Console.video_try, Console.image_try, load_json,
    in_world, set_result, Console.tell.
  destruct m; wp_steps.
  all: cbn [results world] in *.
  all: rewrite ?dict_set_twice.
  all: try (eexists _, _; eassumption).
  all: eexists; (split; [reflexivity|]).
  all: first [ exists video; left; eexists; reflexivity
             | exists image; left; eexists; reflexivity
             | exists video; right; do 4 eexists; reflexivity
             | exists image; right; do 4 eexists; reflexivity ].
  Unshelve. all: exact JNull.
Qed.

Lemma console_loop_spec self output_dir total_files m files file_count
    (s : State W) :
  Forall (fun kv => batch_entry (snd kv)) (results s) ->
  wp (Console.for_each_from file_count files
        (Console.process_item self output_dir total_files m))
     (fun r s' =>
        match r with
        | Ok _ =>
            Forall (fun kv => batch_entry (snd kv)) (results s') /\
            keys (results s')
            = fold_left add_key (map basename files) (keys (results s))
        | Raise e => raised_by_print e
        end) s.
Proof.
  revert file_count s. induction files as [| file files IH];
    intros file_count s F.
  - now split.
  - cbn [Console.for_each_from]. apply wp_bind.
    eapply wp_consequence; [apply console_item_spec|].
    intros [[] | e] s1 Q; [|exact Q].
    destruct Q as (entry & E & B).
    eapply wp_consequence.
    + apply IH. rewrite E.
      now apply (Forall_dict_set batch_entry).
    + intros [[] | e] s2 Q; [|exact Q]. destruct Q as [F2 K].
      split; [exact F2|]. rewrite K, E, keys_dict_set. reflexivity.
Qed.

Lemma console_queues_spec self output_dir video_files image_files (s : State W) :
  Forall (fun kv => batch_entry (snd kv)) (results s) ->
  wp (Console.process_queues self output_dir video_files image_files)
     (fun r s' =>
        match r with
        | Ok _ =>
            Forall (fun kv => batch_entry (snd kv)) (results s') /\
            keys (results s')
            = fold_left add_key (map basename (video_files ++ image_files))
                (keys (results s))
        | Raise e => raised_by_print e
        end) s.
Proof.
  intros F. unfold Console.process_queues. apply wp_bind.
  eapply wp_consequence; [now apply console_loop_spec|].
  intros [[] | e] s1 Q; [|exact Q]. destruct Q as [F1 K1].
  eapply wp_consequence; [now apply console_loop_spec|].
  intros [[] | e] s2 Q; [|exact Q]. destruct Q as [F2 K2].
  split; [exact F2|]. now rewrite K2, K1, map_app, fold_left_app.
Qed.

(** A wildcard-free folder path with a NUL character in it: [glob] raises. *)
Lemma console_find_raises folder_path (w : W) :
  has_magic (rstrip_slash folder_path) = false ->
  contains NUL (rstrip_slash folder_path) = true ->
  Console.find_all_media folder_path w
  = Raise (Exn ValueError "scandir: embedded null character in path").
Proof.
  intros M N.
  assert (rstrip_slash (rstrip_slash folder_path) = rstrip_slash folder_path)
    as S by apply rstrip_slash_idempotent.
  unfold Console.find_all_media, Console.find_videos, video_extensions.
  cbn [Console.glob_each]. unfold Console.glob at 1.
  rewrite path_split_join by (assumption || reflexivity).
  destruct (rstrip_slash folder_path) as [| c d]; [discriminate|].
  cbn [String.eqb]. now rewrite M, N.
Qed.

(** What [process_folder] does, whatever the console takes: the exceptions
    that leave it are the one of [glob] and those of a [print]; the map it
    returns has entries as the turns write them, under the distinct names of
    the files found. *)
Lemma console_folder_spec self folder_path output_dir (w : W) :
  has_magic (rstrip_slash folder_path) = false ->
  wp (Console.process_folder self folder_path output_dir)
     (fun r w' =>
        match r with
        | Raise e =>
            contains NUL (rstrip_slash folder_path) = true \/ raised_by_print e
        | Ok res =>
            contains NUL (rstrip_slash folder_path) = false /\
            Forall (fun kv => batch_entry (snd kv)) res /\
            keys res = distinct (map basename (find_videos folder_path w ++
                                               find_images folder_path w)) /\
            (find_videos folder_path w = [] ->
             find_images folder_path w = [] -> w' = w)
        end) w.
Proof.
  intros M. unfold Console.process_folder.
  destruct (contains NUL (rstrip_slash folder_path)) eqn:N.
  - unfold wp, bind, reading. rewrite (console_find_raises _ _ M N). now left.
  - apply wp_bind, wp_reading. intros r E. rewrite (console_find _ _ M N) in E.
    subst r. cbv beta iota.
    destruct (_ =? 0)%nat eqn:Z.
    + apply Nat.eqb_eq in Z.
      destruct (find_videos folder_path w); [|discriminate].
      destruct (find_images folder_path w); [|discriminate].
      unfold say. wp_steps.
      * repeat split. constructor.
      * right. eexists _, _. eassumption.
    + unfold say. apply wp_bind, wp_reading. intros [[] | e] P.
      2:{ right. eexists _, _. eassumption. }
      pose proof (console_queues_spec self output_dir
                    (find_videos folder_path w) (find_images folder_path w)
                    {| results := []; world := w |} (Forall_nil _)) as Q.
      unfold wp in *.
      destruct (Console.process_queues _ _ _ _ _) as [[[] | e] s'];
        cbn [fst snd] in *.
      * destruct Q as [F K]. split; [reflexivity|]. split; [exact F|].
        split; [exact K|]. intros V I. rewrite V, I in Z. discriminate.
      * now right.
Qed.

End ConsoleProofs.

(** ** The batch and its summary *)

Section BatchClaims.
Context {W : Type} {R : Runtime W} {T : Strict W}.
Import FolderProcessor.

(** C3, as the code has it.  On a console that takes every text, for a
    folder path without wildcard and without NUL character whose listing has
    no name twice: [process_folder] returns a map with exactly one entry per
    discovered file, as many as videos plus images were found.  The entry of
    a file is its success entry exactly when its own analysis goes through
    in the state the turns before it left, and an error entry otherwise:
    the failure of a file neither ends the loop nor touches the entry of
    another file. *)
Theorem process_folder_isolates_failures self folder_path output_dir (w : W) :
  let video_files := find_videos folder_path w in
  let image_files := find_images folder_path w in
  accepting T ->
  has_magic (rstrip_slash folder_path) = false ->
  contains NUL (rstrip_slash folder_path) = false ->
  (forall names, os_scandir (rstrip_slash folder_path) w = Some names ->
                 sane_names names) ->
  exists res w',
    Console.process_folder self folder_path output_dir w = (Ok res, w') /\
    keys res = map basename (video_files ++ image_files) /\
    List.length res = List.length video_files + List.length image_files /\
    forall done m file rest,
      queue video_files image_files = done ++ (m, file) :: rest ->
      let before := state_after self output_dir done (start w) in
      exists e,
        assoc (basename file) res = Some e /\
        ((analysed self output_dir m file before e /\ is_error e = false) \/
         ((exists msg, e = error_entry msg m) /\
          forall e', ~ analysed self output_dir m file before e')).
Proof.
  intros video_files image_files A M N Sane.
  rewrite (quiet_console A _ _ _ _ M N).
  apply process_folder_outcomes. now apply found_names_distinct.
Qed.


End BatchClaims.

(** On the mixed folder: four entries; the image that cannot be decoded has
    its error entry, and the image after it its success entry. *)
Lemma process_folder_isolates_failures_witness :
  exists res w',
    @Console.process_folder _ Examples.rt Scenes.console Examples.processor
      "media/" (Some "out") Examples.media_folder = (Ok res, w') /\
    keys res = ["b.mp4"; "a.mp4"; "corrupt.png"; "y.png"] /\
    List.length res = 2 + 2 /\
    assoc "corrupt.png" res
    = Some (FolderProcessor.error_entry "Return code 1: cannot decode"
              FolderProcessor.image) /\
    exists e,
      assoc "y.png" res = Some e /\ is_error e = false /\
      py_get e "description" JNull = Ok (JStr "a cat").
Proof.
  assert (has_magic (rstrip_slash "media/") = false) as M by reflexivity.
  assert (contains NUL (rstrip_slash "media/") = false) as N by reflexivity.
  assert (forall names,
             @os_scandir _ Examples.rt (rstrip_slash "media/") Examples.media_folder
               = Some names -> sane_names names) as Sane.
  { intros names E. vm_compute in E. injection E as <-. split.
    - repeat (constructor; [simpl; intuition discriminate|]). constructor.
    - repeat (constructor; [reflexivity|]). constructor. }
  destruct (@process_folder_isolates_failures _ Examples.rt Scenes.console
              Examples.processor "media/" (Some "out") Examples.media_folder
              (fun _ _ => eq_refl) M N Sane)
    as (res & w' & E & K & L & _).
  exists res, w'. split; [exact E|]. split; [exact K|]. split; [exact L|].
  vm_compute in E. injection E as <- _.
  split; [reflexivity|]. eexists. split; [reflexivity|]. split; reflexivity.
Defined.

(** C3 as stated fails.  With a wildcard in the folder path, discovery
    finds two videos of the same name in two folders, both are analysed,
    and the map has one entry.  And an exception in the handling of one
    file ends the batch: the line that announces a file is printed before
    the [try], so that a name the console cannot print leaves no map at
    all, although the image before it was analysed. *)
Lemma batch_loses_an_entry_or_ends_early :
  (@FolderProcessor.find_videos _ Scenes.expanding "m*" Scenes.two_folders
   = ["m1/a.mp4"; "m2/a.mp4"] /\
   @FolderProcessor.find_images _ Scenes.expanding "m*" Scenes.two_folders = [] /\
   exists res w',
     @Console.process_folder _ Scenes.expanding Scenes.expanding_console
       Examples.processor "m*" (Some "out") Scenes.two_folders = (Ok res, w') /\
     keys res = ["a.mp4"] /\
     List.length res = 1 /\
     List.length res <> 2 + 0) /\
  (@FolderProcessor.find_images _ Examples.rt "media" Scenes.accented
   = ["media/y.png"; ("media/" ++ of_bytes [195; 169] ++ ".png")%string] /\
   exists w',
     @Console.process_folder _ Examples.rt Scenes.ascii_console
       Examples.processor "media" (Some "out") Scenes.accented
     = (Raise (Exn UnicodeEncodeError "'ascii' codec can't encode character"),
        w') /\
     @os_path_exists _ Examples.rt "out/image_y/image_analysis.json" w' = true).
Proof.
  split.
  - split; [vm_compute; reflexivity|]. split; [vm_compute; reflexivity|].
    eexists _, _. split; [vm_compute; reflexivity|].
    split; [reflexivity|]. split; [reflexivity | discriminate].
  - split; [vm_compute; reflexivity|].
    eexists. split; [vm_compute; reflexivity|]. reflexivity.
Qed.



(** A NUL character in the folder path ends the batch in discovery. *)
Example nul_in_the_folder_path_ends_discovery :
  fst (@Console.process_folder _ Examples.rt Scenes.console
         Examples.processor ("media" ++ NUL) (Some "out") Scenes.accented)
  = Raise (Exn ValueError "scandir: embedded null character in path").
Proof. reflexivity. Qed.

(** ** The summary *)

Section SummaryProofs.
Context {W : Type} {R : Runtime W} {T : Strict W}.
Import FolderProcessor.
Import Console.

(** An entry of a batch is counted once: an error entry as failed, a success
    entry under its kind.  The only exceptions are those of a [print]. *)
Lemma count_entry_spec file_name e c (w : W) :
  batch_entry e ->
  wp (count_entry file_name e c)
     (fun r w' =>
        w' = w /\
        match r with
        | Ok c' =>
            successful_videos c' + successful_images c' + failed c'
            = S (successful_videos c + successful_images c + failed c) /\
            failed c' = (if is_error e then S (failed c) else failed c)
        | Raise x => raised_by_print x
        end) w.
Proof.
  intros (m & [(msg & ->) | (response & transcript & run_time & abs_path & ->)]).
  all: destruct m; unfold count_entry, say; cbn.
  all: repeat (wp_step;
               try match goal with
                   | H : Ok _ = Ok _ |- _ => injection H as <-
                   end;
               try discriminate; cbn).
  all: split; [reflexivity|].
  all: try (eexists _, _; eassumption).
  all: cbn; split; [lia | reflexivity].
Qed.

Lemma count_entries_spec entries c (w : W) :
  Forall (fun kv => batch_entry (snd kv)) entries ->
  wp (count_entries entries c)
     (fun r w' =>
        w' = w /\
        match r with
        | Ok c' =>
            successful_videos c' + successful_images c' + failed c'
            = List.length entries
              + (successful_videos c + successful_images c + failed c) /\
            failed c'
            = List.length (filter (fun kv => is_error (snd kv)) entries)
              + failed c
        | Raise x => raised_by_print x
        end) w.
Proof.
  intros F. revert c. induction F as [| [k e] entries Pe _ IH]; intros c.
  - now repeat split.
  - cbn [count_entries]. apply wp_bind.
    eapply wp_consequence; [now apply count_entry_spec|].
    intros [c1 | x] w1 [-> Q]; [|now split].
    destruct Q as [T1 F1].
    eapply wp_consequence; [apply IH|].
    intros [c2 | x] w2 [-> Q]; (split; [reflexivity|]); [|exact Q].
    destruct Q as [T2 F2]. cbn [filter snd List.length]. split.
    + rewrite T2, T1. lia.
    + rewrite F2, F1. destruct (is_error e); cbn [List.length]; lia.
Qed.

(** [print_summary] on a map of batch entries: the world is left as it was;
    when it returns, its counters add up to the number of entries and
    [failed] is the number of error entries; the only exceptions are those
    of a [print]. *)
Lemma print_summary_spec entries results_file (w : W) :
  Forall (fun kv => batch_entry (snd kv)) entries ->
  wp (print_summary entries results_file)
     (fun r w' =>
        w' = w /\
        match r with
        | Ok summary =>
            successful_videos summary + successful_images summary
            + failed summary
            = List.length entries /\
            failed summary
            = List.length (filter (fun kv => is_error (snd kv)) entries)
        | Raise x => raised_by_print x
        end) w.
Proof.
  intros F. unfold print_summary, say.
  pose proof (count_entries_spec
                {| successful_videos := 0; successful_images := 0; failed := 0 |}
                w F) as C.
  unfold wp in *. unfold bind, reading, gets, ret.
  repeat match goal with
         | |- context [print_ ?t ?v] =>
             let P := fresh "P" in
             destruct (print_ t v) as [[] | ?] eqn:P; cbn [fst snd];
             [| split; [reflexivity | eexists _, _; exact P]]
         | |- context [count_entries ?a ?b ?v] =>
             destruct (count_entries a b v) as [[c | x] w1];
             cbn [fst snd] in *; destruct C as [-> C];
             [| split; [reflexivity | exact C]]
         | |- context [match given ?f with _ => _ end] =>
             destruct (given f); cbn [fst snd]
         end.
  all: split; [reflexivity|]; cbn in C; split; lia.
Qed.

(** The entries of the map that [process_folder] returns are entries as the
    turns write them, whatever the folder path. *)
Lemma console_folder_entries self folder_path output_dir (w w' : W) res :
  process_folder self folder_path output_dir w = (Ok res, w') ->
  Forall (fun kv => batch_entry (snd kv)) res.
Proof.
  unfold process_folder, say, bind, reading, ret.
  destruct (find_all_media folder_path w) as [[video_files image_files] | e];
    [|discriminate].
  destruct (_ =? 0)%nat.
  all: match goal with
       | |- context [print_ ?t ?v] => destruct (print_ t v); [|discriminate]
       end.
  - intros H. injection H as <- _. constructor.
  - pose proof (console_queues_spec self output_dir video_files image_files
                  {| results := []; world := w |} (Forall_nil _)) as Q.
    unfold wp in Q.
    destruct (process_queues _ _ _ _ _) as [[[] | e] s']; [|discriminate].
    intros H. injection H as <- _. apply Q.
Qed.

(** [print_summary] on the map that [process_folder] returns.  It changes
    nothing.  When it returns, its three counters add up to the number of
    entries and [failed] is the number of entries with the key [error].
    The only exceptions that leave it are those of a [print]. *)
Theorem summary_accounts_for_every_entry self folder_path output_dir
    results_file (w w' w0 : W) results :
  Console.process_folder self folder_path output_dir w = (Ok results, w') ->
  exists r,
    Console.print_summary results results_file w0 = (r, w0) /\
    match r with
    | Ok summary =>
        successful_videos summary + successful_images summary + failed summary
        = List.length results /\
        failed summary
        = List.length (filter (fun kv => is_error (snd kv)) results)
    | Raise e => raised_by_print e
    end.
Proof.
  intros Run.
  pose proof (print_summary_spec results_file w0
                (console_folder_entries _ _ _ _ Run)) as S.
  unfold wp in S. destruct (print_summary results results_file w0) as [r w1].
  cbn [fst snd] in S. destruct S as [-> S]. now exists r.
Qed.

(** [main] of [folder_processor.py].  When it prints a summary, the map it
    summarizes is the whole map of the batch, error results included, and
    writing that map to [media_descriptions.json] was its last change to the
    world.  When it prints none, no media file was found and nothing was
    touched. *)
Theorem main_saves_the_whole_map (w w' : W) outcome :
  Console.main w = (Ok outcome, w') ->
  match outcome with
  | Some summary =>
      exists results w1 saving,
        Console.process_folder processor test_path (Some output_dir) w
        = (Ok results, w1) /\
        results <> [] /\
        write_text (results_file output_dir) (json_dumps (JDict results)) saving
        = (Ok tt, w') /\
        Console.print_summary results (Some (results_file output_dir)) w'
        = (Ok summary, w')
  | None =>
      w' = w /\
      FolderProcessor.find_videos test_path w = [] /\
      FolderProcessor.find_images test_path w = []
  end.
Proof.
  unfold Console.main. unfold bind at 1.
  destruct (process_folder processor test_path (Some output_dir) w)
    as [[results | e] w1] eqn:Run; [|discriminate].
  destruct (0 <? List.length results)%nat eqn:L.
  - unfold bind, ret.
    destruct (save_results _ _ _) as [[f | e] w2] eqn:S; [|discriminate].
    pose proof (print_summary_spec (Some f) w2
                  (console_folder_entries _ _ _ _ Run)) as P.
    unfold wp in P.
    destruct (print_summary results (Some f) w2) as [[summary | e] w3] eqn:E;
      [|discriminate].
    cbn [fst snd] in P. destruct P as [-> _].
    intros H. injection H as <- <-.
    assert (f = results_file output_dir) as ->.
    { revert S. unfold save_results, bind, ret.
      destruct (os_makedirs _ _) as [[[] | ?] ?]; [|discriminate].
      destruct (write_text _ _ _) as [[[] | ?] ?]; [|discriminate].
      intros H. now injection H as <- _. }
    destruct (save_results_saved _ _ _ S) as (d & saving & D & Wr).
    injection D as <-.
    exists results, w1, saving.
    split; [reflexivity|]. split; [|now split].
    intros N. rewrite N in L. discriminate.
  - intros H. injection H as <- <-.
    apply Nat.ltb_ge in L.
    assert (results = []) as -> by (destruct results; [reflexivity | cbn in L; lia]).
    pose proof (console_folder_spec processor test_path (Some output_dir) w
                  eq_refl) as S.
    unfold wp in S. rewrite Run in S. cbn [fst snd] in S.
    destruct S as (_ & _ & K & Same).
    cbn [keys map] in K. symmetry in K.
    apply (proj1 (distinct_nil _)) in K. apply map_eq_nil in K.
    apply app_eq_nil in K. destruct K as [V I].
    split; [now apply Same|]. now split.
Qed.

End SummaryProofs.

(** The summary of the mixed folder: two videos, one image, one failure. *)
Lemma summary_accounts_for_every_entry_witness :
  exists results w' summary,
    @Console.process_folder _ Examples.rt Scenes.console Examples.processor
      "media/" (Some "out") Examples.media_folder = (Ok results, w') /\
    @Console.print_summary _ Examples.rt Scenes.console results
      (Some "out/media_descriptions.json") w' = (Ok summary, w') /\
    List.length results = 4 /\
    Console.successful_videos summary + Console.successful_images summary
    + Console.failed summary = List.length results /\
    Console.failed summary = 1.
Proof.
  do 2 eexists.
  assert (@Console.process_folder _ Examples.rt Scenes.console
            Examples.processor "media/" (Some "out") Examples.media_folder
          = (Ok _, _)) as Run by (vm_compute; reflexivity).
  match type of Run with
  | _ = (_, ?w1) =>
      destruct (@summary_accounts_for_every_entry _ Examples.rt Scenes.console
                  _ _ _ (Some "out/media_descriptions.json") _ _ w1 _ Run)
        as ([summary | e] & P & Q); [|vm_compute in P; discriminate P]
  end.
  exists summary. split; [exact Run|]. split; [exact P|].
  split; [reflexivity|]. destruct Q as [Sum Failed].
  split; [exact Sum|]. rewrite Failed. reflexivity.
Defined.

Lemma main_saves_the_whole_map_witness :
  exists summary w' results saving,
    @Console.main _ Examples.rt Scenes.console Scenes.recording
    = (Ok (Some summary), w') /\
    keys results = ["y.png"; "corrupt.png"] /\
    Toy.write "video-analyzer/VideoRecording_20251026/gpt/media_descriptions.json"
      (Toy.dumps (JDict results)) saving = (Ok tt, w') /\
    @Console.print_summary _ Examples.rt Scenes.console results
      (Some "video-analyzer/VideoRecording_20251026/gpt/media_descriptions.json")
      w' = (Ok summary, w').
Proof.
  do 2 eexists.
  assert (@Console.main _ Examples.rt Scenes.console Scenes.recording
          = (Ok (Some _), _)) as H
    by (vm_compute; reflexivity).
  destruct (@main_saves_the_whole_map _ Examples.rt Scenes.console _ _ _ H)
    as (results & w1 & saving & Run & _ & Wr & P).
  exists results, saving. split; [exact H|].
  vm_compute in Run. injection Run as <- _.
  split; [reflexivity|]. split; [exact Wr | exact P].
Defined.

(* ================================================================== *)
(** * The command line that is displayed *)
(* ================================================================== *)

Lemma star_free_cons c p :
  contains "*" (String c p) = false ->
  Ascii.eqb "*" c = false /\ contains "*" p = false.
Proof.
  cbn [contains startswith]. intros H. apply orb_false_iff in H.
  destruct H as [H1 H2]. split; [|exact H2].
  now destruct (Ascii.eqb "*" c).
Qed.

(** A star in front of a text adds no occurrence of a star-free text. *)
Lemma contains_after_star m y :
  m <> "" -> contains "*" m = false ->
  contains m (String "*" y) = contains m y.
Proof.
  intros N F. destruct m as [| c m]; [congruence|].
  apply star_free_cons in F. destruct F as [F _].
  cbn [contains startswith]. rewrite Ascii.eqb_sym, F. reflexivity.
Qed.

(** A star-free prefix of the replaced text is a prefix of the text. *)
Lemma startswith_replaced old p s :
  contains "*" p = false ->
  startswith p (replace_from old "*****" 0 s) = true ->
  startswith p s = true.
Proof.
  revert p. induction s as [| a r IH]; intros p F; [now cbn|].
  destruct p as [| p0 p']; [reflexivity|].
  apply star_free_cons in F. destruct F as [F0 F'].
  cbn [replace_from]. destruct (startswith old (String a r)).
  - cbn [append startswith]. rewrite Ascii.eqb_sym, F0. discriminate.
  - cbn [startswith]. intros H. apply andb_true_iff in H. destruct H as [E H].
    rewrite E. now apply IH.
Qed.

(** Replacing a star-free text by stars leaves no occurrence of it. *)
Lemma replaced_is_gone old s skip :
  old <> "" -> contains "*" old = false ->
  contains old (replace_from old "*****" skip s) = false.
Proof.
  intros N F. revert skip. induction s as [| a r IH]; intros skip.
  - destruct old; [congruence | reflexivity].
  - cbn [replace_from]. destruct skip as [| k]; [|apply IH].
    destruct (startswith old (String a r)) eqn:S.
    + cbn [append]. rewrite !contains_after_star by assumption. apply IH.
    + cbn [contains]. rewrite IH, orb_false_r.
      destruct old as [| c o']; [congruence|].
      destruct (startswith (String c o') (String a (replace_from _ _ 0 r)))
        eqn:S'; [|reflexivity].
      cbn [startswith] in S, S'. apply andb_true_iff in S'. destruct S' as [E S'].
      apply star_free_cons in F.
      rewrite E, (startswith_replaced _ _ _ (proj2 F) S') in S. discriminate.
Qed.

Section DisplayProofs.
Context {W : Type} {R : Runtime W}.

(** The API key is not in the command line that is displayed, for a key
    that is not empty and holds no star. *)
Theorem api_key_is_never_displayed cmd key (w : W) :
  os_environ "OPENAI_API_KEY" w = Some key ->
  key <> "" ->
  contains "*" key = false ->
  contains key (Console.display_cmd cmd w) = false.
Proof.
  intros E N F. unfold Console.display_cmd, py_replace, str_replace. rewrite E.
  destruct (String.eqb_spec key "") as [-> | _]; [congruence|].
  now apply replaced_is_gone.
Qed.

End DisplayProofs.

Lemma api_key_is_never_displayed_witness :
  In "sk-123"
     (@FolderProcessor.image_cmd _ (Scenes.runtime_with_key "sk-123")
        Console.processor "/work/cat.png" "out/image_cat" Examples.desk) /\
  contains "sk-123"
    (@Console.display_cmd _ (Scenes.runtime_with_key "sk-123")
       (@FolderProcessor.image_cmd _ (Scenes.runtime_with_key "sk-123")
          Console.processor "/work/cat.png" "out/image_cat" Examples.desk)
       Examples.desk) = false.
Proof.
  split; [vm_compute; tauto|].
  apply (@api_key_is_never_displayed _ (Scenes.runtime_with_key "sk-123")).
  - reflexivity.
  - discriminate.
  - reflexivity.
Defined.

(* ================================================================== *)
(** * Discovery and the commands, continued *)
(* ================================================================== *)

Lemma has_suffix_app a b name :
  has_suffix (a ++ b) name = has_suffix a name || has_suffix b name.
Proof. apply existsb_app. Qed.

Lemma contains_lower p s :
  contains p s = true -> contains (lower p) (lower s) = true.
Proof.
  rewrite !contains_spec. intros (pre & post & ->).
  exists (lower pre), (lower post). now rewrite !lower_append.
Qed.

Lemma append_inv_head (p a b : string) : (p ++ a = p ++ b)%string -> a = b.
Proof. induction p as [| c p IH]; cbn; [auto | intros E; injection E; auto]. Qed.

Section DiscoveryMore.
Context {W : Type} {R : Runtime W}.
Import FolderProcessor.


(** For a model whose name holds [gpt] in lower case, both commands select
    the OpenAI client: they differ in the program, in the Whisper model and
    in the flag of the output directory. *)
Theorem gpt_models_select_the_openai_client self path dir (w : W) :
  contains "gpt" (model self) = true ->
  image_cmd self path dir w
  = ["image-analyzer"; path] ++ prompt_args self ++ openai_args w ++
    ["--model"; model self; "--output-dir"; dir] /\
  video_cmd self path dir w
  = ["video-analyzer"; path] ++ prompt_args self ++ openai_args w ++
    ["--model"; model self; "--whisper-model"; whisper_model self;
     "--output"; dir].
Proof.
  intros G. unfold image_cmd, video_cmd.
  pose proof (contains_lower "gpt" _ G) as G'.
  change (lower "gpt") with "gpt" in G'. rewrite G, G'. now split.
Qed.

(** The directory of a video and the directory of an image differ, whatever
    the two files are called. *)
Theorem kinds_never_share_a_directory output_dir name1 name2 d1 d2 :
  media_output_dir video output_dir name1 = Some d1 ->
  media_output_dir image output_dir name2 = Some d2 ->
  d1 <> d2.
Proof.
  unfold media_output_dir. destruct (given output_dir) as [d |]; [|discriminate].
  intros E1 E2. injection E1 as <-. injection E2 as <-.
  unfold path_join. cbn [media_name append startswith Ascii.eqb Bool.eqb andb].
  destruct (String.eqb d "" || endswith "/" d); intros E;
    apply append_inv_head in E; discriminate.
Qed.

Lemma both_cases_in_folder d lit (w : W) :
  rstrip_slash d = d -> has_magic d = false ->
  contains "/" lit = false -> contains "/" (upper lit) = false ->
  Dev.both_cases d w (String "*" lit)
  = matching d lit w ++ matching d (upper lit) w.
Proof.
  intros S M N N'. unfold Dev.both_cases. cbn [upper].
  change (ascii_upper "*") with "*"%char.
  now rewrite !glob_in_folder.
Qed.

(** [find_media_files] of [folder_processor_dev.py] finds the visible names
    of the folder that end with an extension of the kind in lower case or in
    upper case. *)
Theorem dev_discovery_matches_both_cases folder_path (w : W) p :
  has_magic (rstrip_slash folder_path) = false ->
  let d := rstrip_slash folder_path in
  (In p (fst (Dev.find_media_files folder_path w)) <->
   exists n, p = path_join d n /\ listed d n w /\ is_hidden n = false /\
             (has_suffix video_suffixes n = true \/
              has_suffix (map upper video_suffixes) n = true)) /\
  (In p (snd (Dev.find_media_files folder_path w)) <->
   exists n, p = path_join d n /\ listed d n w /\ is_hidden n = false /\
             (has_suffix image_suffixes n = true \/
              has_suffix (map upper image_suffixes) n = true)).
Proof.
  intros M d.
  assert (forall suffixes,
             In p (flat_map (fun suffix => matching d suffix w ++
                                           matching d (upper suffix) w) suffixes)
             <-> exists n, p = path_join d n /\ listed d n w /\
                           is_hidden n = false /\
                           (has_suffix suffixes n = true \/
                            has_suffix (map upper suffixes) n = true)) as Both.
  { intros suffixes. split.
    - intros I.
      assert (In p (flat_map (fun suffix => matching d suffix w)
                             (suffixes ++ map upper suffixes))) as I'.
      { apply in_flat_map in I as (s & Is & I). apply in_flat_map.
        apply in_app_or in I as [I | I].
        - exists s. split; [apply in_or_app; now left | exact I].
        - exists (upper s). split; [|exact I].
          apply in_or_app. right. now apply in_map. }
      apply in_matching in I' as (n & -> & L & H & S).
      rewrite has_suffix_app in S. apply orb_true_iff in S. now exists n.
    - intros (n & -> & L & H & S).
      assert (In (path_join d n)
                 (flat_map (fun suffix => matching d suffix w)
                           (suffixes ++ map upper suffixes))) as I.
      { apply in_matching. exists n. rewrite has_suffix_app.
        repeat split; try assumption. now apply orb_true_iff. }
      apply in_flat_map in I as (s & Is & I). apply in_flat_map.
      apply in_app_or in Is as [Is | Is].
      + exists s. split; [exact Is|]. apply in_or_app. now left.
      + apply in_map_iff in Is as (s0 & <- & Is).
        exists s0. split; [exact Is|]. apply in_or_app. now right. }
  assert (rstrip_slash d = d) as S by apply rstrip_slash_idempotent.
  split; rewrite <- Both.
  - unfold Dev.find_media_files, Dev.video_extensions, video_suffixes.
    fold d. cbn [fst flat_map].
    now rewrite !both_cases_in_folder by (assumption || reflexivity).
  - unfold Dev.find_media_files, Dev.image_extensions, image_suffixes.
    fold d. cbn [snd flat_map].
    now rewrite !both_cases_in_folder by (assumption || reflexivity).
Qed.

End DiscoveryMore.


Lemma gpt_models_select_the_openai_client_witness :
  @FolderProcessor.image_cmd _ Examples.rt Console.processor "/work/cat.png"
    "out/image_cat" Examples.desk
  = [ "image-analyzer"; "/work/cat.png"; "--client"; "openai_api"; "--api-url";
      "https://api.openai.com/v1"; "--model"; "gpt-4.1-nano"; "--output-dir";
      "out/image_cat" ].
Proof.
  exact (proj1 (@gpt_models_select_the_openai_client _ Examples.rt
                  Console.processor "/work/cat.png" "out/image_cat"
                  Examples.desk eq_refl)).
Defined.

Lemma kinds_never_share_a_directory_witness :
  FolderProcessor.media_output_dir FolderProcessor.video (Some "out") "clip.mp4"
  = Some "out/video_clip" /\
  FolderProcessor.media_output_dir FolderProcessor.image (Some "out") "clip.png"
  = Some "out/image_clip" /\
  "out/video_clip" <> "out/image_clip".
Proof.
  split; [reflexivity|]. split; [reflexivity|].
  apply (@kinds_never_share_a_directory (Some "out") "clip.mp4" "clip.png");
    reflexivity.
Defined.

Lemma dev_discovery_matches_both_cases_witness :
  In "media/PHOTO.JPG"
     (snd (@Dev.find_media_files _ Examples.rt "media/" Examples.media_folder)).
Proof.
  apply (proj2 (@dev_discovery_matches_both_cases _ Examples.rt "media/"
                  Examples.media_folder "media/PHOTO.JPG" eq_refl)).
  exists "PHOTO.JPG". split; [reflexivity|]. split.
  - eexists. split; [reflexivity|]. cbn. tauto.
  - split; [reflexivity|]. right. reflexivity.
Defined.

(* ================================================================== *)
(** * Discovery, whatever the letter case of [fnmatch] *)
(* ================================================================== *)

Lemma endswith_lower suf n :
  endswith suf n = true -> endswith (lower suf) (lower n) = true.
Proof.
  intros E. apply endswith_spec in E as (pre & ->).
  rewrite lower_append. apply endswith_app.
Qed.

(** A name that ends with a listed extension does so in lower case too. *)
Lemma has_suffix_lower suffixes n :
  forallb (fun s => String.eqb (lower s) s) suffixes = true ->
  has_suffix suffixes n = true -> has_suffix suffixes (lower n) = true.
Proof.
  intros L H. apply has_suffix_spec in H as (suffix & I & E).
  apply has_suffix_spec. exists suffix. split; [exact I|].
  rewrite forallb_forall in L. specialize (L suffix I).
  apply String.eqb_eq in L. rewrite <- L. now apply endswith_lower.
Qed.

Section DiscoveryClaim.
Context {W : Type} {R : Runtime W}.
Import FolderProcessor.

(** C6, as the code has it.  For a folder path without wildcard characters,
    with its trailing slashes removed: every entry of that directory whose
    name does not begin with a dot and ends with a video (image) extension
    of the list is found by [find_videos] ([find_images]); and whatever is
    found is an entry of that directory itself, not of a subdirectory, whose
    name does not begin with a dot and ends, letter case apart, with an
    extension of the list. *)
Theorem discovery_finds_visible_media_names folder_path (w : W) :
  let d := rstrip_slash folder_path in
  has_magic d = false ->
  (forall n, listed d n w -> is_hidden n = false ->
             (has_suffix video_suffixes n = true ->
              In (path_join d n) (find_videos folder_path w)) /\
             (has_suffix image_suffixes n = true ->
              In (path_join d n) (find_images folder_path w))) /\
  (forall p, In p (find_videos folder_path w) ->
             exists n, p = path_join d n /\ listed d n w /\
                       is_hidden n = false /\
                       has_suffix video_suffixes (lower n) = true) /\
  (forall p, In p (find_images folder_path w) ->
             exists n, p = path_join d n /\ listed d n w /\
                       is_hidden n = false /\
                       has_suffix image_suffixes (lower n) = true).
Proof.
  intros d M.
  split; [|split].
  - intros n L H. split; intros S.
    + rewrite find_videos_in_folder by exact M. apply in_matching. now exists n.
    + rewrite find_images_in_folder by exact M. apply in_matching. now exists n.
  - intros p I. rewrite find_videos_in_folder in I by exact M.
    apply in_matching in I as (n & E & L & H & S).
    exists n. repeat split; try assumption.
    now apply has_suffix_lower.
  - intros p I. rewrite find_images_in_folder in I by exact M.
    apply in_matching in I as (n & E & L & H & S).
    exists n. repeat split; try assumption.
    now apply has_suffix_lower.
Qed.

End DiscoveryClaim.

(** In the mixed folder the image [y.png] is found. *)
Lemma discovery_finds_visible_media_names_witness :
  has_magic (rstrip_slash "media/") = false /\
  In "media/y.png" (@FolderProcessor.find_images _ Examples.rt "media/"
                      Examples.media_folder).
Proof.
  assert (has_magic (rstrip_slash "media/") = false) as M by reflexivity.
  split; [exact M|].
  apply (proj1 (@discovery_finds_visible_media_names _ Examples.rt "media/"
                  Examples.media_folder M) "y.png").
  - eexists. split; [reflexivity|]. simpl. tauto.
  - reflexivity.
  - reflexivity.
Defined.

(** C6 as stated fails.  A file of the folder whose extension is on the
    list is not found when its name begins with a dot; and for a folder path
    with a wildcard, here the path of no folder, files of other folders are
    found. *)
Lemma hidden_file_is_not_discovered :
  @listed _ Examples.rt "media" ".x.png" Examples.media_folder /\
  path_suffix "media/.x.png" = ".png" /\
  In "*.png" FolderProcessor.image_extensions /\
  @os_scandir _ Scenes.expanding "m*" Scenes.two_folders = None /\
  @FolderProcessor.find_videos _ Scenes.expanding "m*" Scenes.two_folders
  = ["m1/a.mp4"; "m2/a.mp4"] /\
  ~ In "media/.x.png"
       (@FolderProcessor.find_images _ Examples.rt "media" Examples.media_folder).
Proof.
  split; [|split; [|split; [|split; [|split]]]].
  - eexists. split; [reflexivity|]. simpl. tauto.
  - reflexivity.
  - simpl. tauto.
  - reflexivity.
  - vm_compute. reflexivity.
  - vm_compute. intuition discriminate.
Qed.
